(** * Task Manager backend: authentication and authorization core

    A shallow embedding of the Express router [routes/auth.js], the
    middleware [middleware/auth.js] and the start-up code of the
    server, followed by the properties of the authentication core.

    Conventions of the embedding:
    - the document collection [User] is a list of records, in insertion
      order; a handler is a function from the collection (and the
      request) to a response and the collection afterwards;
    - [await] is sequencing, a rejected promise or a [throw] is the left
      injection of a sum, and [try { .. } catch (error) { .. }] is a
      match on it;
    - the clock is passed in as [now], in seconds;
    - [jsonwebtoken] is modelled symbolically: a well-formed token is a
      payload together with the key its signature was made with, and
      the signature verifies under that key string only;
    - a request is what a handler finds of it; what the middleware the
      server mounts before the routers leaves of a request is
      [Server.mounted]. *)

From Stdlib Require Import ZArith List String Ascii Bool Lia.
Import ListNotations.
Local Open Scope string_scope.

(** MongoDB object identifiers, abstractly. *)
Definition ObjectId := nat.

(** A thrown JavaScript [Error]; handlers only ever read [message]. *)
Record Exn := Error { message : string }.

(** ** JavaScript values the handlers test *)
Module Js.

(** A property of a parsed JSON body that holds a string, or
    [undefined] when the property is absent. *)
Definition value := option string.

(** [!!v] *)
Definition truthy (v : value) : bool :=
  match v with
  | Some s => negb (s =? "")
  | None => false
  end.

(** [v || d] *)
Definition or_else (v : value) (d : string) : string :=
  match v with
  | Some s => if s =? "" then d else s
  | None => d
  end.

(** [arr.includes(x)] on an array of strings *)
Definition includes (arr : list string) (x : string) : bool :=
  existsb (String.eqb x) arr.

(** A request body: a JSON object whose properties hold strings, as
    the list of its own enumerable properties ([Object.keys] order). *)
Definition object := list (string * string).

(** [String(v)] *)
Definition toString (v : value) : string :=
  match v with
  | Some s => s
  | None => "undefined"
  end.

Definition keys (o : object) : list string := map fst o.

(** [o[k]] *)
Fixpoint get (o : object) (k : string) : value :=
  match o with
  | [] => None
  | (k', v) :: o' => if k' =? k then Some v else get o' k
  end.

End Js.

(** ** jsonwebtoken *)
Module Jwt.

Record Payload := { userId : ObjectId; iat : Z; exp : Z }.

(** A token string is either a well-formed JWS signed with HS256, seen
    as its payload and the key that produced its signature, or any
    other string.  A signature is taken to verify under the key that
    made it and under no other string. *)
Inductive Token :=
| Jws (p : Payload) (key : string)
| Raw (s : string).

(** [!token] *)
Definition is_empty (t : Token) : bool :=
  match t with
  | Raw s => s =? ""
  | Jws _ _ => false
  end.

(** [jwtString.split('.').length] *)
Fixpoint parts (s : string) : nat :=
  match s with
  | EmptyString => 1
  | String c s' => if Ascii.eqb c "."%char then S (parts s') else parts s'
  end.

(** The [expiresIn] option, for the two spans the router uses. *)
Inductive Span := Hours (n : Z) | Days (n : Z).

Definition seconds (e : Span) : Z :=
  match e with
  | Hours n => n * 3600
  | Days n => n * 86400
  end.

(** [jwt.sign({ userId }, secret, { expiresIn })] at time [now]. *)
Definition sign (uid : ObjectId) (secret : string) (expiresIn : Span)
           (now : Z) : Exn + Token :=
  if secret =? "" then inl (Error "secretOrPrivateKey must have a value")
  else inr (Jws {| userId := uid; iat := now; exp := now + seconds expiresIn |}
                secret).

(** [jwt.verify(token, secret)] at time [now]: the library checks the
    shape (a string of other than three parts is malformed, one of
    three parts that does not decode is invalid), then the signature,
    then the expiry, and throws [JsonWebTokenError] or
    [TokenExpiredError] with these messages. *)
Definition verify (token : Token) (secret : string) (now : Z)
  : Exn + Payload :=
  match token with
  | Raw s =>
      if s =? "" then inl (Error "jwt must be provided")
      else if negb (parts s =? 3)%nat then inl (Error "jwt malformed")
      else inl (Error "invalid token")
  | Jws p key =>
      if secret =? "" then inl (Error "secret or public key must be provided")
      else if negb (key =? secret) then inl (Error "invalid signature")
      else if (exp p <=? now)%Z then inl (Error "jwt expired")
      else inr p
  end.

End Jwt.

(** ** process.env *)
Record Env := {
  JWT_SECRET : string;
  JWT_REFRESH_SECRET : string;
  NODE_ENV : string
}.

(** The environment as the operating system hands it over. *)
Record RawEnv := {
  raw_JWT_SECRET : Js.value;
  raw_JWT_REFRESH_SECRET : Js.value;
  raw_NODE_ENV : Js.value
}.

(** The defaults the server sets before it loads the router:
    [process.env.X = process.env.X || '...']. *)
Definition loadEnv (raw : RawEnv) : Env :=
  {| JWT_SECRET :=
       Js.or_else (raw_JWT_SECRET raw)
         "your-super-secret-jwt-key-change-this-in-production";
     JWT_REFRESH_SECRET :=
       Js.or_else (raw_JWT_REFRESH_SECRET raw)
         "your-super-secret-refresh-key-change-this-in-production";
     NODE_ENV := Js.or_else (raw_NODE_ENV raw) "development" |}.

(** ** The Password Hasher

    bcryptjs is outside the repository: the hasher is an interface. *)
Class PasswordHasher := {
  hash : string -> string;
  verify : string -> string -> bool
}.

(** ** The User model *)
Record User := {
  _id : ObjectId;
  name : string;
  email : string;
  password : string;
  role : string;
  active : bool;
  passwordChangedAt : option Z
}.

Definition Store := list User.

Definition set_active (b : bool) (u : User) : User :=
  {| _id := _id u; name := name u; email := email u; password := password u;
     role := role u; active := b; passwordChangedAt := passwordChangedAt u |}.

Definition set_name (s : string) (u : User) : User :=
  {| _id := _id u; name := s; email := email u; password := password u;
     role := role u; active := active u;
     passwordChangedAt := passwordChangedAt u |}.

Definition set_email (s : string) (u : User) : User :=
  {| _id := _id u; name := name u; email := s; password := password u;
     role := role u; active := active u;
     passwordChangedAt := passwordChangedAt u |}.

Definition set_password (s : string) (u : User) : User :=
  {| _id := _id u; name := name u; email := email u; password := s;
     role := role u; active := active u;
     passwordChangedAt := passwordChangedAt u |}.

Definition set_role (s : string) (u : User) : User :=
  {| _id := _id u; name := name u; email := email u; password := password u;
     role := s; active := active u;
     passwordChangedAt := passwordChangedAt u |}.

Definition set_passwordChangedAt (t : option Z) (u : User) : User :=
  {| _id := _id u; name := name u; email := email u; password := password u;
     role := role u; active := active u; passwordChangedAt := t |}.

(** [User.findOne(filter)]: the first document the filter accepts. *)
Definition findOne (filter : User -> bool) (st : Store) : option User :=
  find filter st.

(** [User.findById(id)] *)
Definition findById (id : ObjectId) (st : Store) : option User :=
  findOne (fun u => Nat.eqb (_id u) id) st.

(** [User.findByIdAndDelete(id)]: the document found, and the collection
    without it. *)
Fixpoint findByIdAndDelete (id : ObjectId) (st : Store)
  : option User * Store :=
  match st with
  | [] => (None, [])
  | u :: st' =>
      if Nat.eqb (_id u) id then (Some u, st')
      else let (r, st'') := findByIdAndDelete id st' in (r, u :: st'')
  end.

(** The collection's invariants: [_id] is a key, and so is [email]. *)
Definition store_ok (st : Store) : Prop :=
  NoDup (map _id st) /\ NoDup (map email st).

(** A fresh identifier for [new User(..)]. *)
Definition freshId (st : Store) : ObjectId := S (list_max (map _id st)).

(** ** Exceptions: [throw], and sequencing up to the first one *)
Definition throw {A : Type} (msg : string) : Exn + A := inl (Error msg).

Definition bind {A B : Type} (m : Exn + A) (k : A -> Exn + B) : Exn + B :=
  match m with
  | inl e => inl e
  | inr a => k a
  end.

Notation "'let*' x ':=' m 'in' k" := (bind m (fun x => k))
  (at level 10, x pattern, m at level 100, k at level 200, only parsing).

(** ** models/User.js *)
Module UserModel.
Section WithHasher.
Context {PH : PasswordHasher}.

(** A document in memory: its fields, and what mongoose tracks about
    it between [new User(..)] or a query and [save()]. *)
Record Doc := {
  fields : User;
  isNew : bool;
  modified : list string
}.

(** [doc.isModified(path)] *)
Definition isModified (d : Doc) (path : string) : bool :=
  isNew d || Js.includes (modified d) path.

(** Modelled from the spec: the schema of models/User.js, which is not
    among the sources. [role] is one of a closed enumeration. *)
Definition roles : list string := ["admin"; "user"].

(** Modelled from the spec: the schema defaults of models/User.js. A
    new identity is active and has no [passwordChangedAt]. *)
Definition newUser (st : Store) (name email password role : string) : Doc :=
  {| fields := {| _id := freshId st; name := name; email := email;
                  password := password; role := role; active := true;
                  passwordChangedAt := None |};
     isNew := true;
     modified := [] |}.

(** A document returned by a query. *)
Definition loaded (u : User) : Doc :=
  {| fields := u; isNew := false; modified := [] |}.

(** [doc[path] = ..] on a schema path, once the value is cast. *)
Definition update (d : Doc) (path : string) (f : User -> User) : Doc :=
  {| fields := f (fields d); isNew := isNew d;
     modified := path :: modified d |}.

(** mongoose's cast of a string to the schema type Boolean. *)
Definition castBoolean (s : string) : option bool :=
  if Js.includes ["true"; "1"; "yes"] s then Some true
  else if Js.includes ["false"; "0"; "no"] s then Some false
  else None.

(** Modelled from the spec: [doc[path] = value] with the schema of
    models/User.js, which is not among the sources: [name], [email],
    [password] and [role] are strings, [active] is a boolean, and a
    property outside the schema is dropped. *)
Definition assign (d : Doc) (path value : string) : Exn + Doc :=
  if path =? "name" then inr (update d path (set_name value))
  else if path =? "email" then inr (update d path (set_email value))
  else if path =? "password" then inr (update d path (set_password value))
  else if path =? "role" then inr (update d path (set_role value))
  else if path =? "active" then
    match castBoolean value with
    | Some b => inr (update d path (set_active b))
    | None => throw "User validation failed: active: Cast to Boolean failed"
    end
  else inr d.

(** Modelled from the spec: [user.comparePassword(candidate)] of
    models/User.js, the hasher's [verify] against the stored hash. *)
Definition comparePassword (u : User) (candidate : string) : bool :=
  verify candidate (password u).

(** Modelled from the spec: [user.changedPasswordAfter(JWTTimestamp)] of
    models/User.js; [passwordChangedAt] is later than the token's
    [iat]. Both are in seconds here. *)
Definition changedPasswordAfter (u : User) (JWTTimestamp : Z) : bool :=
  match passwordChangedAt u with
  | Some changed => (JWTTimestamp <? changed)%Z
  | None => false
  end.

(** Modelled from the spec: the pre-save hook of models/User.js. The
    stored password is the hasher's digest of the plaintext, and
    [passwordChangedAt] is set whenever the hash changes after
    creation. *)
Definition preSave (now : Z) (d : Doc) : User :=
  if isModified d "password" then
    let u := set_password (hash (password (fields d))) (fields d) in
    if isNew d then u else set_passwordChangedAt (Some now) u
  else fields d.

(** The collection after the document [u] is written: the document
    with its [_id] is replaced, a new one is appended. *)
Fixpoint write (u : User) (st : Store) : Store :=
  match st with
  | [] => [u]
  | v :: st' =>
      if Nat.eqb (_id v) (_id u) then u :: st' else v :: write u st'
  end.

(** Modelled from the spec: [doc.save()] with the schema of
    models/User.js, which is not among the sources. Validation of
    the role enumeration when the role was set, the pre-save hook,
    then the write, which the store refuses when the email was set
    and another identity holds it. *)
Definition save (now : Z) (d : Doc) (st : Store) : Exn + Store :=
  if isModified d "role" && negb (Js.includes roles (role (fields d))) then
    throw "User validation failed: role is not a valid enum value"
  else
    let u := preSave now d in
    if isModified d "email"
       && existsb (fun v => negb (Nat.eqb (_id v) (_id u))
                            && (email v =? email u)) st then
      throw "E11000 duplicate key error: email"
    else inr (write u st).

End WithHasher.
End UserModel.

(** ** Requests and responses *)

(** The [Authorization] header: the string ['Bearer '] followed by a
    token string, or any string that does not start so. *)
Inductive HeaderValue :=
| Bearer (token : Jwt.Token)
| Other (s : string).

(** [req.cookies], the object a cookie parser leaves on the request. *)
Record Cookies := {
  cookies_get_refreshToken : option Jwt.Token
}.

(** A request, by what a handler may read of it. [cookies] is
    [req.cookies]: the cookies the request carries, when a cookie
    parser ran before the handler, and [undefined] otherwise. *)
Record Request := {
  header_Authorization : option HeaderValue;
  cookies : option Cookies;
  body : Js.object;
  params_userId : ObjectId
}.

(** The [refreshToken] cookie of a request whose cookies were parsed. *)
Definition cookies_refreshToken (req : Request) : option Jwt.Token :=
  match cookies req with
  | Some jar => cookies_get_refreshToken jar
  | None => None
  end.

(** What the handlers pass to [res.json]. *)
#[warnings="-register-all"]
Inductive Json :=
| JStr (s : string)
| JBool (b : bool)
| JOid (i : ObjectId)
| JTok (t : Jwt.Token)
| JObj (props : list (string * Json)).

Record Cookie := {
  cookie_name : string;
  cookie_value : Jwt.Token;
  httpOnly : bool;
  secure : bool;
  sameSite : option string;
  maxAge : option Z
}.

Record Response := {
  status : nat;
  json : Json;
  cookie : option Cookie
}.

(** [res.status(code).json(j)] *)
Definition respond (code : nat) (j : Json) : Response :=
  {| status := code; json := j; cookie := None |}.

(** [res.status(code).json({ error: msg })] *)
Definition respond_error (code : nat) (msg : string) : Response :=
  respond code (JObj [("error", JStr msg)]).

(** ** middleware/auth.js *)
Module Middleware.

(** A middleware either calls [next()], with [req.user] and
    [req.token] set, or answers the request itself. *)
Inductive Outcome :=
| Next (user : User) (token : Jwt.Token)
| Reject (res : Response).

(** The [try] block of [auth]. *)
Definition auth_try (env : Env) (st : Store) (now : Z) (req : Request)
  : Exn + (User * Jwt.Token) :=
  match header_Authorization req with
  | Some (Bearer token) =>
      if Jwt.is_empty token then throw "No token provided"
      else
        let* decoded := Jwt.verify token (JWT_SECRET env) now in
        match findOne (fun u => Nat.eqb (_id u) (Jwt.userId decoded)
                                && active u) st with
        | None => throw "User not found or deactivated"
        | Some user =>
            if match passwordChangedAt user with
               | Some _ => true
               | None => false
               end
               && UserModel.changedPasswordAfter user (Jwt.iat decoded)
            then throw "User recently changed password. Please log in again"
            else inr (user, token)
        end
  | _ => throw "Invalid authorization header format"
  end.

Definition auth (env : Env) (st : Store) (now : Z) (req : Request) : Outcome :=
  match auth_try env st now req with
  | inr (user, token) => Next user token
  | inl error =>
      Reject (respond 401
                (JObj [("status", JStr "error");
                       ("message",
                        JStr (Js.or_else (Some (message error))
                                "Please authenticate"))]))
  end.

(** [checkRole(roles)], given [req.user]: [None] is [next()]. *)
Definition checkRole (roles : list string) (req_user : option User)
  : option Response :=
  match req_user with
  | None =>
      Some (respond 401
              (JObj [("status", JStr "error");
                     ("message", JStr "Please authenticate")]))
  | Some user =>
      if negb (Js.includes roles (role user)) then
        Some (respond 403
                (JObj [("status", JStr "error");
                       ("message",
                        JStr "You do not have permission to perform this action")]))
      else None
  end.

End Middleware.

(** ** The password pattern of the register handler

    [/^(?=.*[a-z])(?=.*[A-Z])(?=.*\d)(?=.*[@$!%*?&])[A-Za-z\d@$!%*?&]{8,}$/]

    A string is a sequence of 8-bit characters here; a character beyond
    that range would be in none of the classes of the pattern either. *)
Module PasswordRegex.

Definition between (lo hi c : ascii) : bool :=
  (N_of_ascii lo <=? N_of_ascii c)%N && (N_of_ascii c <=? N_of_ascii hi)%N.

Definition lower (c : ascii) : bool := between "a" "z" c.
Definition upper (c : ascii) : bool := between "A" "Z" c.
Definition digit (c : ascii) : bool := between "0" "9" c.

Definition symbols : list ascii := ["@"; "$"; "!"; "%"; "*"; "?"; "&"]%char.
Definition symbol (c : ascii) : bool := existsb (Ascii.eqb c) symbols.

(** [[A-Za-z\d@$!%*?&]] *)
Definition allowed (c : ascii) : bool :=
  upper c || lower c || digit c || symbol c.

(** What [.] does not match. *)
Definition lineTerminator (c : ascii) : bool :=
  (N_of_ascii c =? 10)%N || (N_of_ascii c =? 13)%N.

(** [(?=.*[cls])] at the start of [s]: some character of the class,
    with no line terminator before it. *)
Fixpoint lookahead (cls : ascii -> bool) (s : string) : bool :=
  match s with
  | EmptyString => false
  | String c s' => cls c || (negb (lineTerminator c) && lookahead cls s')
  end.

(** [[cls]*$] at the start of [s] *)
Fixpoint every (cls : ascii -> bool) (s : string) : bool :=
  match s with
  | EmptyString => true
  | String c s' => cls c && every cls s'
  end.

(** [passwordRegex.test(s)] *)
Definition test (s : string) : bool :=
  lookahead lower s && lookahead upper s && lookahead digit s
  && lookahead symbol s
  && (every allowed s && (8 <=? String.length s)%nat).

End PasswordRegex.

(** ** routes/auth.js *)
Module Routes.
Section WithHasher.
Context {PH : PasswordHasher}.

Import Middleware UserModel.

(** [generateToken(userId, type)] at time [now] *)
Definition generateToken (env : Env) (now : Z) (userId : ObjectId)
           (type : string) : Exn + Jwt.Token :=
  let secret :=
    if type =? "refresh" then JWT_REFRESH_SECRET env else JWT_SECRET env in
  let expiresIn :=
    if type =? "refresh" then Jwt.Days 7 else Jwt.Hours 1 in
  Jwt.sign userId secret expiresIn now.

(** The projection of a user the handlers answer with. *)
Definition publicUser (u : User) : list (string * Json) :=
  [("id", JOid (_id u)); ("name", JStr (name u));
   ("email", JStr (email u)); ("role", JStr (role u))].

(** The handler of [POST /register]. *)
Definition register (st : Store) (now : Z) (req : Request)
  : Response * Store :=
  let req_name := Js.get (body req) "name" in
  let req_email := Js.get (body req) "email" in
  let req_password := Js.get (body req) "password" in
  let req_role := Js.get (body req) "role" in
  if negb (Js.truthy req_name) || negb (Js.truthy req_email)
     || negb (Js.truthy req_password) then
    (respond_error 400 "All fields are required", st)
  else if negb (PasswordRegex.test (Js.toString req_password)) then
    (respond_error 400
       "Password must contain at least 8 characters, one uppercase letter, one lowercase letter, one number and one special character",
     st)
  else
    match findOne (fun u => email u =? Js.toString req_email) st with
    | Some _ => (respond_error 400 "Email already registered", st)
    | None =>
        let user := newUser st (Js.toString req_name) (Js.toString req_email)
                      (Js.toString req_password) (Js.or_else req_role "user") in
        match save now user st with
        | inl error => (respond_error 400 (message error), st)
        | inr st' =>
            (respond 201
               (JObj [("message", JStr "User created successfully");
                      ("user", JObj (publicUser (fields user)))]),
             st')
        end
    end.

(** The handler of [POST /login], once the rate limiter lets the
    request through. *)
Definition login (env : Env) (st : Store) (now : Z) (req : Request)
  : Response :=
  let req_email := Js.get (body req) "email" in
  let req_password := Js.get (body req) "password" in
  if negb (Js.truthy req_email) || negb (Js.truthy req_password) then
    respond_error 400 "Email and password are required"
  else
    match findOne (fun u => email u =? Js.toString req_email) st with
    | None => respond_error 401 "Invalid credentials"
    | Some user =>
        if negb (active user) then
          respond_error 401 "Account is deactivated"
        else if negb (comparePassword user (Js.toString req_password)) then
          respond_error 401 "Invalid credentials"
        else
          match (let* accessToken :=
                   generateToken env now (_id user) "access" in
                 let* refreshToken :=
                   generateToken env now (_id user) "refresh" in
                 inr (accessToken, refreshToken)) with
          | inl error => respond_error 400 (message error)
          | inr (accessToken, refreshToken) =>
              {| status := 200;
                 json := JObj [("user", JObj (publicUser user));
                               ("accessToken", JTok accessToken)];
                 cookie :=
                   Some {| cookie_name := "refreshToken";
                           cookie_value := refreshToken;
                           httpOnly := true;
                           secure := NODE_ENV env =? "production";
                           sameSite := Some "strict";
                           maxAge := Some (7 * 24 * 60 * 60 * 1000)%Z |} |}
          end
    end.

(** The [try] block of the handler of [POST /refresh-token].  Reading
    [req.cookies.refreshToken] throws a [TypeError] when [req.cookies]
    is [undefined]. *)
Definition refreshToken_try (env : Env) (st : Store) (now : Z)
           (req : Request) : Exn + Response :=
  match cookies req with
  | None =>
      throw "Cannot read properties of undefined (reading 'refreshToken')"
  | Some jar =>
      match cookies_get_refreshToken jar with
      | None => inr (respond_error 401 "No refresh token provided")
      | Some token =>
          if Jwt.is_empty token then
            inr (respond_error 401 "No refresh token provided")
          else
            let* decoded :=
              Jwt.verify token (JWT_REFRESH_SECRET env) now in
            match findById (Jwt.userId decoded) st with
            | None => inr (respond_error 401 "Invalid refresh token")
            | Some user =>
                if negb (active user) then
                  inr (respond_error 401 "Invalid refresh token")
                else
                  let* accessToken :=
                    generateToken env now (_id user) "access" in
                  inr (respond 200
                         (JObj [("accessToken", JTok accessToken)]))
            end
      end
  end.

(** The handler of [POST /refresh-token]: the [catch] answers every
    exception alike. *)
Definition refreshToken (env : Env) (st : Store) (now : Z) (req : Request)
  : Response :=
  match refreshToken_try env st now req with
  | inl _ => respond_error 401 "Invalid refresh token"
  | inr res => res
  end.

(** [updates.every(update => allowedUpdates.includes(update))] *)
Definition isValidOperation (allowedUpdates : list string)
           (updates : list string) : bool :=
  forallb (fun update => Js.includes allowedUpdates update) updates.

(** [updates.forEach(update => { user[update] = req.body[update] })];
    a key of the body always holds a value. *)
Fixpoint applyUpdates (user : Doc) (updates : list string)
         (req_body : Js.object) : Exn + Doc :=
  match updates with
  | [] => inr user
  | update :: rest =>
      match Js.get req_body update with
      | Some value =>
          let* user' := assign user update value in
          applyUpdates user' rest req_body
      | None => applyUpdates user rest req_body
      end
  end.

(** The handler of [PATCH /me], given [req.user]. *)
Definition patchMe (st : Store) (now : Z) (req_user : User) (req : Request)
  : Response * Store :=
  let updates := Js.keys (body req) in
  let allowedUpdates := ["name"; "email"; "password"] in
  if negb (isValidOperation allowedUpdates updates) then
    (respond_error 400 "Invalid updates", st)
  else
    match findById (_id req_user) st with
    | None => (respond_error 404 "User not found", st)
    | Some found =>
        match (let* user := applyUpdates (loaded found) updates (body req) in
               let* st' := save now user st in
               inr (user, st')) with
        | inl error => (respond_error 400 (message error), st)
        | inr (user, st') =>
            (respond 200 (JObj [("user", JObj (publicUser (fields user)))]),
             st')
        end
    end.

(** The handler of [PATCH /users/:userId]. *)
Definition patchUser (st : Store) (now : Z) (req : Request)
  : Response * Store :=
  let updates := Js.keys (body req) in
  let allowedUpdates := ["name"; "email"; "password"; "role"; "active"] in
  if negb (isValidOperation allowedUpdates updates) then
    (respond_error 400 "Invalid updates", st)
  else
    match findById (params_userId req) st with
    | None => (respond_error 404 "User not found", st)
    | Some found =>
        match (let* user := applyUpdates (loaded found) updates (body req) in
               let* st' := save now user st in
               inr (user, st')) with
        | inl error => (respond_error 400 (message error), st)
        | inr (user, st') =>
            (respond 200
               (JObj [("user",
                       JObj (publicUser (fields user)
                             ++ [("active", JBool (active (fields user)))]))]),
             st')
        end
    end.

(** The handler of [DELETE /users/:userId]. *)
Definition deleteUser (st : Store) (now : Z) (req : Request)
  : Response * Store :=
  match findById (params_userId req) st with
  | None => (respond_error 404 "User not found", st)
  | Some found =>
      (* Soft delete by setting active to false *)
      let user := update (loaded found) "active" (set_active false) in
      match save now user st with
      | inl error => (respond_error 400 (message error), st)
      | inr st' =>
          (respond 200 (JObj [("message", JStr "User deactivated successfully")]),
           st')
      end
  end.

(** The handler of [POST /create-admin]. *)
Definition createAdmin (st : Store) (now : Z) (req : Request)
  : Response * Store :=
  match findOne (fun u => role u =? "admin") st with
  | Some _ => (respond_error 400 "Admin user already exists", st)
  | None =>
      let adminUser :=
        newUser st "Admin User" "vijay@test.ac.in" "vijay123" "admin" in
      match save now adminUser st with
      | inl error => (respond_error 400 (message error), st)
      | inr st' =>
          (respond 201
             (JObj [("message", JStr "Admin user created successfully");
                    ("user", JObj (publicUser (fields adminUser)))]),
           st')
      end
  end.

(** *** The routes: each handler behind the middleware it is mounted
    with. *)

Definition behind_auth (env : Env) (st : Store) (now : Z) (req : Request)
           (handler : User -> Response * Store) : Response * Store :=
  match auth env st now req with
  | Reject res => (res, st)
  | Next user _ => handler user
  end.

Definition behind_role (roles : list string) (user : User) (st : Store)
           (handler : Response * Store) : Response * Store :=
  match checkRole roles (Some user) with
  | Some res => (res, st)
  | None => handler
  end.

(** [router.post('/register', auth, checkRole(['admin']), ..)] *)
Definition post_register (env : Env) (st : Store) (now : Z) (req : Request)
  : Response * Store :=
  behind_auth env st now req (fun user =>
    behind_role ["admin"] user st (register st now req)).

(** [router.post('/login', loginLimiter, ..)], for a request the
    limiter admits *)
Definition post_login (env : Env) (st : Store) (now : Z) (req : Request)
  : Response * Store :=
  (login env st now req, st).

(** [router.post('/refresh-token', ..)] *)
Definition post_refresh_token (env : Env) (st : Store) (now : Z)
           (req : Request) : Response * Store :=
  (refreshToken env st now req, st).

(** [router.patch('/me', auth, ..)] *)
Definition patch_me (env : Env) (st : Store) (now : Z) (req : Request)
  : Response * Store :=
  behind_auth env st now req (fun user => patchMe st now user req).

(** [router.patch('/users/:userId', auth, checkRole(['admin']), ..)] *)
Definition patch_user (env : Env) (st : Store) (now : Z) (req : Request)
  : Response * Store :=
  behind_auth env st now req (fun user =>
    behind_role ["admin"] user st (patchUser st now req)).

(** [router.delete('/users/:userId', auth, checkRole(['admin']), ..)] *)
Definition delete_user (env : Env) (st : Store) (now : Z) (req : Request)
  : Response * Store :=
  behind_auth env st now req (fun user =>
    behind_role ["admin"] user st (deleteUser st now req)).

(** [router.post('/create-admin', ..)] *)
Definition post_create_admin (env : Env) (st : Store) (now : Z)
           (req : Request) : Response * Store :=
  createAdmin st now req.

End WithHasher.
End Routes.

(** ** The older copy of the router kept in the repository: its
    [DELETE /users/:userId] *)
Module OldRoutes.

(** The handler of [DELETE /users/:userId]. *)
Definition deleteUser (st : Store) (req : Request) : Response * Store :=
  match findByIdAndDelete (params_userId req) st with
  | (None, _) => (respond_error 404 "User not found", st)
  | (Some _, st') =>
      (respond 200 (JObj [("message", JStr "User deleted successfully")]),
       st')
  end.

(** [router.delete('/users/:userId', auth, checkRole(['admin']), ..)] *)
Definition delete_user (env : Env) (st : Store) (now : Z) (req : Request)
  : Response * Store :=
  Routes.behind_auth env st now req (fun user =>
    Routes.behind_role ["admin"] user st (deleteUser st req)).

End OldRoutes.

(** ** The server: what it mounts, and its start-up *)
Module Server.

(** What a handler finds of a request that the middleware mounted
    before the routers (security headers, compression, rate limit,
    CORS, body parsers, logger) has passed on: [express.json] has
    parsed the body; no cookie parser is among them, so [req.cookies]
    is [undefined], whatever cookies the request carries. *)
Definition mounted (req : Request) : Request :=
  {| header_Authorization := header_Authorization req;
     cookies := None;
     body := body req;
     params_userId := params_userId req |}.

(** [app.use('/api/auth', authRoutes)]: a route of the router, behind
    that middleware. *)
Definition api_auth {A : Type} (route : Env -> Store -> Z -> Request -> A)
           (env : Env) (st : Store) (now : Z) (req : Request) : A :=
  route env st now (mounted req).

Section WithHasher.
Context {PH : PasswordHasher}.

Import UserModel.

(** The step of [connectDB] that creates the default admin if none
    exists; an exception leaves [connectDB]'s [try] block. *)
Definition createDefaultAdmin (st : Store) (now : Z) : Exn + Store :=
  match findOne (fun u => role u =? "admin") st with
  | None =>
      let adminUser :=
        newUser st "Admin User" "admin@test.ac.in" "admin123" "admin" in
      save now adminUser st
  | Some _ => inr st
  end.

End WithHasher.
End Server.

(** ** The properties as the specification words them *)
Module Spec.

Import PasswordRegex.

(** The strength predicate: minimum length 8, at least one uppercase,
    one lowercase, one digit, one symbol from the fixed set. *)
Definition strong (p : string) : bool :=
  let cs := list_ascii_of_string p in
  (8 <=? String.length p)%nat
  && existsb upper cs && existsb lower cs && existsb digit cs
  && existsb symbol cs.

(** The request [req] with another value for the [password] field of
    its body, if it has one. *)
Definition with_password (p : string) (req : Request) : Request :=
  {| header_Authorization := header_Authorization req;
     cookies := cookies req;
     body := map (fun kv : string * string =>
                    if fst kv =? "password" then (fst kv, p) else kv)
                 (body req);
     params_userId := params_userId req |}.

(** Two outcomes agree when both are the same exception, or both are
    values related by [R]. *)
Definition agree {A : Type} (R : A -> A -> Prop) (x y : Exn + A) : Prop :=
  match x, y with
  | inl e1, inl e2 => e1 = e2
  | inr a, inr b => R a b
  | _, _ => False
  end.

(** Two documents that differ at most in the password they hold. *)
Definition same_but_password (d1 d2 : UserModel.Doc) : Prop :=
  UserModel.isNew d1 = UserModel.isNew d2
  /\ UserModel.modified d1 = UserModel.modified d2
  /\ set_password "" (UserModel.fields d1)
     = set_password "" (UserModel.fields d2).

End Spec.

(** ** Sample data for the closed statements *)
Module Sample.

(** A stand-in for bcrypt: the digest is the plaintext behind a fixed
    prefix. *)
Definition hasher : PasswordHasher :=
  {| hash := fun p => "$2a$12$" ++ p;
     verify := fun p h => h =? "$2a$12$" ++ p |}.

Definition env : Env :=
  loadEnv {| raw_JWT_SECRET := None; raw_JWT_REFRESH_SECRET := None;
             raw_NODE_ENV := None |}.

Definition admin : User :=
  {| _id := 1; name := "Root"; email := "a@x.com";
     password := "$2a$12$Abcdef1!"; role := "admin"; active := true;
     passwordChangedAt := None |}.

(** An identity whose password was changed at time 200. *)
Definition alice : User :=
  {| _id := 2; name := "Alice"; email := "alice@x.com";
     password := "$2a$12$Wonder1and!"; role := "user"; active := true;
     passwordChangedAt := Some 200%Z |}.

(** A deactivated identity. *)
Definition bob : User :=
  {| _id := 3; name := "Bob"; email := "bob@x.com";
     password := "$2a$12$Builder9?"; role := "user"; active := false;
     passwordChangedAt := None |}.

Definition store : Store := [admin; alice; bob].

Definition request : Request :=
  {| header_Authorization := None; cookies := None;
     body := []; params_userId := 0 |}.

Definition with_body (b : Js.object) : Request :=
  {| header_Authorization := None; cookies := None;
     body := b; params_userId := 0 |}.

Definition with_bearer (t : Jwt.Token) (b : Js.object) (id : ObjectId)
  : Request :=
  {| header_Authorization := Some (Bearer t); cookies := None;
     body := b; params_userId := id |}.

(** A request as a cookie parser would leave it. *)
Definition with_cookie (t : Jwt.Token) : Request :=
  {| header_Authorization := None;
     cookies := Some {| cookies_get_refreshToken := Some t |};
     body := []; params_userId := 0 |}.

(** A token for [uid], issued at [t] with the lifetime [life]. *)
Definition token (uid : ObjectId) (t life : Z) (key : string) : Jwt.Token :=
  Jwt.Jws {| Jwt.userId := uid; Jwt.iat := t; Jwt.exp := (t + life)%Z |} key.

End Sample.

(** ** The global error handler of the server *)
Module ErrorHandler.

(** An error that reaches [app.use((err, req, res, next) => ..)]. *)
Record Err := {
  err_message : string;
  err_stack : string;
  statusCode : option nat
}.

(** [err.statusCode || 500] *)
Definition statusCode_or_500 (err : Err) : nat :=
  match statusCode err with
  | Some 0 => 500
  | Some code => code
  | None => 500
  end.

(** The handler: the message and the stack of the error go into the
    answer in development mode only. *)
Definition handle (env : Env) (err : Err) : Response :=
  let development := NODE_ENV env =? "development" in
  respond (statusCode_or_500 err)
    (JObj ([("status", JStr "error");
            ("message",
             JStr (if development then err_message err
                   else "Internal server error"))]
           ++ (if development then [("stack", JStr (err_stack err))]
               else []))).

End ErrorHandler.

(** ** [String.prototype.trim], on 8-bit characters *)
Module JsString.

Definition whiteSpace (c : ascii) : bool :=
  existsb (N.eqb (N_of_ascii c)) [9; 10; 11; 12; 13; 32; 160]%N.

Fixpoint trimStart (s : string) : string :=
  match s with
  | EmptyString => EmptyString
  | String c s' => if whiteSpace c then trimStart s' else s
  end.

Fixpoint trimEnd (s : string) : string :=
  match s with
  | EmptyString => EmptyString
  | String c s' =>
      match trimEnd s' with
      | EmptyString => if whiteSpace c then EmptyString else String c EmptyString
      | rest => String c rest
      end
  end.

Definition trim (s : string) : string := trimEnd (trimStart s).

End JsString.

(** ** models/Task.js *)
Module TaskModel.

Record Task := {
  _id : ObjectId;
  title : string;
  description : string;
  assignedTo : ObjectId;
  assignedBy : ObjectId;
  status : Js.value;
  createdAt : Z;
  completedAt : option Z;
  completionNotes : Js.value
}.

Definition TaskStore := list Task.

(** The [enum] of [status]. *)
Definition statuses : list string :=
  ["pending"; "accepted"; "in_progress"; "completed"].

Definition set_status (v : Js.value) (t : Task) : Task :=
  {| _id := _id t; title := title t; description := description t;
     assignedTo := assignedTo t; assignedBy := assignedBy t; status := v;
     createdAt := createdAt t; completedAt := completedAt t;
     completionNotes := completionNotes t |}.

(** [task.completionNotes = v]: the schema trims the string. *)
Definition set_completionNotes (v : string) (t : Task) : Task :=
  {| _id := _id t; title := title t; description := description t;
     assignedTo := assignedTo t; assignedBy := assignedBy t;
     status := status t; createdAt := createdAt t;
     completedAt := completedAt t;
     completionNotes := Some (JsString.trim v) |}.

Definition set_completedAt (d : Z) (t : Task) : Task :=
  {| _id := _id t; title := title t; description := description t;
     assignedTo := assignedTo t; assignedBy := assignedBy t;
     status := status t; createdAt := createdAt t; completedAt := Some d;
     completionNotes := completionNotes t |}.

(** The defaults of the schema, which mongoose applies to a document
    it loads: a [status] that is not stored reads ['pending']. *)
Definition applyDefaults (t : Task) : Task :=
  match status t with
  | Some _ => t
  | None => set_status (Some "pending") t
  end.

(** [Task.findById(id)] *)
Definition findById (id : ObjectId) (ts : TaskStore) : option Task :=
  option_map applyDefaults (find (fun t => Nat.eqb (_id t) id) ts).

(** The validators of the schema, which [save()] runs on the document:
    [title] and [description] are required strings, and a [status] that
    is set is one of the enumeration. The references [assignedTo] and
    [assignedBy] are always present in this record. *)
Definition valid (t : Task) : bool :=
  negb (title t =? "") && negb (description t =? "")
  && match status t with
     | Some s => Js.includes statuses s
     | None => true
     end.

Fixpoint write (t : Task) (ts : TaskStore) : TaskStore :=
  match ts with
  | [] => [t]
  | t' :: ts' =>
      if Nat.eqb (_id t') (_id t) then t :: ts' else t' :: write t ts'
  end.

(** What each failing validator reports, in the order mongoose runs
    them: the required paths, then the modified one. *)
Definition errors (t : Task) : list string :=
  ((if title t =? "" then ["title: Path `title` is required."] else [])
   ++ (if description t =? "" then
         ["description: Path `description` is required."]
       else [])
   ++ match status t with
      | Some s =>
          if Js.includes statuses s then []
          else [("status: `" ++ s
                 ++ "` is not a valid enum value for path `status`.")%string]
      | None => []
      end)%list.

(** The message of the [ValidationError]. *)
Definition validationMessage (t : Task) : string :=
  "Task validation failed: " ++ String.concat ", " (errors t).

(** [task.save()] *)
Definition save (t : Task) (ts : TaskStore) : Exn + TaskStore :=
  if valid t then inr (write t ts) else throw (validationMessage t).

End TaskModel.

(** ** routes/tasks.js: the two handlers that change a task's status *)
Module TaskRoutes.

(** [.populate(path, 'name email')]: the user the reference names, or
    [null] when there is none. *)
Record UserRef := {
  ref_id : ObjectId;
  ref_name : string;
  ref_email : string
}.

Definition populate (users : Store) (id : ObjectId) : option UserRef :=
  match findById id users with
  | Some u => Some {| ref_id := _id u; ref_name := name u;
                      ref_email := email u |}
  | None => None
  end.

(** A task with [assignedTo] and [assignedBy] populated. *)
Record Populated := {
  task : TaskModel.Task;
  assignedTo_user : option UserRef;
  assignedBy_user : option UserRef
}.

(** What a route of this router answers: an error object, or a task
    (or [null]). *)
Inductive Payload :=
| Plain (j : Json)
| TaskDoc (t : option Populated).

Record Answer := {
  code : nat;
  payload : Payload
}.

Definition answer_error (c : nat) (msg : string) : Answer :=
  {| code := c; payload := Plain (JObj [("error", JStr msg)]) |}.

(** [Task.findById(id).populate('assignedTo', ..).populate('assignedBy', ..)] *)
Definition findPopulated (users : Store) (id : ObjectId) (ts : TaskModel.TaskStore)
  : option Populated :=
  match TaskModel.findById id ts with
  | Some t => Some {| task := t;
                      assignedTo_user := populate users (TaskModel.assignedTo t);
                      assignedBy_user := populate users (TaskModel.assignedBy t) |}
  | None => None
  end.

(** The handler of [PATCH /:taskId/status], given [req.user]. *)
Definition updateStatus (users : Store) (ts : TaskModel.TaskStore) (now : Z)
           (req_user : User) (taskId : ObjectId) (req : Request)
  : Answer * TaskModel.TaskStore :=
  let req_status := Js.get (body req) "status" in
  let req_completionNotes := Js.get (body req) "completionNotes" in
  match TaskModel.findById taskId ts with
  | None => (answer_error 404 "Task not found", ts)
  | Some found =>
      if negb (Nat.eqb (TaskModel.assignedTo found) (_id req_user))
         && negb (role req_user =? "admin") then
        (answer_error 403 "Not authorized to update this task", ts)
      else
        let task1 := TaskModel.set_status req_status found in
        let task2 :=
          if Js.truthy req_completionNotes then
            TaskModel.set_completionNotes (Js.toString req_completionNotes) task1
          else task1 in
        let task3 :=
          if match req_status with
             | Some s => s =? "completed"
             | None => false
             end
          then TaskModel.set_completedAt now task2 else task2 in
        match TaskModel.save task3 ts with
        | inl error => (answer_error 400 (message error), ts)
        | inr ts' =>
            ({| code := 200;
                payload := TaskDoc (findPopulated users (TaskModel._id task3) ts') |},
             ts')
        end
  end.

(** The handler of [POST /:taskId/accept], given [req.user]. *)
Definition accept (users : Store) (ts : TaskModel.TaskStore) (req_user : User)
           (taskId : ObjectId) : Answer * TaskModel.TaskStore :=
  match TaskModel.findById taskId ts with
  | None => (answer_error 404 "Task not found", ts)
  | Some found =>
      if negb (Nat.eqb (TaskModel.assignedTo found) (_id req_user)) then
        (answer_error 403 "Not authorized to accept this task", ts)
      else
        let task1 := TaskModel.set_status (Some "in_progress") found in
        match TaskModel.save task1 ts with
        | inl error => (answer_error 400 (message error), ts)
        | inr ts' =>
            ({| code := 200;
                payload := TaskDoc (findPopulated users (TaskModel._id task1) ts') |},
             ts')
        end
  end.

(** [router.patch('/:taskId/status', auth, ..)] *)
Definition patch_status (env : Env) (users : Store) (ts : TaskModel.TaskStore)
           (now : Z) (taskId : ObjectId) (req : Request)
  : Answer * TaskModel.TaskStore :=
  match Middleware.auth env users now req with
  | Middleware.Reject res =>
      ({| code := status res; payload := Plain (json res) |}, ts)
  | Middleware.Next user _ => updateStatus users ts now user taskId req
  end.

(** [router.post('/:taskId/accept', auth, ..)] *)
Definition post_accept (env : Env) (users : Store) (ts : TaskModel.TaskStore)
           (now : Z) (taskId : ObjectId) (req : Request)
  : Answer * TaskModel.TaskStore :=
  match Middleware.auth env users now req with
  | Middleware.Reject res =>
      ({| code := status res; payload := Plain (json res) |}, ts)
  | Middleware.Next user _ => accept users ts user taskId
  end.

End TaskRoutes.

(** ** Sample tasks for the closed statements *)
Module SampleTasks.

(** A task of Alice, completed at time 90. *)
Definition report : TaskModel.Task :=
  {| TaskModel._id := 10; TaskModel.title := "Report";
     TaskModel.description := "Write the quarterly report";
     TaskModel.assignedTo := 2; TaskModel.assignedBy := 1;
     TaskModel.status := Some "completed"; TaskModel.createdAt := 50;
     TaskModel.completedAt := Some 90%Z;
     TaskModel.completionNotes := Some "sent" |}.

(** A task of Bob, not yet accepted. *)
Definition audit : TaskModel.Task :=
  {| TaskModel._id := 11; TaskModel.title := "Audit";
     TaskModel.description := "Check the accounts";
     TaskModel.assignedTo := 3; TaskModel.assignedBy := 1;
     TaskModel.status := Some "pending"; TaskModel.createdAt := 60;
     TaskModel.completedAt := None; TaskModel.completionNotes := None |}.

Definition store : TaskModel.TaskStore := [report; audit].

End SampleTasks.

(** * Properties *)

(** A collection is well-formed when the listed keys are pairwise
    distinct; on closed collections this settles it. *)
Ltac closed_store_ok :=
  split; cbn; repeat constructor; cbn; intuition discriminate.

(** ** Basic facts about the embedding *)

Lemma or_else_nonempty (v : Js.value) (d : string) :
  d <> "" -> Js.or_else v d <> "".
Proof.
  intros Hd. unfold Js.or_else.
  destruct v as [s|]; [|exact Hd].
  destruct (s =? "") eqn:E; [exact Hd|].
  now apply String.eqb_neq.
Qed.

Lemma loadEnv_JWT_SECRET_nonempty (raw : RawEnv) :
  (JWT_SECRET (loadEnv raw) =? "") = false.
Proof. apply String.eqb_neq, or_else_nonempty. discriminate. Qed.

Lemma loadEnv_JWT_REFRESH_SECRET_nonempty (raw : RawEnv) :
  (JWT_REFRESH_SECRET (loadEnv raw) =? "") = false.
Proof. apply String.eqb_neq, or_else_nonempty. discriminate. Qed.

(** A token signed now with a non-empty key verifies under that key, for
    any positive lifetime. *)
Lemma verify_sign_same (uid : ObjectId) (secret : string) (e : Jwt.Span)
      (now : Z) :
  (secret =? "") = false -> (0 < Jwt.seconds e)%Z ->
  exists t p, Jwt.sign uid secret e now = inr t
              /\ Jwt.verify t secret now = inr p
              /\ Jwt.userId p = uid /\ Jwt.iat p = now.
Proof.
  intros Hs He. unfold Jwt.sign. rewrite Hs.
  eexists; eexists; split; [reflexivity|].
  unfold Jwt.verify. rewrite Hs, String.eqb_refl. cbn [negb Jwt.exp].
  destruct (Z.leb_spec (now + Jwt.seconds e) now) as [H|H]; [lia|].
  repeat split.
Qed.

(** A well-formed token never verifies under a key other than the one
    that signed it. *)
Lemma verify_other_key (p : Jwt.Payload) (key secret : string) (now : Z) :
  (secret =? "") = false -> key <> secret ->
  Jwt.verify (Jwt.Jws p key) secret now = inl (Error "invalid signature").
Proof.
  intros Hs Hk. unfold Jwt.verify. rewrite Hs.
  apply String.eqb_neq in Hk. now rewrite Hk.
Qed.

(** A string that is not a well-formed token never verifies. *)
Lemma verify_raw (s secret : string) (now : Z) :
  exists e, Jwt.verify (Jwt.Raw s) secret now = inl e.
Proof.
  unfold Jwt.verify.
  destruct (s =? ""); [|destruct (negb (Jwt.parts s =? 3)%nat)]; eauto.
Qed.

(** ** The refresh handler, by what it finds of the cookies *)

(** When [req.cookies] is [undefined], reading the cookie throws and the
    [catch] answers. *)
Lemma refreshToken_undefined_cookies (env : Env) (st : Store) (now : Z)
      (req : Request) :
  cookies req = None ->
  Routes.refreshToken env st now req
  = respond_error 401 "Invalid refresh token".
Proof.
  intros Hc. unfold Routes.refreshToken, Routes.refreshToken_try.
  now rewrite Hc.
Qed.

(** When the cookies were parsed and hold a token, the handler verifies
    it and looks its subject up. *)
Lemma refreshToken_parsed (env : Env) (st : Store) (now : Z) (req : Request)
      (token : Jwt.Token) :
  cookies_refreshToken req = Some token ->
  Routes.refreshToken env st now req
  = if Jwt.is_empty token then
      respond_error 401 "No refresh token provided"
    else
      match (let* decoded :=
               Jwt.verify token (JWT_REFRESH_SECRET env) now in
             match findById (Jwt.userId decoded) st with
             | None => inr (respond_error 401 "Invalid refresh token")
             | Some user =>
                 if negb (active user) then
                   inr (respond_error 401 "Invalid refresh token")
                 else
                   let* accessToken :=
                     Routes.generateToken env now (_id user) "access" in
                   inr (respond 200
                          (JObj [("accessToken", JTok accessToken)]))
             end) with
      | inl _ => respond_error 401 "Invalid refresh token"
      | inr res => res
      end.
Proof.
  unfold cookies_refreshToken, Routes.refreshToken, Routes.refreshToken_try.
  destruct (cookies req) as [jar|]; [|discriminate].
  intros ->. now destruct (Jwt.is_empty token).
Qed.

(** Without a token in the cookies the answer is 401. *)
Lemma refreshToken_no_token (env : Env) (st : Store) (now : Z)
      (req : Request) :
  cookies_refreshToken req = None ->
  status (Routes.refreshToken env st now req) = 401.
Proof.
  unfold cookies_refreshToken, Routes.refreshToken, Routes.refreshToken_try.
  destruct (cookies req) as [jar|]; [|reflexivity].
  now intros ->.
Qed.

(** The refresh route, as the server mounts it, never finds
    [req.cookies]. *)
Lemma mounted_refresh (env : Env) (st : Store) (now : Z) (req : Request) :
  Server.api_auth Routes.post_refresh_token env st now req
  = (respond_error 401 "Invalid refresh token", st).
Proof.
  unfold Server.api_auth, Routes.post_refresh_token.
  now rewrite refreshToken_undefined_cookies.
Qed.

(** ** What the auth middleware guarantees *)

(** Every rejection by [auth] carries the status 401. *)
Lemma auth_reject_401 (env : Env) (st : Store) (now : Z) (req : Request)
      (res : Response) :
  Middleware.auth env st now req = Middleware.Reject res -> status res = 401.
Proof.
  unfold Middleware.auth.
  destruct (Middleware.auth_try env st now req) as [e|[u t]]; [|discriminate].
  intros [= <-]. reflexivity.
Qed.

(** When [auth] lets a request through, the bearer token verified under
    the access secret, its subject resolved to an active identity, and
    that identity's password was not changed after the token was
    issued. *)
Lemma auth_next_inv (env : Env) (st : Store) (now : Z) (req : Request)
      (user : User) (token : Jwt.Token) :
  Middleware.auth env st now req = Middleware.Next user token ->
  header_Authorization req = Some (Bearer token)
  /\ exists p,
      Jwt.verify token (JWT_SECRET env) now = inr p
      /\ findOne (fun u => Nat.eqb (_id u) (Jwt.userId p) && active u) st
         = Some user
      /\ UserModel.changedPasswordAfter user (Jwt.iat p) = false.
Proof.
  unfold Middleware.auth, Middleware.auth_try, throw, bind.
  destruct (header_Authorization req) as [[tok|s]|]; try discriminate.
  destruct (Jwt.is_empty tok); [discriminate|].
  destruct (Jwt.verify tok (JWT_SECRET env) now) as [e|p] eqn:Hver;
    [discriminate|].
  destruct (findOne _ st) as [u|] eqn:Hfind; [|discriminate].
  destruct (passwordChangedAt u) as [t|] eqn:Hpca; cbn [andb].
  - destruct (UserModel.changedPasswordAfter u (Jwt.iat p)) eqn:Hcpa;
      [discriminate|].
    intros [= <- <-]. split; [reflexivity|]. exists p.
    repeat split; assumption.
  - intros [= <- <-]. split; [reflexivity|]. exists p.
    repeat split; try assumption.
    unfold UserModel.changedPasswordAfter. now rewrite Hpca.
Qed.

(** [_id] is a key of a well-formed collection. *)
Lemma store_ok_id_key (st : Store) (u v : User) :
  NoDup (map _id st) -> In u st -> In v st -> _id u = _id v -> u = v.
Proof.
  induction st as [|w st IH]; cbn; [tauto|].
  intros Hnd [->|Hu] [->|Hv] Heq; inversion Hnd as [|? ? Hnotin Hnd']; subst.
  - reflexivity.
  - exfalso. apply Hnotin. rewrite Heq. now apply in_map.
  - exfalso. apply Hnotin. rewrite <- Heq. now apply in_map.
  - now apply IH.
Qed.

(** [email] is a key of a well-formed collection. *)
Lemma store_ok_email_key (st : Store) (u v : User) :
  NoDup (map email st) -> In u st -> In v st -> email u = email v -> u = v.
Proof.
  induction st as [|w st IH]; cbn; [tauto|].
  intros Hnd [->|Hu] [->|Hv] Heq; inversion Hnd as [|? ? Hnotin Hnd']; subst.
  - reflexivity.
  - exfalso. apply Hnotin. rewrite Heq. now apply in_map.
  - exfalso. apply Hnotin. rewrite <- Heq. now apply in_map.
  - now apply IH.
Qed.

(** What a successful [findOne] tells. *)
Lemma findOne_some (f : User -> bool) (st : Store) (u : User) :
  findOne f st = Some u -> In u st /\ f u = true.
Proof. apply find_some. Qed.

(** The auth middleware rejects, with 401, every bearer token issued before
    the password of the identity it names was last changed. *)
Lemma auth_rejects_token_older_than_password (env : Env) (st : Store)
      (now : Z) (req : Request) (u : User) (p : Jwt.Payload) (key : string)
      (changed : Z) :
  store_ok st -> In u st -> passwordChangedAt u = Some changed ->
  header_Authorization req = Some (Bearer (Jwt.Jws p key)) ->
  Jwt.userId p = _id u -> (Jwt.iat p < changed)%Z ->
  exists res, Middleware.auth env st now req = Middleware.Reject res
              /\ status res = 401.
Proof.
  intros [Hids _] Hin Hpca Hhdr Hsub Hold.
  destruct (Middleware.auth env st now req) as [user token|res] eqn:Hauth.
  - exfalso.
    apply auth_next_inv in Hauth as (Hh & q & Hver & Hfind & Hcpa).
    rewrite Hhdr in Hh. injection Hh as <-.
    assert (q = p) as ->.
    { unfold Jwt.verify in Hver.
      destruct (JWT_SECRET env =? ""); [discriminate|].
      destruct (negb (key =? JWT_SECRET env)); [discriminate|].
      destruct (Jwt.exp p <=? now)%Z; [discriminate|]. congruence. }
    apply findOne_some in Hfind as [Hin' Hf].
    apply andb_prop in Hf as [Hid _]. apply Nat.eqb_eq in Hid.
    assert (user = u) as -> by (apply (store_ok_id_key st); congruence).
    unfold UserModel.changedPasswordAfter in Hcpa. rewrite Hpca in Hcpa.
    apply Z.ltb_ge in Hcpa. lia.
  - exists res. split; [reflexivity|]. now apply auth_reject_401 in Hauth.
Qed.

(** ** C1: a token issued before the last password change is refused *)

(** C1. For an identity of a well-formed collection whose password was
    last changed at [changed], and a token that names it and was issued
    before that: at every time, the auth middleware rejects with 401 a
    request that presents the token as bearer token, and the refresh
    route, as the server mounts it, answers 401 to a request that
    presents the token in the cookie, and leaves the collection as it
    is. *)
Theorem stale_tokens_are_rejected (env : Env) (st : Store) (now : Z)
        (req : Request) (u : User) (p : Jwt.Payload) (key : string)
        (changed : Z) :
  store_ok st -> In u st -> passwordChangedAt u = Some changed ->
  Jwt.userId p = _id u -> (Jwt.iat p < changed)%Z ->
  (header_Authorization req = Some (Bearer (Jwt.Jws p key)) ->
   exists res, Middleware.auth env st now req = Middleware.Reject res
               /\ status res = 401)
  /\ (cookies_refreshToken req = Some (Jwt.Jws p key) ->
      Server.api_auth Routes.post_refresh_token env st now req
      = (respond_error 401 "Invalid refresh token", st)).
Proof.
  intros Hok Hin Hpca Hsub Hold. split.
  - intros Hhdr.
    now apply (auth_rejects_token_older_than_password env st now req u p key
                 changed).
  - intros _. apply mounted_refresh.
Qed.

Lemma stale_tokens_are_rejected_witness :
  let env := Sample.env in
  let stale_access := Sample.token 2 100 3600 (JWT_SECRET env) in
  let stale_refresh := Sample.token 2 100 604800 (JWT_REFRESH_SECRET env) in
  passwordChangedAt Sample.alice = Some 200%Z
  /\ (exists res,
        Middleware.auth env Sample.store 300
          (Sample.with_bearer stale_access [] 0)
        = Middleware.Reject res
        /\ status res = 401)
  /\ Server.api_auth Routes.post_refresh_token env Sample.store 300
       (Sample.with_cookie stale_refresh)
     = (respond_error 401 "Invalid refresh token", Sample.store).
Proof.
  cbv zeta.
  assert (Hok : store_ok Sample.store) by closed_store_ok.
  assert (Hin : In Sample.alice Sample.store) by (cbn; auto).
  split; [reflexivity|]. split.
  - apply (proj1 (stale_tokens_are_rejected Sample.env Sample.store 300
                    (Sample.with_bearer
                       (Sample.token 2 100 3600 (JWT_SECRET Sample.env)) [] 0)
                    Sample.alice
                    {| Jwt.userId := 2; Jwt.iat := 100;
                       Jwt.exp := (100 + 3600)%Z |}
                    (JWT_SECRET Sample.env) 200
                    Hok Hin eq_refl eq_refl eq_refl)).
    reflexivity.
  - apply (proj2 (stale_tokens_are_rejected Sample.env Sample.store 300
                    (Sample.with_cookie
                       (Sample.token 2 100 604800
                          (JWT_REFRESH_SECRET Sample.env)))
                    Sample.alice
                    {| Jwt.userId := 2; Jwt.iat := 100;
                       Jwt.exp := (100 + 604800)%Z |}
                    (JWT_REFRESH_SECRET Sample.env) 200
                    Hok Hin eq_refl eq_refl eq_refl)).
    reflexivity.
Defined.

(** The handler itself never reads [passwordChangedAt]: on a request
    whose cookies were parsed, which the server does not hand it, an
    unexpired refresh token of an active identity is accepted however
    long before the last password change it was issued. *)
Lemma parsed_refresh_ignores_passwordChangedAt (raw : RawEnv) (st : Store)
      (now : Z) (req : Request) (u : User) (p : Jwt.Payload) :
  cookies_refreshToken req
  = Some (Jwt.Jws p (JWT_REFRESH_SECRET (loadEnv raw))) ->
  (now < Jwt.exp p)%Z ->
  findById (Jwt.userId p) st = Some u -> active u = true ->
  Routes.refreshToken (loadEnv raw) st now req
  = respond 200
      (JObj [("accessToken",
              JTok (Jwt.Jws {| Jwt.userId := _id u; Jwt.iat := now;
                               Jwt.exp := (now + 3600)%Z |}
                      (JWT_SECRET (loadEnv raw))))]).
Proof.
  intros Hc Hexp Hfind Hact.
  rewrite (refreshToken_parsed _ _ _ _ _ Hc). cbn [Jwt.is_empty].
  unfold Jwt.verify. rewrite loadEnv_JWT_REFRESH_SECRET_nonempty.
  rewrite String.eqb_refl. cbn [negb].
  destruct (Z.leb_spec (Jwt.exp p) now) as [H|_]; [lia|].
  cbn [bind]. rewrite Hfind, Hact. cbn [negb].
  unfold Routes.generateToken.
  change ("access" =? "refresh") with false. cbv iota.
  unfold Jwt.sign. rewrite loadEnv_JWT_SECRET_nonempty. reflexivity.
Qed.

(** ** C3: what a rejected token tells the caller *)

(** C3, as the code has it. The auth middleware answers an expired token
    that carries a good signature and a token signed with another key
    with the same status 401, and with the message of the exception
    [jwt.verify] threw: ['jwt expired'] for the first, ['invalid
    signature'] for the second. *)
Theorem auth_expired_and_forged_responses (raw : RawEnv) (st : Store)
        (now : Z) (req1 req2 : Request) (p1 p2 : Jwt.Payload) (key : string) :
  header_Authorization req1
  = Some (Bearer (Jwt.Jws p1 (JWT_SECRET (loadEnv raw)))) ->
  (Jwt.exp p1 <= now)%Z ->
  header_Authorization req2 = Some (Bearer (Jwt.Jws p2 key)) ->
  key <> JWT_SECRET (loadEnv raw) ->
  Middleware.auth (loadEnv raw) st now req1
  = Middleware.Reject
      (respond 401 (JObj [("status", JStr "error");
                          ("message", JStr "jwt expired")]))
  /\ Middleware.auth (loadEnv raw) st now req2
     = Middleware.Reject
         (respond 401 (JObj [("status", JStr "error");
                             ("message", JStr "invalid signature")])).
Proof.
  intros H1 Hexp H2 Hkey.
  apply String.eqb_neq in Hkey.
  unfold Middleware.auth, Middleware.auth_try.
  rewrite H1, H2. cbn [Jwt.is_empty Jwt.verify].
  rewrite loadEnv_JWT_SECRET_nonempty, Hkey, String.eqb_refl. cbn [negb].
  apply Z.leb_le in Hexp. rewrite Hexp.
  split; reflexivity.
Qed.

Lemma auth_expired_and_forged_responses_witness :
  let env := Sample.env in
  let expired := Sample.token 1 0 3600 (JWT_SECRET env) in
  let forged := Sample.token 1 4000 3600 "key of an attacker" in
  Middleware.auth env Sample.store 5000 (Sample.with_bearer expired [] 0)
  = Middleware.Reject
      (respond 401 (JObj [("status", JStr "error");
                          ("message", JStr "jwt expired")]))
  /\ Middleware.auth env Sample.store 5000 (Sample.with_bearer forged [] 0)
     = Middleware.Reject
         (respond 401 (JObj [("status", JStr "error");
                             ("message", JStr "invalid signature")])).
Proof.
  apply (auth_expired_and_forged_responses
           {| raw_JWT_SECRET := None; raw_JWT_REFRESH_SECRET := None;
              raw_NODE_ENV := None |}
           Sample.store 5000
           (Sample.with_bearer
              (Sample.token 1 0 3600 (JWT_SECRET Sample.env)) [] 0)
           (Sample.with_bearer
              (Sample.token 1 4000 3600 "key of an attacker") [] 0)
           {| Jwt.userId := 1; Jwt.iat := 0; Jwt.exp := 0 + 3600 |}
           {| Jwt.userId := 1; Jwt.iat := 4000; Jwt.exp := 4000 + 3600 |}
           "key of an attacker").
  - reflexivity.
  - vm_compute; discriminate.
  - reflexivity.
  - vm_compute; discriminate.
Defined.

(** C3 as stated fails: the two rejections below have the same status
    and different messages. *)
Lemma auth_tells_expired_from_forged :
  let env := Sample.env in
  let expired := Sample.token 1 0 3600 (JWT_SECRET env) in
  let forged := Sample.token 1 4000 3600 "key of an attacker" in
  exists res1 res2,
    Middleware.auth env Sample.store 5000 (Sample.with_bearer expired [] 0)
    = Middleware.Reject res1
    /\ Middleware.auth env Sample.store 5000 (Sample.with_bearer forged [] 0)
       = Middleware.Reject res2
    /\ status res1 = status res2
    /\ json res1 <> json res2.
Proof.
  cbv zeta. eexists; eexists.
  split; [reflexivity|]. split; [reflexivity|].
  split; [reflexivity|]. cbn. discriminate.
Qed.

(** ** C2: what a failed login tells the caller *)

(** C2, as the code has it. Of the login requests that carry an email
    and a password, the one whose email is unknown and the one with a
    wrong password for an active identity get the same answer, 401
    ['Invalid credentials']; the one for a deactivated identity gets
    401 ['Account is deactivated'], whatever its password. *)
Theorem login_failure_responses {PH : PasswordHasher} (env : Env)
        (st : Store) (now : Z) (req : Request) :
  Js.truthy (Js.get (body req) "email") = true ->
  Js.truthy (Js.get (body req) "password") = true ->
  let found :=
    findOne (fun u => email u =? Js.toString (Js.get (body req) "email")) st in
  (found = None ->
   Routes.login env st now req = respond_error 401 "Invalid credentials")
  /\ (forall u, found = Some u -> active u = true ->
      UserModel.comparePassword u (Js.toString (Js.get (body req) "password"))
      = false ->
      Routes.login env st now req = respond_error 401 "Invalid credentials")
  /\ (forall u, found = Some u -> active u = false ->
      Routes.login env st now req = respond_error 401 "Account is deactivated").
Proof.
  intros He Hp found. subst found. unfold Routes.login.
  rewrite He, Hp. cbn [negb orb].
  repeat split.
  - intros ->. reflexivity.
  - intros u -> Hact Hcmp. now rewrite Hact, Hcmp.
  - intros u -> Hact. now rewrite Hact.
Qed.

Lemma login_failure_responses_witness :
  let unknown := Sample.with_body [("email", "nobody@x.com");
                                   ("password", "Secret12!")] in
  let wrong := Sample.with_body [("email", "alice@x.com");
                                 ("password", "Secret12!")] in
  let dead := Sample.with_body [("email", "bob@x.com");
                                ("password", "Builder9?")] in
  @Routes.login Sample.hasher Sample.env Sample.store 0 unknown
  = respond_error 401 "Invalid credentials"
  /\ @Routes.login Sample.hasher Sample.env Sample.store 0 wrong
     = respond_error 401 "Invalid credentials"
  /\ @Routes.login Sample.hasher Sample.env Sample.store 0 dead
     = respond_error 401 "Account is deactivated".
Proof.
  cbv zeta. split; [|split].
  - apply (@login_failure_responses Sample.hasher Sample.env Sample.store 0
             (Sample.with_body [("email", "nobody@x.com");
                                ("password", "Secret12!")]));
      reflexivity.
  - apply (proj1 (proj2
             (@login_failure_responses Sample.hasher Sample.env Sample.store 0
                (Sample.with_body [("email", "alice@x.com");
                                   ("password", "Secret12!")])
                eq_refl eq_refl)) Sample.alice); reflexivity.
  - apply (proj2 (proj2
             (@login_failure_responses Sample.hasher Sample.env Sample.store 0
                (Sample.with_body [("email", "bob@x.com");
                                   ("password", "Builder9?")])
                eq_refl eq_refl)) Sample.bob); reflexivity.
Defined.

(** C2 as stated fails: a login for a deactivated identity, here with
    its right password, is answered otherwise than a login with an
    unknown email. *)
Lemma login_tells_deactivated_from_unknown :
  let unknown := Sample.with_body [("email", "nobody@x.com");
                                   ("password", "Builder9?")] in
  let dead := Sample.with_body [("email", "bob@x.com");
                                ("password", "Builder9?")] in
  findOne (fun u => email u =? "nobody@x.com") Sample.store = None
  /\ findOne (fun u => email u =? "bob@x.com") Sample.store = Some Sample.bob
  /\ active Sample.bob = false
  /\ status (@Routes.login Sample.hasher Sample.env Sample.store 0 unknown)
     = status (@Routes.login Sample.hasher Sample.env Sample.store 0 dead)
  /\ json (@Routes.login Sample.hasher Sample.env Sample.store 0 unknown)
     <> json (@Routes.login Sample.hasher Sample.env Sample.store 0 dead).
Proof.
  cbv zeta. repeat split. cbn. discriminate.
Qed.

(** ** C5: a deactivated identity does not authenticate *)

(** A filter that accepts a document of the collection finds one. *)
Lemma findOne_finds (f : User -> bool) (st : Store) (u : User) :
  In u st -> f u = true -> exists v, findOne f st = Some v.
Proof.
  intros Hin Hf. unfold findOne.
  destruct (find f st) as [v|] eqn:E; [now exists v|].
  pose proof (find_none f st E u Hin) as H. congruence.
Qed.

(** What [jwt.verify] returns is the payload of the token, whose
    signature was made with the secret and which has not expired. *)
Lemma verify_inr_inv (p q : Jwt.Payload) (key secret : string) (now : Z) :
  Jwt.verify (Jwt.Jws p key) secret now = inr q ->
  q = p /\ key = secret /\ (now < Jwt.exp p)%Z.
Proof.
  unfold Jwt.verify.
  destruct (secret =? ""); [discriminate|].
  destruct (key =? secret) eqn:Hk; cbn [negb]; [|discriminate].
  destruct (Z.leb_spec (Jwt.exp p) now); [discriminate|].
  intros [= <-]. apply String.eqb_eq in Hk. auto.
Qed.

(** Looking an identity of a well-formed collection up by its [_id]
    finds that identity. *)
Lemma findById_in (st : Store) (u : User) :
  NoDup (map _id st) -> In u st -> findById (_id u) st = Some u.
Proof.
  intros Hnd Hin. unfold findById.
  destruct (findOne_finds (fun v => Nat.eqb (_id v) (_id u)) st u Hin
              (Nat.eqb_refl _)) as [v Hv].
  rewrite Hv. f_equal.
  apply findOne_some in Hv as [Hin' Hid]. apply Nat.eqb_eq in Hid.
  now apply (store_ok_id_key st).
Qed.

(** C5. For an identity with [active = false] in a well-formed
    collection: a login with its email fails, the auth middleware rejects
    with 401 every bearer token that names it, and the refresh handler
    rejects every refresh token that names it. Conversely a login or a
    refresh that answers 200, and a request the middleware lets through, are
    those of an identity with [active = true]. *)
Theorem deactivated_identity_never_authenticates {PH : PasswordHasher}
        (env : Env) (st : Store) (now : Z) (req : Request) (u : User) :
  store_ok st -> In u st -> active u = false ->
  (Js.get (body req) "email" = Some (email u) ->
   Routes.login env st now req
   = respond_error 400 "Email and password are required"
   \/ Routes.login env st now req
      = respond_error 401 "Account is deactivated")
  /\ (forall p key,
      header_Authorization req = Some (Bearer (Jwt.Jws p key)) ->
      Jwt.userId p = _id u ->
      exists res, Middleware.auth env st now req = Middleware.Reject res
                  /\ status res = 401)
  /\ (forall p key,
      cookies_refreshToken req = Some (Jwt.Jws p key) ->
      Jwt.userId p = _id u ->
      Routes.refreshToken env st now req
      = respond_error 401 "Invalid refresh token")
  /\ (status (Routes.login env st now req) = 200 ->
      exists v, In v st /\ Js.get (body req) "email" = Some (email v)
                /\ active v = true)
  /\ (forall user token,
      Middleware.auth env st now req = Middleware.Next user token ->
      In user st /\ active user = true)
  /\ (status (Routes.refreshToken env st now req) = 200 ->
      exists v p key,
        cookies_refreshToken req = Some (Jwt.Jws p key)
        /\ In v st /\ _id v = Jwt.userId p /\ active v = true).
Proof.
  intros [Hids Hemails] Hin Hinactive.
  split; [|split; [|split; [|split; [|split]]]].
  - (* login *)
    intros He. unfold Routes.login. rewrite He.
    destruct (negb (Js.truthy (Some (email u)))
              || negb (Js.truthy (Js.get (body req) "password")));
      [now left|right].
    cbn [Js.toString].
    destruct (findOne_finds (fun v => email v =? email u) st u Hin
                (String.eqb_refl _)) as [v Hv].
    rewrite Hv. apply findOne_some in Hv as [Hin' Hm].
    apply String.eqb_eq in Hm.
    assert (v = u) as -> by now apply (store_ok_email_key st).
    now rewrite Hinactive.
  - (* the auth middleware *)
    intros p key Hhdr Hsub.
    destruct (Middleware.auth env st now req) as [user token|res] eqn:Hauth.
    + exfalso.
      apply auth_next_inv in Hauth as (Hh & q & Hver & Hfind & _).
      rewrite Hhdr in Hh. injection Hh as <-.
      apply verify_inr_inv in Hver as (-> & _ & _).
      apply findOne_some in Hfind as [Hin' Hf].
      apply andb_prop in Hf as [Hid Hact]. apply Nat.eqb_eq in Hid.
      assert (user = u) as -> by (apply (store_ok_id_key st); congruence).
      congruence.
    + exists res. split; [reflexivity|]. now apply auth_reject_401 in Hauth.
  - (* refresh *)
    intros p key Hc Hsub. rewrite (refreshToken_parsed _ _ _ _ _ Hc).
    cbn [Jwt.is_empty].
    destruct (Jwt.verify (Jwt.Jws p key) (JWT_REFRESH_SECRET env) now)
      as [e|q] eqn:Hver; cbn [bind]; [reflexivity|].
    apply verify_inr_inv in Hver as (-> & _ & _).
    rewrite Hsub, (findById_in st u Hids Hin), Hinactive. reflexivity.
  - (* a successful login *)
    unfold Routes.login.
    destruct (Js.get (body req) "email") as [e|] eqn:He;
      [|cbn; discriminate].
    destruct (negb (Js.truthy (Some e))
              || negb (Js.truthy (Js.get (body req) "password")));
      [cbn; discriminate|].
    cbn [Js.toString].
    destruct (findOne (fun v => email v =? e) st) as [v|] eqn:Hv;
      [|cbn; discriminate].
    apply findOne_some in Hv as [Hin' Hm]. apply String.eqb_eq in Hm.
    destruct (active v) eqn:Hact; [|cbn; discriminate].
    intros _. exists v. subst e. auto.
  - (* a request let through *)
    intros user token Hauth.
    apply auth_next_inv in Hauth as (_ & q & _ & Hfind & _).
    apply findOne_some in Hfind as [Hin' Hf].
    apply andb_prop in Hf as [_ Hact]. auto.
  - (* a successful refresh *)
    destruct (cookies_refreshToken req) as [[p key|s]|] eqn:Hc;
      [| |rewrite (refreshToken_no_token _ _ _ _ Hc); discriminate];
      rewrite (refreshToken_parsed _ _ _ _ _ Hc).
    + cbn [Jwt.is_empty].
      destruct (Jwt.verify (Jwt.Jws p key) (JWT_REFRESH_SECRET env) now)
        as [e|q] eqn:Hver; cbn [bind]; [cbn; discriminate|].
      apply verify_inr_inv in Hver as (-> & _ & _).
      destruct (findById (Jwt.userId p) st) as [v|] eqn:Hv;
        [|cbn; discriminate].
      apply findOne_some in Hv as [Hin' Hid]. apply Nat.eqb_eq in Hid.
      destruct (active v) eqn:Hact; [|cbn; discriminate].
      intros _. exists v, p, key. auto.
    + cbn [Jwt.is_empty].
      destruct (s =? ""); [cbn; discriminate|].
      destruct (verify_raw s (JWT_REFRESH_SECRET env) now) as [e ->].
      cbn. discriminate.
Qed.

Lemma deactivated_identity_never_authenticates_witness :
  store_ok Sample.store /\ In Sample.bob Sample.store
  /\ active Sample.bob = false
  /\ Routes.refreshToken Sample.env Sample.store 300
       (Sample.with_cookie
          (Sample.token 3 100 604800 (JWT_REFRESH_SECRET Sample.env)))
     = respond_error 401 "Invalid refresh token".
Proof.
  assert (Hok : store_ok Sample.store) by closed_store_ok.
  assert (Hin : In Sample.bob Sample.store) by (cbn; auto).
  split; [exact Hok|]. split; [exact Hin|]. split; [reflexivity|].
  exact (proj1 (proj2 (proj2
           (@deactivated_identity_never_authenticates Sample.hasher
              Sample.env Sample.store 300
              (Sample.with_cookie
                 (Sample.token 3 100 604800 (JWT_REFRESH_SECRET Sample.env)))
              Sample.bob Hok Hin eq_refl)))
           _ _ eq_refl eq_refl).
Defined.

(** ** C6: a self-update with a field outside the allow-list *)

Lemma includes_In (l : list string) (x : string) :
  Js.includes l x = true <-> In x l.
Proof.
  unfold Js.includes. rewrite existsb_exists. split.
  - intros (y & Hy & E). apply String.eqb_eq in E. now subst.
  - intros H. exists x. split; [assumption|apply String.eqb_refl].
Qed.

Lemma isValidOperation_false (allowed updates : list string) (key : string) :
  In key updates -> ~ In key allowed ->
  Routes.isValidOperation allowed updates = false.
Proof.
  intros Hin Hout. unfold Routes.isValidOperation.
  destruct (forallb _ updates) eqn:E; [|reflexivity].
  rewrite forallb_forall in E. apply E in Hin.
  apply includes_In in Hin. contradiction.
Qed.

(** C6. A [PATCH /me] whose body has a field name outside [name],
    [email], [password] is answered 400 ['Invalid updates'] by the
    handler, and the collection is as before: nothing is applied. The
    same holds of the route, where an unauthenticated request is
    stopped by the middleware and changes nothing either. *)
Theorem patch_me_invalid_updates {PH : PasswordHasher} (env : Env)
        (st : Store) (now : Z) (req : Request) (key : string) :
  In key (Js.keys (body req)) ->
  ~ In key ["name"; "email"; "password"] ->
  (forall req_user,
      Routes.patchMe st now req_user req
      = (respond_error 400 "Invalid updates", st))
  /\ snd (Routes.patch_me env st now req) = st
  /\ (forall user token,
      Middleware.auth env st now req = Middleware.Next user token ->
      Routes.patch_me env st now req
      = (respond_error 400 "Invalid updates", st)).
Proof.
  intros Hin Hout.
  assert (H : forall req_user,
             Routes.patchMe st now req_user req
             = (respond_error 400 "Invalid updates", st)).
  { intros req_user. unfold Routes.patchMe.
    now rewrite (isValidOperation_false _ _ key Hin Hout). }
  split; [exact H|].
  unfold Routes.patch_me, Routes.behind_auth.
  split.
  - destruct (Middleware.auth env st now req); [now rewrite H|reflexivity].
  - intros user token ->. apply H.
Qed.

Lemma patch_me_invalid_updates_witness :
  let req :=
    Sample.with_bearer (Sample.token 2 300 3600 (JWT_SECRET Sample.env))
      [("name", "Alice L."); ("role", "admin")] 0 in
  In "role" (Js.keys (body req))
  /\ @Routes.patch_me Sample.hasher Sample.env Sample.store 400 req
     = (respond_error 400 "Invalid updates", Sample.store).
Proof.
  cbv zeta.
  assert (Hin : In "role" ["name"; "role"]) by (cbn; auto).
  assert (Hout : ~ In "role" ["name"; "email"; "password"])
    by (cbn; intuition discriminate).
  split; [exact Hin|].
  apply (proj2 (proj2
           (@patch_me_invalid_updates Sample.hasher Sample.env Sample.store
              400
              (Sample.with_bearer
                 (Sample.token 2 300 3600 (JWT_SECRET Sample.env))
                 [("name", "Alice L."); ("role", "admin")] 0)
              "role" Hin Hout))
           Sample.alice (Sample.token 2 300 3600 (JWT_SECRET Sample.env))).
  reflexivity.
Defined.

(** ** C7: registration with a weak password *)

Lemma lookahead_existsb (cls : ascii -> bool) (s : string) :
  PasswordRegex.lookahead cls s = true ->
  existsb cls (list_ascii_of_string s) = true.
Proof.
  induction s as [|c s IH]; cbn; [discriminate|].
  destruct (cls c); cbn; [reflexivity|].
  intros H. apply andb_prop in H as [_ H]. now apply IH.
Qed.

(** A password the pattern accepts is strong in the specification's
    sense. *)
Lemma test_strong (p : string) :
  PasswordRegex.test p = true -> Spec.strong p = true.
Proof.
  unfold PasswordRegex.test, Spec.strong. intros H.
  apply andb_prop in H as [H Hrest].
  apply andb_prop in Hrest as [_ Hlen].
  apply andb_prop in H as [H Hsym].
  apply andb_prop in H as [H Hdig].
  apply andb_prop in H as [Hlo Hup].
  rewrite Hlen.
  rewrite (lookahead_existsb _ _ Hup), (lookahead_existsb _ _ Hlo).
  rewrite (lookahead_existsb _ _ Hdig), (lookahead_existsb _ _ Hsym).
  reflexivity.
Qed.

(** C7. When the password of a register request is not strong (or is
    missing), the handler answers 400 and the collection is as before:
    no identity is created. The same holds of the route for an
    authenticated admin; any other caller is stopped by the middleware, and
    nothing is created either. *)
Theorem register_rejects_weak_password {PH : PasswordHasher} (env : Env)
        (st : Store) (now : Z) (req : Request) :
  (forall p, Js.get (body req) "password" = Some p -> Spec.strong p = false) ->
  (status (fst (Routes.register st now req)) = 400
   /\ snd (Routes.register st now req) = st)
  /\ snd (Routes.post_register env st now req) = st
  /\ (forall user token,
      Middleware.auth env st now req = Middleware.Next user token ->
      role user = "admin" ->
      status (fst (Routes.post_register env st now req)) = 400).
Proof.
  intros Hweak.
  assert (H : status (fst (Routes.register st now req)) = 400
              /\ snd (Routes.register st now req) = st).
  { unfold Routes.register.
    destruct (negb (Js.truthy (Js.get (body req) "name"))
              || negb (Js.truthy (Js.get (body req) "email"))
              || negb (Js.truthy (Js.get (body req) "password")));
      [split; reflexivity|].
    destruct (PasswordRegex.test (Js.toString (Js.get (body req) "password")))
      eqn:Htest; cbn [negb]; [|split; reflexivity].
    exfalso. apply test_strong in Htest.
    destruct (Js.get (body req) "password") as [p|] eqn:Hp.
    - cbn [Js.toString] in Htest.
      rewrite (Hweak p eq_refl) in Htest. discriminate.
    - cbn in Htest. discriminate. }
  split; [exact H|].
  unfold Routes.post_register, Routes.behind_auth, Routes.behind_role.
  split.
  - destruct (Middleware.auth env st now req) as [user token|res];
      [|reflexivity].
    destruct (Middleware.checkRole ["admin"] (Some user));
      [reflexivity|apply H].
  - intros user token -> Hrole. unfold Middleware.checkRole.
    rewrite Hrole. cbn [Js.includes existsb String.eqb Ascii.eqb].
    change (Js.includes ["admin"] "admin") with true. cbn [negb].
    apply H.
Qed.

Lemma register_rejects_weak_password_witness :
  let req :=
    Sample.with_bearer (Sample.token 1 300 3600 (JWT_SECRET Sample.env))
      [("name", "Vijay"); ("email", "vijay@x.com"); ("password", "vijay123")]
      0 in
  Spec.strong "vijay123" = false
  /\ status (fst (@Routes.post_register Sample.hasher Sample.env
                    Sample.store 400 req)) = 400
  /\ snd (@Routes.post_register Sample.hasher Sample.env
            Sample.store 400 req) = Sample.store.
Proof.
  cbv zeta.
  pose proof (@register_rejects_weak_password Sample.hasher Sample.env
                Sample.store 400
                (Sample.with_bearer
                   (Sample.token 1 300 3600 (JWT_SECRET Sample.env))
                   [("name", "Vijay"); ("email", "vijay@x.com");
                    ("password", "vijay123")] 0)) as H.
  assert (Hweak : forall p, Some "vijay123" = Some p -> Spec.strong p = false)
    by (intros p [= <-]; reflexivity).
  specialize (H Hweak). destruct H as (_ & Hst & Hroute).
  split; [reflexivity|]. split; [|exact Hst].
  apply (Hroute Sample.admin (Sample.token 1 300 3600 (JWT_SECRET Sample.env)));
    reflexivity.
Defined.

(** ** C8: deleting a user *)

(** After a write, the document written is the one found under its
    [_id]. *)
Lemma findById_write (u : User) (st : Store) :
  findById (_id u) (UserModel.write u st) = Some u.
Proof.
  unfold findById, findOne.
  induction st as [|v st IH]; cbn.
  - now rewrite Nat.eqb_refl.
  - destruct (Nat.eqb (_id v) (_id u)) eqn:E; cbn.
    + now rewrite Nat.eqb_refl.
    + now rewrite E.
Qed.

(** A write leaves the documents with another [_id] as they are. *)
Lemma findById_write_other (u : User) (st : Store) (id : ObjectId) :
  id <> _id u -> findById id (UserModel.write u st) = findById id st.
Proof.
  intros Hid. unfold findById, findOne.
  induction st as [|v st IH]; cbn.
  - destruct (Nat.eqb_spec (_id u) id); [congruence|reflexivity].
  - destruct (Nat.eqb_spec (_id v) (_id u)) as [E|E]; cbn.
    + destruct (Nat.eqb_spec (_id u) id); [congruence|].
      destruct (Nat.eqb_spec (_id v) id); [congruence|reflexivity].
    + now rewrite IH.
Qed.

(** A write to a document of the collection keeps the number of
    documents. *)
Lemma length_write (u : User) (st : Store) (v : User) :
  findById (_id u) st = Some v ->
  List.length (UserModel.write u st) = List.length st.
Proof.
  unfold findById, findOne.
  induction st as [|w st IH]; cbn; [discriminate|].
  destruct (Nat.eqb (_id w) (_id u)); cbn; [reflexivity|].
  intros H. now rewrite IH.
Qed.

(** The handler of [routes/auth.js] deactivates: the record stays, with
    [active = false] and every other field as it was, and no other
    record changes. *)
Lemma deleteUser_deactivates {PH : PasswordHasher} (st : Store) (now : Z)
      (req : Request) (u : User) :
  findById (params_userId req) st = Some u ->
  exists st' v,
    Routes.deleteUser st now req
    = (respond 200 (JObj [("message", JStr "User deactivated successfully")]),
       st')
    /\ findById (params_userId req) st' = Some v
    /\ active v = false
    /\ _id v = _id u /\ name v = name u /\ email v = email u
    /\ password v = password u /\ role v = role u
    /\ passwordChangedAt v = passwordChangedAt u
    /\ List.length st' = List.length st
    /\ forall id, id <> params_userId req -> findById id st' = findById id st.
Proof.
  intros Hfind.
  assert (Hid : _id u = params_userId req).
  { apply findOne_some in Hfind as [_ H]. now apply Nat.eqb_eq in H. }
  exists (UserModel.write (set_active false u) st), (set_active false u).
  unfold Routes.deleteUser. rewrite Hfind.
  split; [reflexivity|].
  split; [rewrite <- Hid; apply (findById_write (set_active false u))|].
  repeat (split; [reflexivity|]).
  split.
  - apply (length_write _ _ u). cbn. now rewrite Hid.
  - intros id Hne. apply findById_write_other. cbn. congruence.
Qed.

(** C8. The older copy of the router answers [DELETE /users/2], sent by
    the admin, by removing Alice's record: it is not found afterwards
    and the collection is one record shorter. The handler of
    [routes/auth.js], on the same request, keeps the record and sets
    [active] to [false]. *)
Theorem old_delete_user_removes_record :
  let env := Sample.env in
  let req :=
    Sample.with_bearer (Sample.token 1 300 3600 (JWT_SECRET env)) [] 2 in
  findById 2 Sample.store = Some Sample.alice
  /\ OldRoutes.delete_user env Sample.store 400 req
     = (respond 200 (JObj [("message", JStr "User deleted successfully")]),
        [Sample.admin; Sample.bob])
  /\ findById 2 (snd (OldRoutes.delete_user env Sample.store 400 req)) = None
  /\ @Routes.delete_user Sample.hasher env Sample.store 400 req
     = (respond 200 (JObj [("message", JStr "User deactivated successfully")]),
        [Sample.admin; set_active false Sample.alice; Sample.bob]).
Proof. repeat split. Qed.

(** The older handler removes whatever record it finds. *)
Lemma old_deleteUser_removes (st : Store) (req : Request) (u : User) :
  NoDup (map _id st) ->
  findById (params_userId req) st = Some u ->
  exists st',
    OldRoutes.deleteUser st req
    = (respond 200 (JObj [("message", JStr "User deleted successfully")]),
       st')
    /\ findById (params_userId req) st' = None.
Proof.
  unfold OldRoutes.deleteUser, findById, findOne.
  generalize (params_userId req) as id. intros id.
  induction st as [|v st IH]; cbn; [discriminate|].
  intros Hnd. inversion Hnd as [|? ? Hnotin Hnd']; subst.
  destruct (Nat.eqb_spec (_id v) id) as [E|E].
  - intros _. exists st. split; [reflexivity|].
    destruct (find (fun w => Nat.eqb (_id w) id) st) as [w|] eqn:Hw;
      [|reflexivity].
    exfalso. apply find_some in Hw as [Hin Hid]. apply Nat.eqb_eq in Hid.
    apply Hnotin. rewrite E, <- Hid. now apply in_map.
  - intros Hfind. destruct (IH Hnd' Hfind) as (st' & Hdel & Hgone).
    destruct (findByIdAndDelete id st) as [[w|] st''] eqn:Hd;
      [|discriminate].
    injection Hdel as <-. exists (v :: st''). split; [reflexivity|].
    cbn. destruct (Nat.eqb_spec (_id v) id); [contradiction|exact Hgone].
Qed.

(** ** C9: creating the default admin *)

(** The identifier of a new document is not in the collection. *)
Lemma freshId_fresh (st : Store) (v : User) :
  In v st -> Nat.eqb (_id v) (freshId st) = false.
Proof.
  intros Hin. apply Nat.eqb_neq. unfold freshId.
  assert (H : list_max (map _id st) <= list_max (map _id st)) by lia.
  apply list_max_le in H. rewrite Forall_forall in H.
  specialize (H (_id v) (in_map _id st v Hin)). lia.
Qed.

(** Writing a new document appends it. *)
Lemma write_new (u : User) (st : Store) :
  (forall v, In v st -> Nat.eqb (_id v) (_id u) = false) ->
  UserModel.write u st = (st ++ [u])%list.
Proof.
  induction st as [|w st IH]; cbn; [reflexivity|].
  intros H. rewrite (H w (or_introl eq_refl)).
  f_equal. apply IH. intros v Hv. apply H. now right.
Qed.

(** Saving a new admin succeeds when no identity holds its email. *)
Lemma save_new_admin {PH : PasswordHasher} (st : Store) (now : Z)
      (n e p : string) :
  (forall u, In u st -> email u <> e) ->
  UserModel.save now (UserModel.newUser st n e p "admin") st
  = inr (st ++ [{| _id := freshId st; name := n; email := e;
                   password := hash p; role := "admin"; active := true;
                   passwordChangedAt := None |}])%list.
Proof.
  intros Hfree. unfold UserModel.save, UserModel.newUser, UserModel.preSave,
    UserModel.isModified. cbn.
  assert (Hex : existsb (fun v => negb (Nat.eqb (_id v) (freshId st))
                                  && (email v =? e)) st = false).
  { destruct (existsb _ st) eqn:E; [|reflexivity].
    apply existsb_exists in E as (v & Hin & Hv).
    apply andb_prop in Hv as [_ Hv]. apply String.eqb_eq in Hv.
    now apply Hfree in Hin. }
  rewrite Hex. f_equal. apply write_new.
  intros v Hv. cbn. now apply freshId_fresh.
Qed.

(** C9, as the code has it. [POST /create-admin] sits behind no middleware:
    whatever the request, when the collection has no admin and no
    identity holds the email ['vijay@test.ac.in'], it appends an active
    admin with that email and the password ['vijay123'], and answers
    201; when an admin exists it answers 400 and the collection is as
    before. The start-up step does the same with ['admin@test.ac.in']
    and ['admin123'], and does nothing when an admin exists. Neither
    password matches the pattern of the register handler. *)
Theorem create_admin_is_open {PH : PasswordHasher} (env : Env) (st : Store)
        (now : Z) (req : Request) :
  (findOne (fun u => role u =? "admin") st = None ->
   (forall u, In u st -> email u <> "vijay@test.ac.in") ->
   let created :=
     {| _id := freshId st; name := "Admin User";
        email := "vijay@test.ac.in"; password := hash "vijay123";
        role := "admin"; active := true; passwordChangedAt := None |} in
   Routes.post_create_admin env st now req
   = (respond 201
        (JObj [("message", JStr "Admin user created successfully");
               ("user", JObj [("id", JOid (freshId st));
                              ("name", JStr "Admin User");
                              ("email", JStr "vijay@test.ac.in");
                              ("role", JStr "admin")])]),
      (st ++ [created])%list))
  /\ (forall a, findOne (fun u => role u =? "admin") st = Some a ->
      Routes.post_create_admin env st now req
      = (respond_error 400 "Admin user already exists", st))
  /\ (findOne (fun u => role u =? "admin") st = None ->
      (forall u, In u st -> email u <> "admin@test.ac.in") ->
      Server.createDefaultAdmin st now
      = inr (st ++ [{| _id := freshId st; name := "Admin User";
                       email := "admin@test.ac.in";
                       password := hash "admin123";
                       role := "admin"; active := true;
                       passwordChangedAt := None |}])%list)
  /\ (forall a, findOne (fun u => role u =? "admin") st = Some a ->
      Server.createDefaultAdmin st now = inr st)
  /\ PasswordRegex.test "vijay123" = false
  /\ PasswordRegex.test "admin123" = false.
Proof.
  unfold Routes.post_create_admin, Routes.createAdmin,
    Server.createDefaultAdmin.
  split; [|split; [|split; [|split; [|split]]]].
  - intros Hnone Hfree. cbv zeta. rewrite Hnone.
    now rewrite (save_new_admin st now _ _ _ Hfree).
  - intros a ->. reflexivity.
  - intros Hnone Hfree. rewrite Hnone. now apply save_new_admin.
  - intros a ->. reflexivity.
  - reflexivity.
  - reflexivity.
Qed.

Lemma create_admin_is_open_witness :
  let st := [Sample.alice; Sample.bob] in
  findOne (fun u => role u =? "admin") st = None
  /\ snd (@Routes.post_create_admin Sample.hasher Sample.env st 0
            Sample.request)
     = (st ++ [{| _id := 4; name := "Admin User";
                  email := "vijay@test.ac.in";
                  password := "$2a$12$vijay123";
                  role := "admin"; active := true;
                  passwordChangedAt := None |}])%list.
Proof.
  cbv zeta. split; [reflexivity|].
  rewrite (proj1 (@create_admin_is_open Sample.hasher Sample.env
                    [Sample.alice; Sample.bob] 0 Sample.request)).
  - reflexivity.
  - reflexivity.
  - intros u [<-|[<-|[]]]; discriminate.
Defined.

(** C9 as stated fails: with no admin in the collection, but the email
    ['vijay@test.ac.in'] held by an ordinary user, the request is
    answered 400 and no admin is created. *)
Lemma create_admin_fails_when_email_taken :
  let vijay :=
    {| _id := 1; name := "Vijay"; email := "vijay@test.ac.in";
       password := "$2a$12$Abcdef1!"; role := "user"; active := true;
       passwordChangedAt := None |} in
  findOne (fun u => role u =? "admin") [vijay] = None
  /\ @Routes.post_create_admin Sample.hasher Sample.env [vijay] 0
       Sample.request
     = (respond_error 400 "E11000 duplicate key error: email", [vijay])
  /\ findOne (fun u => role u =? "admin")
       (snd (@Routes.post_create_admin Sample.hasher Sample.env [vijay] 0
               Sample.request))
     = None.
Proof. repeat split. Qed.

(** ** C10: the password of an update is not checked for strength *)

Lemma keys_with_password (p : string) (req : Request) :
  Js.keys (body (Spec.with_password p req)) = Js.keys (body req).
Proof.
  unfold Spec.with_password, Js.keys. cbn. rewrite map_map.
  apply map_ext. intros [k v]. cbn. now destruct (k =? "password").
Qed.

Lemma get_with_password (p : string) (req : Request) (k : string) :
  Js.get (body (Spec.with_password p req)) k
  = if k =? "password" then option_map (fun _ => p) (Js.get (body req) k)
    else Js.get (body req) k.
Proof.
  unfold Spec.with_password. cbn.
  induction (body req) as [|[k' v] o IH]; cbn.
  - now destruct (k =? "password").
  - destruct (k' =? "password") eqn:Ek; cbn; destruct (k' =? k) eqn:Ekk;
      try exact IH;
      apply String.eqb_eq in Ekk; subst; now rewrite Ek.
Qed.

Lemma get_in_keys (o : Js.object) (k v : string) :
  Js.get o k = Some v -> In k (Js.keys o).
Proof.
  induction o as [|[k' v'] o IH]; cbn; [discriminate|].
  destruct (k' =? k) eqn:E; [|auto].
  apply String.eqb_eq in E. auto.
Qed.

Lemma agree_bind {A B : Type} (R : A -> A -> Prop) (S : B -> B -> Prop)
      (x y : Exn + A) (f g : A -> Exn + B) :
  Spec.agree R x y ->
  (forall a b, R a b -> Spec.agree S (f a) (g b)) ->
  Spec.agree S (bind x f) (bind y g).
Proof.
  destruct x as [e1|a], y as [e2|b]; cbn; auto; contradiction.
Qed.

(** Assignments of the same values, but for the password, keep two
    documents the same but for the password. *)
Lemma assign_agree (d1 d2 : UserModel.Doc) (path v1 v2 : string) :
  Spec.same_but_password d1 d2 -> (path <> "password" -> v1 = v2) ->
  Spec.agree Spec.same_but_password
    (UserModel.assign d1 path v1) (UserModel.assign d2 path v2).
Proof.
  intros (Hnew & Hmod & Hf) Hv.
  destruct d1 as [[i1 n1 e1 p1 r1 a1 c1] new1 m1].
  destruct d2 as [[i2 n2 e2 p2 r2 a2 c2] new2 m2].
  cbn in Hnew, Hmod, Hf. injection Hf as -> -> -> -> -> ->. subst.
  unfold UserModel.assign.
  destruct (path =? "name") eqn:E1.
  { apply String.eqb_eq in E1. subst path.
    rewrite Hv by discriminate. repeat split. }
  destruct (path =? "email") eqn:E2.
  { apply String.eqb_eq in E2. subst path.
    rewrite Hv by discriminate. repeat split. }
  destruct (path =? "password") eqn:E3.
  { repeat split. }
  assert (v1 = v2) as -> by (apply Hv; now apply String.eqb_neq).
  destruct (path =? "role"); [repeat split|].
  destruct (path =? "active"); [|repeat split].
  destruct (UserModel.castBoolean v2); repeat split.
Qed.

Lemma applyUpdates_agree (updates : list string) (b1 b2 : Js.object)
      (d1 d2 : UserModel.Doc) :
  (forall k, k <> "password" -> Js.get b1 k = Js.get b2 k) ->
  (Js.get b1 "password" = None <-> Js.get b2 "password" = None) ->
  Spec.same_but_password d1 d2 ->
  Spec.agree Spec.same_but_password
    (Routes.applyUpdates d1 updates b1) (Routes.applyUpdates d2 updates b2).
Proof.
  intros Hother Hpw. revert d1 d2.
  induction updates as [|update rest IH]; intros d1 d2 Hd; cbn; [exact Hd|].
  destruct (String.eqb_spec update "password") as [->|Hne].
  - destruct (Js.get b1 "password") as [v1|] eqn:G1,
             (Js.get b2 "password") as [v2|] eqn:G2.
    + apply agree_bind with (R := Spec.same_but_password); [|exact IH].
      apply assign_agree; [exact Hd|]. intros H. now contradiction H.
    + destruct Hpw as [_ H]. now discriminate H.
    + destruct Hpw as [H _]. now discriminate H.
    + now apply IH.
  - rewrite (Hother update Hne).
    destruct (Js.get b2 update) as [v|]; [|now apply IH].
    apply agree_bind with (R := Spec.same_but_password); [|exact IH].
    now apply assign_agree.
Qed.

Lemma same_but_password_fields (d1 d2 : UserModel.Doc) :
  Spec.same_but_password d1 d2 ->
  _id (UserModel.fields d1) = _id (UserModel.fields d2)
  /\ email (UserModel.fields d1) = email (UserModel.fields d2)
  /\ role (UserModel.fields d1) = role (UserModel.fields d2).
Proof.
  intros (_ & _ & Hf).
  repeat split;
    [apply (f_equal _id) in Hf|apply (f_equal email) in Hf
     |apply (f_equal role) in Hf]; exact Hf.
Qed.

Lemma preSave_id_email {PH : PasswordHasher} (now : Z) (d : UserModel.Doc) :
  _id (UserModel.preSave now d) = _id (UserModel.fields d)
  /\ email (UserModel.preSave now d) = email (UserModel.fields d).
Proof.
  unfold UserModel.preSave.
  destruct (UserModel.isModified d "password"); [|split; reflexivity].
  destruct (UserModel.isNew d); split; reflexivity.
Qed.

(** Whether [save] accepts a document does not depend on the password
    it holds. *)
Lemma save_agree {PH : PasswordHasher} (now : Z) (st : Store)
      (d1 d2 : UserModel.Doc) :
  Spec.same_but_password d1 d2 ->
  Spec.agree (fun _ _ => True) (UserModel.save now d1 st)
    (UserModel.save now d2 st).
Proof.
  intros Hd.
  destruct (same_but_password_fields d1 d2 Hd) as (Hid & Hemail & Hrole).
  destruct Hd as (Hnew & Hmod & _).
  unfold UserModel.save, UserModel.isModified, throw. cbv zeta.
  destruct (preSave_id_email now d1) as [-> ->].
  destruct (preSave_id_email now d2) as [-> ->].
  rewrite Hnew, Hmod, Hrole, Hid, Hemail.
  destruct (_ && negb _); [reflexivity|].
  destruct (_ && existsb _ st); [reflexivity|exact I].
Qed.

(** What an assignment does to the bookkeeping and to the password. *)
Lemma assign_inr (d d' : UserModel.Doc) (path v : string) :
  UserModel.assign d path v = inr d' ->
  _id (UserModel.fields d') = _id (UserModel.fields d)
  /\ UserModel.isNew d' = UserModel.isNew d
  /\ (Js.includes (UserModel.modified d) "password" = true ->
      Js.includes (UserModel.modified d') "password" = true)
  /\ (path = "password" ->
      password (UserModel.fields d') = v
      /\ Js.includes (UserModel.modified d') "password" = true)
  /\ (path <> "password" ->
      password (UserModel.fields d') = password (UserModel.fields d)).
Proof.
  assert (Hgrow : forall f,
             Js.includes (UserModel.modified d) "password" = true ->
             Js.includes (UserModel.modified (UserModel.update d path f))
               "password" = true).
  { intros f H. unfold UserModel.update, Js.includes in *.
    cbn [UserModel.modified existsb]. rewrite H. apply orb_true_r. }
  assert (Hother : forall f,
             (forall u, password (f u) = password u) ->
             (forall u, _id (f u) = _id u) ->
             path <> "password" ->
             _id (UserModel.fields (UserModel.update d path f))
             = _id (UserModel.fields d)
             /\ UserModel.isNew (UserModel.update d path f) = UserModel.isNew d
             /\ (Js.includes (UserModel.modified d) "password" = true ->
                 Js.includes (UserModel.modified (UserModel.update d path f))
                   "password" = true)
             /\ (path = "password" ->
                 password (UserModel.fields (UserModel.update d path f)) = v
                 /\ Js.includes
                      (UserModel.modified (UserModel.update d path f))
                      "password" = true)
             /\ (path <> "password" ->
                 password (UserModel.fields (UserModel.update d path f))
                 = password (UserModel.fields d))).
  { intros f Hf Hi Hne.
    split; [apply Hi|]. split; [reflexivity|]. split; [apply Hgrow|].
    split; [intros H; contradiction|intros _; apply Hf]. }
  unfold UserModel.assign.
  destruct (String.eqb_spec path "name") as [E|_].
  { intros [= <-]. apply Hother; auto. subst path. discriminate. }
  destruct (String.eqb_spec path "email") as [E|_].
  { intros [= <-]. apply Hother; auto. subst path. discriminate. }
  destruct (String.eqb_spec path "password") as [E|Hne].
  { intros [= <-]. subst path.
    split; [reflexivity|]. split; [reflexivity|]. split; [apply Hgrow|].
    split; [intros _; split; reflexivity|intros H; now contradiction H]. }
  destruct (String.eqb_spec path "role") as [E|_].
  { intros [= <-]. apply Hother; auto. }
  destruct (String.eqb_spec path "active") as [E|_].
  { destruct (UserModel.castBoolean v); [|discriminate].
    intros [= <-]. apply Hother; auto. }
  intros [= <-].
  split; [reflexivity|]. split; [reflexivity|]. split; [auto|].
  split; [intros H; contradiction|reflexivity].
Qed.

Lemma applyUpdates_bookkeeping (updates : list string) (o : Js.object)
      (d d' : UserModel.Doc) :
  Routes.applyUpdates d updates o = inr d' ->
  _id (UserModel.fields d') = _id (UserModel.fields d)
  /\ UserModel.isNew d' = UserModel.isNew d.
Proof.
  revert d. induction updates as [|update rest IH]; intros d; cbn.
  - intros [= <-]. auto.
  - destruct (Js.get o update) as [v|]; [|apply IH].
    destruct (UserModel.assign d update v) as [e|d1] eqn:Ha; cbn;
      [discriminate|].
    intros H. apply IH in H as [-> ->].
    apply assign_inr in Ha as (Hid & Hnew & _). auto.
Qed.

(** Once the password of the body is assigned, the document holds it
    to the end of the loop. *)
Lemma applyUpdates_keeps_password (updates : list string) (o : Js.object)
      (p : string) (d d' : UserModel.Doc) :
  Js.get o "password" = Some p ->
  password (UserModel.fields d) = p ->
  Js.includes (UserModel.modified d) "password" = true ->
  Routes.applyUpdates d updates o = inr d' ->
  password (UserModel.fields d') = p
  /\ Js.includes (UserModel.modified d') "password" = true.
Proof.
  intros Hp. revert d.
  induction updates as [|update rest IH]; intros d Hd Hm; cbn.
  - intros [= <-]. auto.
  - destruct (Js.get o update) as [v|] eqn:Hv; [|now apply IH].
    destruct (UserModel.assign d update v) as [e|d1] eqn:Ha; cbn;
      [discriminate|].
    apply assign_inr in Ha as (_ & _ & Hgrow & Hpw & Hother).
    apply IH; [|now apply Hgrow].
    destruct (String.eqb_spec update "password") as [->|Hne].
    + rewrite Hp in Hv. injection Hv as <-. now apply Hpw.
    + rewrite Hother by assumption. exact Hd.
Qed.

Lemma applyUpdates_sets_password (updates : list string) (o : Js.object)
      (p : string) (d d' : UserModel.Doc) :
  Js.get o "password" = Some p ->
  In "password" updates ->
  Routes.applyUpdates d updates o = inr d' ->
  password (UserModel.fields d') = p
  /\ Js.includes (UserModel.modified d') "password" = true.
Proof.
  intros Hp. revert d.
  induction updates as [|update rest IH]; intros d Hin; cbn; [contradiction|].
  destruct (String.eqb_spec update "password") as [->|Hne].
  - rewrite Hp.
    destruct (UserModel.assign d "password" p) as [e|d1] eqn:Ha; cbn;
      [discriminate|].
    apply assign_inr in Ha as (_ & _ & _ & Hpw & _).
    destruct (Hpw eq_refl) as [H1 H2].
    now apply (applyUpdates_keeps_password rest o p d1 d').
  - destruct Hin as [E|Hin]; [congruence|].
    destruct (Js.get o update) as [v|]; [|now apply IH].
    destruct (UserModel.assign d update v) as [e|d1]; cbn; [discriminate|].
    now apply IH.
Qed.

(** The part the two update handlers share: the loop, then [save]. *)
Lemma update_then_save_agree {PH : PasswordHasher} (st : Store) (now : Z)
      (found : User) (p' : string) (req : Request) :
  Spec.agree (fun _ _ => True)
    (let* user := Routes.applyUpdates (UserModel.loaded found)
                    (Js.keys (body req)) (body (Spec.with_password p' req)) in
     let* st' := UserModel.save now user st in
     inr (user, st'))
    (let* user := Routes.applyUpdates (UserModel.loaded found)
                    (Js.keys (body req)) (body req) in
     let* st' := UserModel.save now user st in
     inr (user, st')).
Proof.
  apply agree_bind with (R := Spec.same_but_password).
  - apply applyUpdates_agree.
    + intros k Hk. rewrite get_with_password.
      apply String.eqb_neq in Hk. now rewrite Hk.
    + rewrite get_with_password. cbn.
      destruct (Js.get (body req) "password"); cbn; split; congruence.
    + repeat split.
  - intros d1 d2 Hd.
    apply agree_bind with (R := fun _ _ => True); [now apply save_agree|].
    intros; exact I.
Qed.

(** What a successful update-and-save leaves in the collection. *)
Lemma update_then_save_stores {PH : PasswordHasher} (st st' : Store)
      (now : Z) (found : User) (o : Js.object) (p : string)
      (user : UserModel.Doc) :
  Js.get o "password" = Some p ->
  (let* user := Routes.applyUpdates (UserModel.loaded found) (Js.keys o) o in
   let* st' := UserModel.save now user st in
   inr (user, st')) = inr (user, st') ->
  exists v, findById (_id found) st' = Some v
            /\ password v = hash p
            /\ passwordChangedAt v = Some now.
Proof.
  intros Hp.
  destruct (Routes.applyUpdates (UserModel.loaded found) (Js.keys o) o)
    as [e|d] eqn:Ha; cbn [bind]; [discriminate|].
  destruct (UserModel.save now d st) as [e|s] eqn:Hs; cbn [bind];
    [discriminate|].
  intros [= <- <-].
  destruct (applyUpdates_bookkeeping _ _ _ _ Ha) as [Hid Hnew].
  destruct (applyUpdates_sets_password _ _ p _ _ Hp (get_in_keys _ _ _ Hp) Ha)
    as [Hpw Hm].
  cbn in Hid, Hnew.
  unfold UserModel.save in Hs.
  destruct (_ && negb _) in Hs; [discriminate|].
  cbv zeta in Hs. destruct (_ && existsb _ st) in Hs; [discriminate|].
  injection Hs as <-.
  exists (UserModel.preSave now d).
  assert (Hpre : UserModel.preSave now d
                 = set_passwordChangedAt (Some now)
                     (set_password (hash p) (UserModel.fields d))).
  { unfold UserModel.preSave, UserModel.isModified.
    now rewrite Hm, Hnew, orb_true_r, Hpw. }
  split.
  - replace (_id found) with (_id (UserModel.preSave now d))
      by (rewrite Hpre; exact Hid).
    apply findById_write.
  - rewrite Hpre. split; reflexivity.
Qed.

(** A body that holds the password alone is always saved. *)
Lemma password_only_is_saved {PH : PasswordHasher} (st : Store) (now : Z)
      (found : User) (o : Js.object) (p : string) :
  Js.keys o = ["password"] -> Js.get o "password" = Some p ->
  exists user st',
    (let* user := Routes.applyUpdates (UserModel.loaded found) (Js.keys o) o in
     let* st' := UserModel.save now user st in
     inr (user, st')) = inr (user, st').
Proof.
  intros -> Hp. cbn [Routes.applyUpdates]. rewrite Hp.
  change (UserModel.assign (UserModel.loaded found) "password" p)
    with (@inr Exn _ (UserModel.update (UserModel.loaded found) "password"
                        (set_password p))).
  cbn [bind]. eexists; eexists. reflexivity.
Qed.

(** C10. The update handlers do not test the password. For a
    [PATCH /me] whose field names are all among [name], [email],
    [password], and whose password is [p]: the status of the answer is
    the same whatever the password; when the answer is 200, the digest
    of [p] is what the collection holds for the identity afterwards; and
    a body with the password alone is answered 200 for every [p]. The
    same holds of [PATCH /users/:userId] with its allow-list. *)
Theorem update_password_is_not_checked {PH : PasswordHasher} (st : Store)
        (now : Z) (req_user : User) (req : Request) (p : string) :
  Js.get (body req) "password" = Some p ->
  (Routes.isValidOperation ["name"; "email"; "password"] (Js.keys (body req))
   = true ->
   (forall p',
       status (fst (Routes.patchMe st now req_user (Spec.with_password p' req)))
       = status (fst (Routes.patchMe st now req_user req)))
   /\ (status (fst (Routes.patchMe st now req_user req)) = 200 ->
       exists v,
         findById (_id req_user) (snd (Routes.patchMe st now req_user req))
         = Some v
         /\ password v = hash p /\ passwordChangedAt v = Some now)
   /\ (Js.keys (body req) = ["password"] ->
       (exists found, findById (_id req_user) st = Some found) ->
       status (fst (Routes.patchMe st now req_user req)) = 200))
  /\ (Routes.isValidOperation ["name"; "email"; "password"; "role"; "active"]
        (Js.keys (body req)) = true ->
      (forall p',
          status (fst (Routes.patchUser st now (Spec.with_password p' req)))
          = status (fst (Routes.patchUser st now req)))
      /\ (status (fst (Routes.patchUser st now req)) = 200 ->
          exists v,
            findById (params_userId req) (snd (Routes.patchUser st now req))
            = Some v
            /\ password v = hash p /\ passwordChangedAt v = Some now)
      /\ (Js.keys (body req) = ["password"] ->
          (exists found, findById (params_userId req) st = Some found) ->
          status (fst (Routes.patchUser st now req)) = 200)).
Proof.
  intros Hp. split; intros Hvalid.
  - unfold Routes.patchMe. split; [|split].
    + intros p'. rewrite keys_with_password, Hvalid. cbn [negb].
      destruct (findById (_id req_user) st) as [found|]; [|reflexivity].
      pose proof (update_then_save_agree st now found p' req) as H.
      destruct (bind (Routes.applyUpdates _ _ (body (Spec.with_password p' req))) _)
        as [e1|[u1 s1]];
        destruct (bind (Routes.applyUpdates _ _ (body req)) _) as [e2|[u2 s2]];
        cbn in H; try contradiction; reflexivity.
    + rewrite Hvalid. cbn [negb].
      destruct (findById (_id req_user) st) as [found|] eqn:Hfound;
        [|cbn; discriminate].
      destruct (bind (Routes.applyUpdates _ _ (body req)) _)
        as [e|[user st']] eqn:Hrun; [cbn; discriminate|].
      intros _. cbn [snd].
      apply findOne_some in Hfound as [_ Hid]. apply Nat.eqb_eq in Hid.
      rewrite <- Hid.
      exact (update_then_save_stores st st' now found (body req) p user
               Hp Hrun).
    + intros Hkeys [found Hfound]. rewrite Hvalid, Hfound. cbn [negb].
      destruct (password_only_is_saved st now found (body req) p Hkeys Hp)
        as (user & st' & Hrun).
      now rewrite Hrun.
  - unfold Routes.patchUser. split; [|split].
    + intros p'. rewrite keys_with_password, Hvalid. cbn [negb].
      change (params_userId (Spec.with_password p' req))
        with (params_userId req).
      destruct (findById (params_userId req) st) as [found|]; [|reflexivity].
      pose proof (update_then_save_agree st now found p' req) as H.
      destruct (bind (Routes.applyUpdates _ _ (body (Spec.with_password p' req))) _)
        as [e1|[u1 s1]];
        destruct (bind (Routes.applyUpdates _ _ (body req)) _) as [e2|[u2 s2]];
        cbn in H; try contradiction; reflexivity.
    + rewrite Hvalid. cbn [negb].
      destruct (findById (params_userId req) st) as [found|] eqn:Hfound;
        [|cbn; discriminate].
      destruct (bind (Routes.applyUpdates _ _ (body req)) _)
        as [e|[user st']] eqn:Hrun; [cbn; discriminate|].
      intros _. cbn [snd].
      apply findOne_some in Hfound as [_ Hid]. apply Nat.eqb_eq in Hid.
      rewrite <- Hid.
      exact (update_then_save_stores st st' now found (body req) p user
               Hp Hrun).
    + intros Hkeys [found Hfound]. rewrite Hvalid, Hfound. cbn [negb].
      destruct (password_only_is_saved st now found (body req) p Hkeys Hp)
        as (user & st' & Hrun).
      now rewrite Hrun.
Qed.

Lemma update_password_is_not_checked_witness :
  let req :=
    Sample.with_bearer (Sample.token 2 300 3600 (JWT_SECRET Sample.env))
      [("password", "a")] 3 in
  Js.get (body req) "password" = Some "a"
  /\ PasswordRegex.test "a" = false
  /\ status (fst (@Routes.patchMe Sample.hasher Sample.store 400
                    Sample.alice req)) = 200
  /\ status (fst (@Routes.patchUser Sample.hasher Sample.store 400 req)) = 200.
Proof.
  cbv zeta.
  pose proof (@update_password_is_not_checked Sample.hasher Sample.store 400
                Sample.alice
                (Sample.with_bearer
                   (Sample.token 2 300 3600 (JWT_SECRET Sample.env))
                   [("password", "a")] 3)
                "a" eq_refl) as [Hme Huser].
  split; [reflexivity|]. split; [reflexivity|]. split.
  - apply (proj2 (proj2 (Hme eq_refl))); [reflexivity|].
    exists Sample.alice. reflexivity.
  - apply (proj2 (proj2 (Huser eq_refl))); [reflexivity|].
    exists Sample.bob. reflexivity.
Defined.

(** ** The handlers keep the collection well-formed *)

Lemma in_write (u w : User) (st : Store) :
  In w (UserModel.write u st) -> w = u \/ In w st.
Proof.
  induction st as [|v st IH]; cbn.
  - intros [<-|[]]. now left.
  - destruct (Nat.eqb (_id v) (_id u)); cbn.
    + intros [<-|H]; auto.
    + intros [<-|H]; auto. destruct (IH H); auto.
Qed.

(** Replacing a document keeps [_id] and [email] keys, when no other
    document holds the email written. *)
Lemma write_existing_ok (u found : User) (st : Store) :
  store_ok st -> In found st -> _id found = _id u ->
  (forall v, In v st -> _id v <> _id u -> email v <> email u) ->
  store_ok (UserModel.write u st).
Proof.
  unfold store_ok.
  induction st as [|v st IH]; cbn; [tauto|].
  intros [Hids Hemails] Hin Hid Hfree.
  inversion Hids as [|? ? Hni Hids']; subst.
  inversion Hemails as [|? ? Hne Hemails']; subst.
  destruct (Nat.eqb_spec (_id v) (_id u)) as [E|E]; cbn.
  - rewrite <- E. split; constructor; try assumption.
    intros Hu. apply in_map_iff in Hu as (w & Hw & Hin').
    apply (Hfree w); [now right| |exact Hw].
    intros Hid'. apply Hni. rewrite E, <- Hid'. now apply in_map.
  - destruct Hin as [->|Hin]; [contradiction|].
    destruct IH as [IHids IHemails]; auto.
    split; constructor; try assumption.
    + intros Hv. apply in_map_iff in Hv as (w & Hw & Hin').
      apply in_write in Hin' as [->|Hin']; [congruence|].
      apply Hni. rewrite <- Hw. now apply in_map.
    + intros Hv. apply in_map_iff in Hv as (w & Hw & Hin').
      apply in_write in Hin' as [->|Hin'].
      * apply (Hfree v); auto.
      * apply Hne. rewrite <- Hw. now apply in_map.
Qed.

(** Appending a document with a fresh [_id] and a free email keeps the
    keys. *)
Lemma append_ok (u : User) (st : Store) :
  store_ok st ->
  (forall v, In v st -> _id v <> _id u) ->
  (forall v, In v st -> email v <> email u) ->
  store_ok (st ++ [u])%list.
Proof.
  unfold store_ok. intros [Hids Hemails] Hfresh Hfree.
  rewrite !map_app. cbn.
  split; apply NoDup_app; try assumption; try (repeat constructor; cbn; tauto);
    intros x Hx [<-|[]]; apply in_map_iff in Hx as (w & Hw & Hin).
  - now apply (Hfresh w).
  - now apply (Hfree w).
Qed.

(** What the update loop keeps of the document it started from. *)
Lemma applyUpdates_email (updates : list string) (o : Js.object)
      (d d' : UserModel.Doc) :
  Routes.applyUpdates d updates o = inr d' ->
  Js.includes (UserModel.modified d') "email" = false ->
  Js.includes (UserModel.modified d) "email" = false
  /\ email (UserModel.fields d') = email (UserModel.fields d).
Proof.
  revert d. induction updates as [|update rest IH]; intros d; cbn.
  - intros [= <-]. auto.
  - destruct (Js.get o update) as [v|]; [|apply IH].
    destruct (UserModel.assign d update v) as [e|d1] eqn:Ha; cbn;
      [discriminate|].
    intros Hrun Hm. destruct (IH d1 Hrun Hm) as [Hm1 ->].
    revert Ha. unfold UserModel.assign.
    assert (Hupd : forall f,
               (forall x, email (f x) = email x) ->
               d1 = UserModel.update d update f ->
               Js.includes (UserModel.modified d) "email" = false
               /\ email (UserModel.fields d1) = email (UserModel.fields d)).
    { intros f Hf ->. split; [|apply Hf].
      unfold UserModel.update, Js.includes in Hm1.
      cbn [UserModel.modified existsb] in Hm1.
      now apply orb_false_elim in Hm1 as [_ H]. }
    destruct (String.eqb_spec update "name");
      [intros [= <-]; now apply (Hupd (set_name v))|].
    destruct (String.eqb_spec update "email") as [->|_].
    { intros [= <-]. exfalso.
      unfold UserModel.update, Js.includes in Hm1.
      cbn [UserModel.modified existsb] in Hm1.
      rewrite String.eqb_refl in Hm1. discriminate. }
    destruct (String.eqb_spec update "password");
      [intros [= <-]; now apply (Hupd (set_password v))|].
    destruct (String.eqb_spec update "role");
      [intros [= <-]; now apply (Hupd (set_role v))|].
    destruct (String.eqb_spec update "active").
    { destruct (UserModel.castBoolean v) as [b|]; [|discriminate].
      intros [= <-]. now apply (Hupd (set_active b)). }
    intros [= <-]. auto.
Qed.

(** Saving a document that was loaded from the collection and updated
    keeps the collection well-formed. *)
Lemma save_loaded_ok {PH : PasswordHasher} (st st' : Store) (now : Z)
      (found : User) (updates : list string) (o : Js.object)
      (d : UserModel.Doc) :
  store_ok st -> In found st ->
  Routes.applyUpdates (UserModel.loaded found) updates o = inr d ->
  UserModel.save now d st = inr st' ->
  store_ok st'.
Proof.
  intros Hok Hin Hrun Hsave.
  destruct (applyUpdates_bookkeeping _ _ _ _ Hrun) as [Hid Hnew].
  cbn in Hid, Hnew.
  destruct (preSave_id_email now d) as [Hpid Hpemail].
  unfold UserModel.save in Hsave.
  destruct (_ && negb _) in Hsave; [discriminate|]. cbv zeta in Hsave.
  destruct (UserModel.isModified d "email"
            && existsb (fun v => negb (Nat.eqb (_id v)
                                         (_id (UserModel.preSave now d)))
                                 && (email v =? email (UserModel.preSave now d)))
                 st) eqn:Hcheck; [discriminate|].
  injection Hsave as <-.
  apply (write_existing_ok _ found); [assumption..|congruence|].
  intros v Hv Hne Heq.
  apply andb_false_elim in Hcheck as [Hunmod|Hfree].
  - unfold UserModel.isModified in Hunmod. rewrite Hnew in Hunmod.
    cbn [orb] in Hunmod.
    destruct (applyUpdates_email _ _ _ _ Hrun Hunmod) as [_ Hemail].
    cbn in Hemail.
    assert (v = found) as ->.
    { apply (store_ok_email_key st); try assumption; [apply Hok|].
      congruence. }
    congruence.
  - assert (Hex : existsb (fun v => negb (Nat.eqb (_id v)
                                            (_id (UserModel.preSave now d)))
                                    && (email v =? email (UserModel.preSave now d)))
                    st = true); [|congruence].
    apply existsb_exists. exists v. split; [assumption|].
    apply andb_true_intro. split.
    + apply negb_true_iff. now apply Nat.eqb_neq.
    + now apply String.eqb_eq.
Qed.

(** Saving a new document keeps the collection well-formed. *)
Lemma save_new_ok {PH : PasswordHasher} (st st' : Store) (now : Z)
      (n e p r : string) :
  store_ok st ->
  UserModel.save now (UserModel.newUser st n e p r) st = inr st' ->
  store_ok st'.
Proof.
  intros Hok Hsave.
  destruct (preSave_id_email now (UserModel.newUser st n e p r))
    as [Hpid Hpemail].
  unfold UserModel.save in Hsave.
  destruct (_ && negb _) in Hsave; [discriminate|]. cbv zeta in Hsave.
  destruct (existsb (fun v => negb (Nat.eqb (_id v)
                                      (_id (UserModel.preSave now
                                              (UserModel.newUser st n e p r))))
                              && (email v =? email (UserModel.preSave now
                                              (UserModel.newUser st n e p r))))
              st) eqn:Hcheck;
    [rewrite andb_true_r in Hsave; cbn in Hsave; discriminate|].
  rewrite andb_false_r in Hsave. injection Hsave as <-.
  assert (Hfresh : forall v, In v st ->
            Nat.eqb (_id v)
              (_id (UserModel.preSave now (UserModel.newUser st n e p r)))
            = false).
  { intros v Hv. rewrite Hpid. cbn. now apply freshId_fresh. }
  rewrite write_new by exact Hfresh.
  apply append_ok; [assumption| |].
  - intros v Hv. apply Nat.eqb_neq. now apply Hfresh.
  - intros v Hv Heq.
    assert (Hex : existsb (fun v => negb (Nat.eqb (_id v)
                                      (_id (UserModel.preSave now
                                              (UserModel.newUser st n e p r))))
                              && (email v =? email (UserModel.preSave now
                                              (UserModel.newUser st n e p r))))
                    st = true); [|congruence].
    apply existsb_exists. exists v. split; [assumption|].
    rewrite (Hfresh v Hv). cbn. now apply String.eqb_eq.
Qed.

(** Every handler that writes leaves a well-formed collection
    well-formed. *)
Theorem handlers_keep_store_ok {PH : PasswordHasher} (env : Env)
        (st : Store) (now : Z) (req : Request) :
  store_ok st ->
  store_ok (snd (Routes.post_register env st now req))
  /\ store_ok (snd (Routes.patch_me env st now req))
  /\ store_ok (snd (Routes.patch_user env st now req))
  /\ store_ok (snd (Routes.delete_user env st now req))
  /\ store_ok (snd (Routes.post_create_admin env st now req))
  /\ (forall st', Server.createDefaultAdmin st now = inr st' -> store_ok st').
Proof.
  intros Hok.
  assert (Hupdate : forall id allowed,
             store_ok (snd
               (match findById id st with
                | None => (respond_error 404 "User not found", st)
                | Some found =>
                    match (let* user := Routes.applyUpdates
                                          (UserModel.loaded found)
                                          (Js.keys (body req)) (body req) in
                           let* st' := UserModel.save now user st in
                           inr (user, st')) with
                    | inl error => (respond_error 400 (message error), st)
                    | inr (user, st') => (allowed user, st')
                    end
                end))).
  { intros id allowed.
    destruct (findById id st) as [found|] eqn:Hfound; [|exact Hok].
    apply findOne_some in Hfound as [Hin _].
    destruct (Routes.applyUpdates _ _ _) as [e|d] eqn:Hrun; [exact Hok|].
    cbn [bind].
    destruct (UserModel.save now d st) as [e|st'] eqn:Hsave; [exact Hok|].
    cbn. exact (save_loaded_ok st st' now found _ _ d Hok Hin Hrun Hsave). }
  unfold Routes.post_register, Routes.patch_me, Routes.patch_user,
    Routes.delete_user, Routes.post_create_admin, Routes.behind_auth,
    Routes.behind_role, Server.createDefaultAdmin.
  split; [|split; [|split; [|split; [|split]]]].
  - destruct (Middleware.auth env st now req) as [user _|res]; [|exact Hok].
    destruct (Middleware.checkRole _ _); [exact Hok|].
    unfold Routes.register.
    destruct (_ || _); [exact Hok|].
    destruct (negb (PasswordRegex.test _)); [exact Hok|].
    destruct (findOne _ st); [exact Hok|].
    destruct (UserModel.save _ _ _) eqn:Hsave; [exact Hok|].
    exact (save_new_ok _ _ _ _ _ _ _ Hok Hsave).
  - destruct (Middleware.auth env st now req) as [user _|res]; [|exact Hok].
    unfold Routes.patchMe.
    destruct (negb _); [exact Hok|]. apply Hupdate.
  - destruct (Middleware.auth env st now req) as [user _|res]; [|exact Hok].
    destruct (Middleware.checkRole _ _); [exact Hok|].
    unfold Routes.patchUser.
    destruct (negb _); [exact Hok|]. apply Hupdate.
  - destruct (Middleware.auth env st now req) as [user _|res]; [|exact Hok].
    destruct (Middleware.checkRole _ _); [exact Hok|].
    unfold Routes.deleteUser.
    destruct (findById (params_userId req) st) as [found|] eqn:Hfound;
      [|exact Hok].
    apply findOne_some in Hfound as [Hin _].
    destruct (UserModel.save _ _ _) as [e|st'] eqn:Hsave; [exact Hok|].
    cbn.
    apply (save_loaded_ok st st' now found ["active"] [("active", "false")]
             _ Hok Hin eq_refl Hsave).
  - unfold Routes.createAdmin.
    destruct (findOne _ st); [exact Hok|].
    destruct (UserModel.save _ _ _) eqn:Hsave; [exact Hok|].
    exact (save_new_ok _ _ _ _ _ _ _ Hok Hsave).
  - intros st'. destruct (findOne _ st); [now intros [= <-]|].
    intros Hsave. exact (save_new_ok _ _ _ _ _ _ _ Hok Hsave).
Qed.

(** ** Tokens, as the middleware and the handlers take them *)

(** Only a well-formed token signed with the secret and not yet expired
    verifies. *)
Lemma verify_inr_token (token : Jwt.Token) (secret : string) (now : Z)
      (p : Jwt.Payload) :
  Jwt.verify token secret now = inr p ->
  token = Jwt.Jws p secret /\ (now < Jwt.exp p)%Z.
Proof.
  destruct token as [q key|s]; cbn.
  - intros H. apply verify_inr_inv in H as (-> & -> & Hexp). auto.
  - destruct (verify_raw s secret now) as [e He].
    unfold Jwt.verify in He. rewrite He. discriminate.
Qed.

Lemma verify_own (p : Jwt.Payload) (secret : string) (now : Z) :
  (secret =? "") = false -> (now < Jwt.exp p)%Z ->
  Jwt.verify (Jwt.Jws p secret) secret now = inr p.
Proof.
  intros Hs Hexp. unfold Jwt.verify. rewrite Hs, String.eqb_refl.
  cbn [negb]. destruct (Z.leb_spec (Jwt.exp p) now); [lia|reflexivity].
Qed.

Lemma verify_expired (p : Jwt.Payload) (secret : string) (now : Z) :
  (secret =? "") = false -> (Jwt.exp p <= now)%Z ->
  Jwt.verify (Jwt.Jws p secret) secret now = inl (Error "jwt expired").
Proof.
  intros Hs Hexp. unfold Jwt.verify. rewrite Hs, String.eqb_refl.
  cbn [negb]. destruct (Z.leb_spec (Jwt.exp p) now); [reflexivity|lia].
Qed.

(** In a collection where [_id] is a key, the lookup of the middleware
    finds an active identity by its [_id]. *)
Lemma findOne_active_in (st : Store) (u : User) :
  NoDup (map _id st) -> In u st -> active u = true ->
  findOne (fun v => Nat.eqb (_id v) (_id u) && active v) st = Some u.
Proof.
  intros Hnd Hin Hact.
  destruct (findOne_finds (fun v => Nat.eqb (_id v) (_id u) && active v)
              st u Hin) as [v Hv].
  { now rewrite Nat.eqb_refl, Hact. }
  rewrite Hv. f_equal.
  apply findOne_some in Hv as [Hin' Hf].
  apply andb_prop in Hf as [Hid _]. apply Nat.eqb_eq in Hid.
  now apply (store_ok_id_key st).
Qed.

(** The middleware lets through a bearer token that is signed with the
    access secret, has not expired and names an active identity whose
    password was not changed after the token was issued. *)
Lemma auth_complete (env : Env) (st : Store) (now : Z) (req : Request)
      (u : User) (p : Jwt.Payload) :
  (JWT_SECRET env =? "") = false ->
  NoDup (map _id st) ->
  header_Authorization req = Some (Bearer (Jwt.Jws p (JWT_SECRET env))) ->
  (now < Jwt.exp p)%Z ->
  In u st -> _id u = Jwt.userId p -> active u = true ->
  (forall changed, passwordChangedAt u = Some changed ->
                   (changed <= Jwt.iat p)%Z) ->
  Middleware.auth env st now req
  = Middleware.Next u (Jwt.Jws p (JWT_SECRET env)).
Proof.
  intros Hs Hnd Hhdr Hexp Hin Hid Hact Hpca.
  unfold Middleware.auth, Middleware.auth_try. rewrite Hhdr.
  cbn [Jwt.is_empty]. rewrite (verify_own p _ now Hs Hexp). cbn [bind].
  rewrite <- Hid, (findOne_active_in st u Hnd Hin Hact).
  unfold UserModel.changedPasswordAfter.
  destruct (passwordChangedAt u) as [changed|]; [|reflexivity].
  specialize (Hpca changed eq_refl).
  destruct (Z.ltb_spec (Jwt.iat p) changed); [lia|reflexivity].
Qed.

(** [generateToken] on the environment of the server. *)
Lemma generateToken_access (raw : RawEnv) (now : Z) (uid : ObjectId) :
  Routes.generateToken (loadEnv raw) now uid "access"
  = inr (Jwt.Jws {| Jwt.userId := uid; Jwt.iat := now;
                    Jwt.exp := (now + 3600)%Z |}
           (JWT_SECRET (loadEnv raw))).
Proof.
  unfold Routes.generateToken.
  change ("access" =? "refresh") with false. cbv iota.
  unfold Jwt.sign. now rewrite loadEnv_JWT_SECRET_nonempty.
Qed.

Lemma generateToken_refresh (raw : RawEnv) (now : Z) (uid : ObjectId) :
  Routes.generateToken (loadEnv raw) now uid "refresh"
  = inr (Jwt.Jws {| Jwt.userId := uid; Jwt.iat := now;
                    Jwt.exp := (now + 604800)%Z |}
           (JWT_REFRESH_SECRET (loadEnv raw))).
Proof.
  unfold Routes.generateToken.
  change ("refresh" =? "refresh") with true. cbv iota.
  unfold Jwt.sign. now rewrite loadEnv_JWT_REFRESH_SECRET_nonempty.
Qed.

(** ** C4: a token passes only as the kind it was issued as *)

(** C4. When the access and the refresh secret differ, [generateToken]
    issues for every subject [s] an access and a refresh token such
    that: the access token, presented at once as bearer token, verifies
    in the auth middleware and yields [s], that is, the request goes
    through as an active identity whose [_id] is [s], or is rejected
    for the identity and not for the token; it goes through as [u]
    when [u] is the active identity of that [_id], in a collection
    where [_id] is a key, and its password was not changed after now;
    the same token presented in the cookie is answered 401 by the
    refresh handler, and by the refresh route as the server mounts it;
    and the refresh token presented as bearer token is rejected by the
    auth middleware with ['invalid signature']. *)
Theorem token_kind_roundtrip (raw : RawEnv) (st : Store) (now : Z)
        (s : ObjectId) :
  JWT_SECRET (loadEnv raw) <> JWT_REFRESH_SECRET (loadEnv raw) ->
  exists access refresh,
    Routes.generateToken (loadEnv raw) now s "access" = inr access
    /\ Routes.generateToken (loadEnv raw) now s "refresh" = inr refresh
    /\ forall req : Request,
        (header_Authorization req = Some (Bearer access) ->
         match Middleware.auth (loadEnv raw) st now req with
         | Middleware.Next user token =>
             _id user = s /\ active user = true /\ token = access
         | Middleware.Reject res =>
             res = respond 401
                     (JObj [("status", JStr "error");
                            ("message", JStr "User not found or deactivated")])
             \/ res = respond 401
                        (JObj [("status", JStr "error");
                               ("message",
                                JStr "User recently changed password. Please log in again")])
         end)
        /\ (header_Authorization req = Some (Bearer access) ->
            forall u : User,
              NoDup (map _id st) -> In u st -> _id u = s ->
              active u = true ->
              (forall changed, passwordChangedAt u = Some changed ->
                               (changed <= now)%Z) ->
              Middleware.auth (loadEnv raw) st now req
              = Middleware.Next u access)
        /\ (cookies_refreshToken req = Some access ->
            Routes.refreshToken (loadEnv raw) st now req
            = respond_error 401 "Invalid refresh token"
            /\ Server.api_auth Routes.post_refresh_token
                 (loadEnv raw) st now req
               = (respond_error 401 "Invalid refresh token", st))
        /\ (header_Authorization req = Some (Bearer refresh) ->
            Middleware.auth (loadEnv raw) st now req
            = Middleware.Reject
                (respond 401
                   (JObj [("status", JStr "error");
                          ("message", JStr "invalid signature")]))).
Proof.
  intros Hdiff.
  pose proof (loadEnv_JWT_SECRET_nonempty raw) as Ha.
  pose proof (loadEnv_JWT_REFRESH_SECRET_nonempty raw) as Hr.
  eexists; eexists.
  split; [apply generateToken_access|].
  split; [apply generateToken_refresh|].
  intros req. split; [|split; [|split]].
  - intros Hhdr. unfold Middleware.auth, Middleware.auth_try.
    rewrite Hhdr. cbn [Jwt.is_empty].
    rewrite (verify_own _ _ now Ha) by (cbn; lia).
    cbn [bind Jwt.userId Jwt.iat].
    destruct (findOne (fun u => Nat.eqb (_id u) s && active u) st)
      as [user|] eqn:Hfind; [|now left].
    apply findOne_some in Hfind as [_ Hf].
    apply andb_prop in Hf as [Hid Hact]. apply Nat.eqb_eq in Hid.
    destruct (match passwordChangedAt user with
              | Some _ => true
              | None => false
              end && UserModel.changedPasswordAfter user now);
      [now right|auto].
  - intros Hhdr u Hnd Hin Hid Hact Hpca. subst s.
    apply auth_complete; try assumption; try reflexivity.
    cbn. lia.
  - intros Hc. split; [|apply mounted_refresh].
    rewrite (refreshToken_parsed _ _ _ _ _ Hc).
    cbn [Jwt.is_empty].
    now rewrite (verify_other_key _ _ _ now Hr Hdiff).
  - intros Hhdr. unfold Middleware.auth, Middleware.auth_try.
    rewrite Hhdr. cbn [Jwt.is_empty].
    rewrite (verify_other_key _ _ _ now Ha);
      [reflexivity|intro E; apply Hdiff; now symmetry].
Qed.

Lemma token_kind_roundtrip_witness :
  JWT_SECRET Sample.env <> JWT_REFRESH_SECRET Sample.env
  /\ Middleware.auth Sample.env Sample.store 1000
       (Sample.with_bearer
          (Sample.token 2 1000 3600 (JWT_SECRET Sample.env)) [] 0)
     = Middleware.Next Sample.alice
         (Sample.token 2 1000 3600 (JWT_SECRET Sample.env))
  /\ Routes.refreshToken Sample.env Sample.store 1000
       (Sample.with_cookie
          (Sample.token 2 1000 3600 (JWT_SECRET Sample.env)))
     = respond_error 401 "Invalid refresh token"
  /\ Middleware.auth Sample.env Sample.store 1000
       (Sample.with_bearer
          (Sample.token 2 1000 604800 (JWT_REFRESH_SECRET Sample.env)) [] 0)
     = Middleware.Reject
         (respond 401
            (JObj [("status", JStr "error");
                   ("message", JStr "invalid signature")])).
Proof.
  assert (H : JWT_SECRET Sample.env <> JWT_REFRESH_SECRET Sample.env)
    by (vm_compute; discriminate).
  split; [exact H|].
  destruct (token_kind_roundtrip
              {| raw_JWT_SECRET := None; raw_JWT_REFRESH_SECRET := None;
                 raw_NODE_ENV := None |}
              Sample.store 1000 2 H)
    as (access & refresh & Ha & Hr & Hreq).
  assert (Ea : access = Sample.token 2 1000 3600 (JWT_SECRET Sample.env))
    by (vm_compute in Ha; injection Ha as <-; reflexivity).
  assert (Er : refresh
               = Sample.token 2 1000 604800 (JWT_REFRESH_SECRET Sample.env))
    by (vm_compute in Hr; injection Hr as <-; reflexivity).
  subst access refresh.
  split; [|split].
  - apply (proj1 (proj2
             (Hreq (Sample.with_bearer
                      (Sample.token 2 1000 3600 (JWT_SECRET Sample.env))
                      [] 0)))
             eq_refl Sample.alice).
    + cbn; repeat constructor; cbn; intuition discriminate.
    + cbn; auto.
    + reflexivity.
    + reflexivity.
    + intros changed [= <-]. discriminate.
  - apply (proj1 (proj2 (proj2
             (Hreq (Sample.with_cookie
                      (Sample.token 2 1000 3600 (JWT_SECRET Sample.env))))))
             eq_refl).
  - apply (proj2 (proj2 (proj2
             (Hreq (Sample.with_bearer
                      (Sample.token 2 1000 604800
                         (JWT_REFRESH_SECRET Sample.env)) [] 0))))).
    reflexivity.
Defined.

(** * Further properties of the code *)

(** ** The auth middleware, exactly *)

(** X1. On a collection where [_id] is a key, the middleware lets a
    request through, as the user [u] with the token [token], exactly
    when the header is ['Bearer '] followed by [token], the token is
    signed with the access secret and has not expired, and it names
    [u], an active identity of the collection whose password was not
    changed after the token was issued. *)
Theorem auth_lets_through_iff (raw : RawEnv) (st : Store) (now : Z)
        (req : Request) (u : User) (token : Jwt.Token) :
  NoDup (map _id st) ->
  Middleware.auth (loadEnv raw) st now req = Middleware.Next u token
  <-> exists p,
      header_Authorization req = Some (Bearer token)
      /\ token = Jwt.Jws p (JWT_SECRET (loadEnv raw))
      /\ (now < Jwt.exp p)%Z
      /\ In u st /\ _id u = Jwt.userId p /\ active u = true
      /\ (forall changed, passwordChangedAt u = Some changed ->
                          (changed <= Jwt.iat p)%Z).
Proof.
  intros Hnd. split.
  - intros H. apply auth_next_inv in H as (Hhdr & p & Hver & Hfind & Hcpa).
    apply verify_inr_token in Hver as [-> Hexp].
    apply findOne_some in Hfind as [Hin Hf].
    apply andb_prop in Hf as [Hid Hact]. apply Nat.eqb_eq in Hid.
    exists p. repeat split; try assumption.
    intros changed Hc. unfold UserModel.changedPasswordAfter in Hcpa.
    rewrite Hc in Hcpa. now apply Z.ltb_ge in Hcpa.
  - intros (p & Hhdr & -> & Hexp & Hin & Hid & Hact & Hpca).
    apply auth_complete; try assumption.
    apply loadEnv_JWT_SECRET_nonempty.
Qed.

Lemma auth_lets_through_iff_witness :
  NoDup (map _id Sample.store)
  /\ Middleware.auth Sample.env Sample.store 400
       (Sample.with_bearer (Sample.token 2 300 3600 (JWT_SECRET Sample.env))
          [] 0)
     = Middleware.Next Sample.alice
         (Sample.token 2 300 3600 (JWT_SECRET Sample.env)).
Proof.
  assert (Hnd : NoDup (map _id Sample.store))
    by (cbn; repeat constructor; cbn; intuition discriminate).
  split; [exact Hnd|].
  apply (proj2 (auth_lets_through_iff
                  {| raw_JWT_SECRET := None; raw_JWT_REFRESH_SECRET := None;
                     raw_NODE_ENV := None |}
                  Sample.store 400
                  (Sample.with_bearer
                     (Sample.token 2 300 3600 (JWT_SECRET Sample.env)) [] 0)
                  Sample.alice
                  (Sample.token 2 300 3600 (JWT_SECRET Sample.env)) Hnd)).
  exists {| Jwt.userId := 2; Jwt.iat := 300; Jwt.exp := 300 + 3600 |}.
  repeat split; try reflexivity.
  - cbn. auto.
  - intros changed [= <-]. discriminate.
Defined.

(** ** The routes for admins only *)

(** X2. The three routes mounted behind [checkRole(['admin'])] answer
    an authenticated user whose role is not ['admin'] with 403, and a
    request the auth middleware rejects with its 401; in both cases the
    handler does not run and the collection is as before. *)
Theorem admin_routes_refuse_others {PH : PasswordHasher} (env : Env)
        (st : Store) (now : Z) (req : Request) :
  let forbidden :=
    respond 403
      (JObj [("status", JStr "error");
             ("message",
              JStr "You do not have permission to perform this action")]) in
  (forall user token,
      Middleware.auth env st now req = Middleware.Next user token ->
      role user <> "admin" ->
      Routes.post_register env st now req = (forbidden, st)
      /\ Routes.patch_user env st now req = (forbidden, st)
      /\ Routes.delete_user env st now req = (forbidden, st))
  /\ (forall res,
      Middleware.auth env st now req = Middleware.Reject res ->
      status res = 401
      /\ Routes.post_register env st now req = (res, st)
      /\ Routes.patch_user env st now req = (res, st)
      /\ Routes.delete_user env st now req = (res, st)).
Proof.
  cbv zeta.
  unfold Routes.post_register, Routes.patch_user, Routes.delete_user,
    Routes.behind_auth, Routes.behind_role.
  split.
  - intros user token -> Hrole. unfold Middleware.checkRole.
    assert (Hinc : Js.includes ["admin"] (role user) = false).
    { destruct (Js.includes ["admin"] (role user)) eqn:E; [|reflexivity].
      apply includes_In in E. destruct E as [E|[]]. congruence. }
    rewrite Hinc. cbn [negb]. auto.
  - intros res Hrej. rewrite Hrej.
    split; [now apply auth_reject_401 in Hrej|auto].
Qed.

Lemma admin_routes_refuse_others_witness :
  let req :=
    Sample.with_bearer (Sample.token 2 300 3600 (JWT_SECRET Sample.env))
      [("role", "admin")] 2 in
  role Sample.alice <> "admin"
  /\ status (fst (@Routes.patch_user Sample.hasher Sample.env Sample.store
                    400 req)) = 403
  /\ snd (@Routes.patch_user Sample.hasher Sample.env Sample.store 400 req)
     = Sample.store.
Proof.
  cbv zeta.
  assert (Hrole : role Sample.alice <> "admin") by discriminate.
  split; [exact Hrole|].
  destruct (proj1 (@admin_routes_refuse_others Sample.hasher Sample.env
                     Sample.store 400
                     (Sample.with_bearer
                        (Sample.token 2 300 3600 (JWT_SECRET Sample.env))
                        [("role", "admin")] 2))
              Sample.alice (Sample.token 2 300 3600 (JWT_SECRET Sample.env))
              eq_refl Hrole) as (_ & -> & _).
  split; reflexivity.
Defined.

(** ** Login, and what its tokens are good for *)

Lemma truthy_some (s : string) : s <> "" -> Js.truthy (Some s) = true.
Proof. intros H. cbn. apply String.eqb_neq in H. now rewrite H. Qed.

Lemma truthy_inv (v : Js.value) :
  Js.truthy v = true -> exists s, v = Some s /\ s <> "".
Proof.
  destruct v as [s|]; cbn; [|discriminate].
  intros H. exists s. split; [reflexivity|].
  apply String.eqb_neq. now destruct (s =? "").
Qed.

(** The answer to a login with the right password. *)
Lemma login_ok {PH : PasswordHasher} (raw : RawEnv) (st : Store) (now : Z)
      (req : Request) (e p : string) (u : User) :
  Js.get (body req) "email" = Some e -> e <> "" ->
  Js.get (body req) "password" = Some p -> p <> "" ->
  findOne (fun v => email v =? e) st = Some u ->
  active u = true -> UserModel.comparePassword u p = true ->
  Routes.login (loadEnv raw) st now req
  = {| status := 200;
       json :=
         JObj [("user", JObj [("id", JOid (_id u)); ("name", JStr (name u));
                              ("email", JStr (email u));
                              ("role", JStr (role u))]);
               ("accessToken",
                JTok (Jwt.Jws {| Jwt.userId := _id u; Jwt.iat := now;
                                 Jwt.exp := (now + 3600)%Z |}
                        (JWT_SECRET (loadEnv raw))))];
       cookie :=
         Some {| cookie_name := "refreshToken";
                 cookie_value :=
                   Jwt.Jws {| Jwt.userId := _id u; Jwt.iat := now;
                              Jwt.exp := (now + 604800)%Z |}
                     (JWT_REFRESH_SECRET (loadEnv raw));
                 httpOnly := true;
                 secure := NODE_ENV (loadEnv raw) =? "production";
                 sameSite := Some "strict";
                 maxAge := Some (604800 * 1000)%Z |} |}.
Proof.
  intros He Hne Hp Hnp Hfind Hact Hcmp. unfold Routes.login.
  rewrite He, Hp, (truthy_some e Hne), (truthy_some p Hnp).
  cbn [negb orb Js.toString]. rewrite Hfind, Hact, Hcmp. cbn [negb].
  rewrite generateToken_access, generateToken_refresh. reflexivity.
Qed.

(** X3. A login is answered 200 exactly when the body has a non-empty
    email and password, the email is that of an identity which is
    active, and the password matches its hash. The answer then carries
    the public projection of the identity (no hash) and an access token
    that expires after 3600 seconds, and sets the cookie
    [refreshToken], HTTP-only and same-site strict, with a token that
    expires after 604800 seconds, the cookie's max-age being that
    lifetime in milliseconds; the cookie is secure exactly when
    [NODE_ENV] is ['production']. *)
Theorem login_succeeds_iff {PH : PasswordHasher} (raw : RawEnv) (st : Store)
        (now : Z) (req : Request) :
  (status (Routes.login (loadEnv raw) st now req) = 200
   <-> exists e p u,
       Js.get (body req) "email" = Some e /\ e <> ""
       /\ Js.get (body req) "password" = Some p /\ p <> ""
       /\ findOne (fun v => email v =? e) st = Some u
       /\ active u = true /\ UserModel.comparePassword u p = true)
  /\ (forall e p u,
      Js.get (body req) "email" = Some e -> e <> "" ->
      Js.get (body req) "password" = Some p -> p <> "" ->
      findOne (fun v => email v =? e) st = Some u ->
      active u = true -> UserModel.comparePassword u p = true ->
      Routes.login (loadEnv raw) st now req
      = {| status := 200;
           json :=
             JObj [("user", JObj [("id", JOid (_id u));
                                  ("name", JStr (name u));
                                  ("email", JStr (email u));
                                  ("role", JStr (role u))]);
                   ("accessToken",
                    JTok (Jwt.Jws {| Jwt.userId := _id u; Jwt.iat := now;
                                     Jwt.exp := (now + 3600)%Z |}
                            (JWT_SECRET (loadEnv raw))))];
           cookie :=
             Some {| cookie_name := "refreshToken";
                     cookie_value :=
                       Jwt.Jws {| Jwt.userId := _id u; Jwt.iat := now;
                                  Jwt.exp := (now + 604800)%Z |}
                         (JWT_REFRESH_SECRET (loadEnv raw));
                     httpOnly := true;
                     secure := NODE_ENV (loadEnv raw) =? "production";
                     sameSite := Some "strict";
                     maxAge := Some (604800 * 1000)%Z |} |}).
Proof.
  split; [split|].
  - unfold Routes.login.
    destruct (Js.truthy (Js.get (body req) "email")) eqn:Te;
      [|cbn; discriminate].
    destruct (Js.truthy (Js.get (body req) "password")) eqn:Tp;
      [|cbn; discriminate].
    apply truthy_inv in Te as (e & He & Hne).
    apply truthy_inv in Tp as (p & Hp & Hnp).
    rewrite He, Hp. cbn [negb orb Js.toString].
    destruct (findOne (fun v => email v =? e) st) as [u|] eqn:Hfind;
      [|cbn; discriminate].
    destruct (active u) eqn:Hact; [|cbn; discriminate].
    destruct (UserModel.comparePassword u p) eqn:Hcmp; [|cbn; discriminate].
    intros _. exists e, p, u. auto 10.
  - intros (e & p & u & He & Hne & Hp & Hnp & Hfind & Hact & Hcmp).
    now rewrite (login_ok raw st now req e p u).
  - intros e p u. apply login_ok.
Qed.

Lemma login_succeeds_iff_witness :
  let req := Sample.with_body [("email", "alice@x.com");
                               ("password", "Wonder1and!")] in
  status (@Routes.login Sample.hasher Sample.env Sample.store 500 req) = 200.
Proof.
  cbv zeta.
  apply (proj2 (proj1 (@login_succeeds_iff Sample.hasher
                         {| raw_JWT_SECRET := None;
                            raw_JWT_REFRESH_SECRET := None;
                            raw_NODE_ENV := None |}
                         Sample.store 500
                         (Sample.with_body [("email", "alice@x.com");
                                            ("password", "Wonder1and!")])))).
  exists "alice@x.com", "Wonder1and!", Sample.alice.
  repeat split; try reflexivity; discriminate.
Defined.

(** X4. The access token of a successful login, on a collection where
    [_id] is a key: it passes the auth middleware, as the identity that
    logged in, at every time before its expiry, 3600 seconds after the
    login (provided the password was not changed after the login), and
    is rejected with ['jwt expired'] from then on. *)
Theorem login_tokens_lifetime {PH : PasswordHasher} (raw : RawEnv)
        (st : Store) (now : Z) (req : Request) (e p : string) (u : User) :
  NoDup (map _id st) ->
  Js.get (body req) "email" = Some e -> e <> "" ->
  Js.get (body req) "password" = Some p -> p <> "" ->
  findOne (fun v => email v =? e) st = Some u ->
  active u = true -> UserModel.comparePassword u p = true ->
  exists access,
    json (Routes.login (loadEnv raw) st now req)
    = JObj [("user", JObj (Routes.publicUser u));
            ("accessToken", JTok access)]
    /\ forall (now' : Z) (req' : Request),
        (header_Authorization req' = Some (Bearer access) ->
         (now' < now + 3600)%Z ->
         (forall changed, passwordChangedAt u = Some changed ->
                          (changed <= now)%Z) ->
         Middleware.auth (loadEnv raw) st now' req'
         = Middleware.Next u access)
        /\ (header_Authorization req' = Some (Bearer access) ->
            (now + 3600 <= now')%Z ->
            Middleware.auth (loadEnv raw) st now' req'
            = Middleware.Reject
                (respond 401 (JObj [("status", JStr "error");
                                    ("message", JStr "jwt expired")]))).
Proof.
  intros Hnd He Hne Hp Hnp Hfind Hact Hcmp.
  rewrite (login_ok raw st now req e p u He Hne Hp Hnp Hfind Hact Hcmp).
  apply findOne_some in Hfind as [Hin _].
  eexists. split; [reflexivity|].
  intros now' req'. split.
  - intros Hhdr Hexp Hpca.
    apply auth_complete; try assumption; try reflexivity.
    apply loadEnv_JWT_SECRET_nonempty.
  - intros Hhdr Hexp.
    unfold Middleware.auth, Middleware.auth_try. rewrite Hhdr.
    cbn [Jwt.is_empty].
    rewrite verify_expired;
      [reflexivity|apply loadEnv_JWT_SECRET_nonempty|cbn; lia].
Qed.

Lemma login_tokens_lifetime_witness :
  NoDup (map _id Sample.store)
  /\ Middleware.auth Sample.env Sample.store (500 + 3599)
       (Sample.with_bearer (Sample.token 2 500 3600 (JWT_SECRET Sample.env))
          [] 0)
     = Middleware.Next Sample.alice
         (Sample.token 2 500 3600 (JWT_SECRET Sample.env)).
Proof.
  assert (Hnd : NoDup (map _id Sample.store))
    by (cbn; repeat constructor; cbn; intuition discriminate).
  split; [exact Hnd|].
  destruct (@login_tokens_lifetime Sample.hasher
              {| raw_JWT_SECRET := None; raw_JWT_REFRESH_SECRET := None;
                 raw_NODE_ENV := None |}
              Sample.store 500
              (Sample.with_body [("email", "alice@x.com");
                                 ("password", "Wonder1and!")])
              "alice@x.com" "Wonder1and!" Sample.alice Hnd
              eq_refl ltac:(discriminate) eq_refl ltac:(discriminate)
              eq_refl eq_refl eq_refl)
    as (access & Hjson & Hlife).
  injection Hjson as <-.
  apply (proj1 (Hlife (500 + 3599)%Z
                  (Sample.with_bearer
                     (Sample.token 2 500 3600 (JWT_SECRET Sample.env)) [] 0))).
  - reflexivity.
  - reflexivity.
  - intros changed [= <-]. discriminate.
Defined.

(** ** The refresh route, as the server mounts it *)

(** X5. The refresh handler reads [req.cookies.refreshToken] inside its
    [try]: on a request whose [req.cookies] is undefined the read
    throws and the [catch] answers 401 ['Invalid refresh token']. The
    server mounts no cookie parser before the router, so this is the
    answer to every request that reaches the refresh route, whatever
    cookie it carries; the collection is left as it is. *)
Theorem mounted_refresh_never_succeeds (env : Env) (st : Store) (now : Z)
        (req : Request) :
  (forall r : Request,
      cookies r = None ->
      Routes.refreshToken env st now r
      = respond_error 401 "Invalid refresh token")
  /\ Server.api_auth Routes.post_refresh_token env st now req
     = (respond_error 401 "Invalid refresh token", st).
Proof.
  split.
  - intros r. apply refreshToken_undefined_cookies.
  - apply mounted_refresh.
Qed.

(** ** Nothing in a token says what kind it is *)

(** X6. The refresh token [generateToken] issues for an active
    identity, in a collection where [_id] is a key, presented as bearer
    token before its expiry, 604800 seconds after it was issued: the
    auth middleware lets it through as that identity when the two
    secrets are equal, and rejects it with ['invalid signature'] when
    they differ. *)
Theorem refresh_token_as_access_token (raw : RawEnv) (st : Store)
        (now now' : Z) (req : Request) (u : User) (refresh : Jwt.Token) :
  NoDup (map _id st) -> In u st -> active u = true ->
  (forall changed, passwordChangedAt u = Some changed -> (changed <= now)%Z) ->
  (now' < now + 604800)%Z ->
  Routes.generateToken (loadEnv raw) now (_id u) "refresh" = inr refresh ->
  header_Authorization req = Some (Bearer refresh) ->
  (JWT_SECRET (loadEnv raw) = JWT_REFRESH_SECRET (loadEnv raw) ->
   Middleware.auth (loadEnv raw) st now' req = Middleware.Next u refresh)
  /\ (JWT_SECRET (loadEnv raw) <> JWT_REFRESH_SECRET (loadEnv raw) ->
      Middleware.auth (loadEnv raw) st now' req
      = Middleware.Reject
          (respond 401
             (JObj [("status", JStr "error");
                    ("message", JStr "invalid signature")]))).
Proof.
  intros Hnd Hin Hact Hpca Hexp Hgen Hhdr.
  rewrite generateToken_refresh in Hgen.
  assert (Hr : refresh
               = Jwt.Jws {| Jwt.userId := _id u; Jwt.iat := now;
                            Jwt.exp := (now + 604800)%Z |}
                   (JWT_REFRESH_SECRET (loadEnv raw))) by congruence.
  subst refresh. clear Hgen. split.
  - intros Heq. rewrite <- Heq in Hhdr |- *.
    apply auth_complete; try assumption; try reflexivity.
    apply loadEnv_JWT_SECRET_nonempty.
  - intros Hne. unfold Middleware.auth, Middleware.auth_try.
    rewrite Hhdr. cbn [Jwt.is_empty].
    rewrite verify_other_key;
      [reflexivity|apply loadEnv_JWT_SECRET_nonempty|].
    intro E. apply Hne. now symmetry.
Qed.

Lemma refresh_token_as_access_token_witness :
  let raw := {| raw_JWT_SECRET := Some "one secret";
                raw_JWT_REFRESH_SECRET := Some "one secret";
                raw_NODE_ENV := None |} in
  JWT_SECRET (loadEnv raw) = JWT_REFRESH_SECRET (loadEnv raw)
  /\ Middleware.auth (loadEnv raw) Sample.store (300 + 86400)
       (Sample.with_bearer (Sample.token 2 300 604800 "one secret") [] 0)
     = Middleware.Next Sample.alice (Sample.token 2 300 604800 "one secret").
Proof.
  cbv zeta. split; [reflexivity|].
  apply (proj1 (refresh_token_as_access_token
                  {| raw_JWT_SECRET := Some "one secret";
                     raw_JWT_REFRESH_SECRET := Some "one secret";
                     raw_NODE_ENV := None |}
                  Sample.store 300 (300 + 86400)
                  (Sample.with_bearer
                     (Sample.token 2 300 604800 "one secret") [] 0)
                  Sample.alice (Sample.token 2 300 604800 "one secret")
                  ltac:(cbn; repeat constructor; cbn; intuition discriminate)
                  ltac:(cbn; auto) eq_refl
                  ltac:(intros changed [= <-]; discriminate)
                  eq_refl eq_refl eq_refl)).
  reflexivity.
Defined.

(** ** The password pattern, exactly *)

Lemma allowed_not_lineTerminator (c : ascii) :
  PasswordRegex.allowed c = true -> PasswordRegex.lineTerminator c = false.
Proof.
  destruct c as [[] [] [] [] [] [] [] []]; intros H;
    try reflexivity; discriminate H.
Qed.

Lemma lookahead_every (cls : ascii -> bool) (s : string) :
  PasswordRegex.every PasswordRegex.allowed s = true ->
  PasswordRegex.lookahead cls s = existsb cls (list_ascii_of_string s).
Proof.
  induction s as [|c s IH]; cbn; [reflexivity|].
  intros H. apply andb_prop in H as [Hc Hs].
  rewrite (allowed_not_lineTerminator c Hc), (IH Hs). reflexivity.
Qed.

Lemma every_forallb (cls : ascii -> bool) (s : string) :
  PasswordRegex.every cls s = forallb cls (list_ascii_of_string s).
Proof. induction s as [|c s IH]; cbn; [reflexivity|now rewrite IH]. Qed.

(** X7. The pattern of the register handler accepts exactly the strings
    of at least 8 characters, all of them letters, digits or one of
    [@$!%*?&], that have a lowercase letter, an uppercase letter, a
    digit and one of the symbols. A password with any other character,
    a space for one, is refused however strong it is otherwise. *)
Theorem passwordRegex_accepts_iff (s : string) :
  PasswordRegex.test s = true
  <-> (8 <= String.length s)%nat
      /\ (forall c, In c (list_ascii_of_string s) ->
                    PasswordRegex.allowed c = true)
      /\ (exists c, In c (list_ascii_of_string s)
                    /\ PasswordRegex.lower c = true)
      /\ (exists c, In c (list_ascii_of_string s)
                    /\ PasswordRegex.upper c = true)
      /\ (exists c, In c (list_ascii_of_string s)
                    /\ PasswordRegex.digit c = true)
      /\ (exists c, In c (list_ascii_of_string s)
                    /\ PasswordRegex.symbol c = true).
Proof.
  unfold PasswordRegex.test. split.
  - intros H.
    apply andb_prop in H as [H Hrest].
    apply andb_prop in Hrest as [Hall Hlen].
    apply andb_prop in H as [H Hsym].
    apply andb_prop in H as [H Hdig].
    apply andb_prop in H as [Hlo Hup].
    rewrite (lookahead_every _ _ Hall) in Hlo.
    rewrite (lookahead_every _ _ Hall) in Hup.
    rewrite (lookahead_every _ _ Hall) in Hdig.
    rewrite (lookahead_every _ _ Hall) in Hsym.
    rewrite every_forallb, forallb_forall in Hall.
    apply Nat.leb_le in Hlen.
    apply existsb_exists in Hlo, Hup, Hdig, Hsym.
    auto 10.
  - intros (Hlen & Hall & Hlo & Hup & Hdig & Hsym).
    assert (Hevery : PasswordRegex.every PasswordRegex.allowed s = true)
      by (rewrite every_forallb; now apply forallb_forall).
    rewrite !(lookahead_every _ _ Hevery), Hevery.
    apply existsb_exists in Hlo, Hup, Hdig, Hsym.
    rewrite Hlo, Hup, Hdig, Hsym. cbn [andb].
    now apply Nat.leb_le.
Qed.

(** ** Registration *)

Lemma findOne_none (f : User -> bool) (st : Store) (u : User) :
  findOne f st = None -> In u st -> f u = false.
Proof. intros H Hin. exact (find_none f st H u Hin). Qed.

Lemma findOne_app (f : User -> bool) (st st' : Store) :
  findOne f st = None -> findOne f (st ++ st')%list = findOne f st'.
Proof.
  unfold findOne. induction st as [|v st IH]; cbn; [reflexivity|].
  destruct (f v); [discriminate|exact IH].
Qed.

(** Saving a new document with a role of the enumeration succeeds when
    no identity holds its email. *)
Lemma save_new {PH : PasswordHasher} (st : Store) (now : Z)
      (n e p r : string) :
  Js.includes UserModel.roles r = true ->
  findOne (fun u => email u =? e) st = None ->
  UserModel.save now (UserModel.newUser st n e p r) st
  = inr (st ++ [{| _id := freshId st; name := n; email := e;
                   password := hash p; role := r; active := true;
                   passwordChangedAt := None |}])%list.
Proof.
  intros Hrole Hfree.
  unfold UserModel.save, UserModel.newUser, UserModel.preSave,
    UserModel.isModified.
  cbn [UserModel.isNew UserModel.fields UserModel.modified orb andb role
       password set_password].
  rewrite Hrole. cbn [negb].
  assert (Hex : existsb (fun v => negb (Nat.eqb (_id v) (freshId st))
                                  && (email v =? e)) st = false).
  { destruct (existsb _ st) eqn:E; [|reflexivity].
    apply existsb_exists in E as (v & Hin & Hv).
    apply andb_prop in Hv as [_ Hv].
    now rewrite (findOne_none _ st v Hfree Hin) in Hv. }
  cbn [_id email set_password]. rewrite Hex. f_equal. apply write_new.
  intros v Hv. cbn. now apply freshId_fresh.
Qed.

(** X8. A register request with a name, an email no identity holds, a
    password the pattern accepts and a role of the enumeration (or
    none, which stands for ['user']) is answered 201 with the public
    projection of the new identity, and appends that identity to the
    collection, active and with the digest of the password. When the
    hasher verifies a password against its own digest, a login with
    that email and password then succeeds. *)
Theorem register_then_login {PH : PasswordHasher} (raw : RawEnv)
        (st : Store) (now now' : Z) (req req' : Request) (n e p : string) :
  Js.get (body req) "name" = Some n -> n <> "" ->
  Js.get (body req) "email" = Some e -> e <> "" ->
  Js.get (body req) "password" = Some p -> PasswordRegex.test p = true ->
  Js.includes UserModel.roles (Js.or_else (Js.get (body req) "role") "user")
  = true ->
  findOne (fun u => email u =? e) st = None ->
  let created :=
    {| _id := freshId st; name := n; email := e; password := hash p;
       role := Js.or_else (Js.get (body req) "role") "user";
       active := true; passwordChangedAt := None |} in
  Routes.register st now req
  = (respond 201
       (JObj [("message", JStr "User created successfully");
              ("user", JObj [("id", JOid (freshId st)); ("name", JStr n);
                             ("email", JStr e);
                             ("role", JStr (role created))])]),
     (st ++ [created])%list)
  /\ (verify p (hash p) = true ->
      Js.get (body req') "email" = Some e ->
      Js.get (body req') "password" = Some p ->
      status (Routes.login (loadEnv raw) (st ++ [created])%list now' req')
      = 200).
Proof.
  intros Hn Hnn He Hne Hp Htest Hrole Hfree created.
  assert (Hnp : p <> "") by (intros ->; discriminate Htest).
  split.
  - unfold Routes.register.
    rewrite Hn, He, Hp, (truthy_some n Hnn), (truthy_some e Hne),
      (truthy_some p Hnp).
    cbn [negb orb Js.toString]. rewrite Htest. cbn [negb].
    rewrite Hfree, (save_new st now n e p _ Hrole Hfree). reflexivity.
  - intros Hverify He' Hp'.
    rewrite (login_ok raw _ now' req' e p created He' Hne Hp' Hnp);
      [reflexivity| |reflexivity|exact Hverify].
    rewrite (findOne_app _ st [created] Hfree).
    unfold findOne. cbn. now rewrite String.eqb_refl.
Qed.

Lemma register_then_login_witness :
  let req := Sample.with_body [("name", "Carol"); ("email", "carol@x.com");
                               ("password", "Carol123$")] in
  let req' := Sample.with_body [("email", "carol@x.com");
                                ("password", "Carol123$")] in
  PasswordRegex.test "Carol123$" = true
  /\ status (@Routes.login Sample.hasher Sample.env
               (snd (@Routes.register Sample.hasher Sample.store 10 req))
               20 req') = 200.
Proof.
  cbv zeta. split; [reflexivity|].
  destruct (@register_then_login Sample.hasher
              {| raw_JWT_SECRET := None; raw_JWT_REFRESH_SECRET := None;
                 raw_NODE_ENV := None |}
              Sample.store 10 20
              (Sample.with_body [("name", "Carol"); ("email", "carol@x.com");
                                 ("password", "Carol123$")])
              (Sample.with_body [("email", "carol@x.com");
                                 ("password", "Carol123$")])
              "Carol" "carol@x.com" "Carol123$"
              eq_refl ltac:(discriminate) eq_refl ltac:(discriminate)
              eq_refl eq_refl eq_refl eq_refl) as [Hreg Hlogin].
  rewrite Hreg. apply Hlogin; reflexivity.
Defined.

(** X9. A register request with an email that an identity of the
    collection holds is answered 400, whatever its other fields, and
    the collection is as before. *)
Theorem register_email_taken {PH : PasswordHasher} (st : Store) (now : Z)
        (req : Request) (e : string) (u : User) :
  Js.get (body req) "email" = Some e ->
  findOne (fun v => email v =? e) st = Some u ->
  status (fst (Routes.register st now req)) = 400
  /\ snd (Routes.register st now req) = st
  /\ (Js.truthy (Js.get (body req) "name") = true ->
      e <> "" ->
      PasswordRegex.test (Js.toString (Js.get (body req) "password")) = true ->
      Routes.register st now req
      = (respond_error 400 "Email already registered", st)).
Proof.
  intros He Hfind. unfold Routes.register. rewrite He.
  cbn [Js.toString]. rewrite Hfind.
  split; [|split].
  - destruct (_ || _); [reflexivity|].
    destruct (negb _); reflexivity.
  - destruct (_ || _); [reflexivity|].
    destruct (negb _); reflexivity.
  - intros Hn Hne Htest. rewrite Hn, (truthy_some e Hne), Htest.
    assert (Hp : Js.truthy (Js.get (body req) "password") = true).
    { destruct (Js.get (body req) "password") as [p|]; cbn in *.
      - destruct (p =? "") eqn:E; [|reflexivity].
        apply String.eqb_eq in E. subst p. discriminate Htest.
      - discriminate Htest. }
    now rewrite Hp.
Qed.

Lemma register_email_taken_witness :
  let req := Sample.with_body [("name", "Alice II");
                               ("email", "alice@x.com");
                               ("password", "Carol123$")] in
  @Routes.register Sample.hasher Sample.store 10 req
  = (respond_error 400 "Email already registered", Sample.store).
Proof.
  cbv zeta.
  apply (proj2 (proj2
           (@register_email_taken Sample.hasher Sample.store 10
              (Sample.with_body [("name", "Alice II");
                                 ("email", "alice@x.com");
                                 ("password", "Carol123$")])
              "alice@x.com" Sample.alice eq_refl eq_refl)));
    try reflexivity; discriminate.
Defined.

(** ** Updates: what they reach and what they leave alone *)

(** Writing back the document found under an [_id] changes nothing. *)
Lemma write_same (u : User) (st : Store) :
  findById (_id u) st = Some u -> UserModel.write u st = st.
Proof.
  unfold findById, findOne.
  induction st as [|v st IH]; cbn; [discriminate|].
  destruct (Nat.eqb (_id v) (_id u)).
  - now intros [= ->].
  - intros H. now rewrite IH.
Qed.

(** Of two writes under the same [_id], the second one stays. *)
Lemma write_write (u v : User) (st : Store) :
  _id v = _id u ->
  UserModel.write u (UserModel.write v st) = UserModel.write u st.
Proof.
  intros Hid. induction st as [|w st IH]; cbn.
  - rewrite Hid, Nat.eqb_refl. reflexivity.
  - rewrite Hid. destruct (Nat.eqb (_id w) (_id u)) eqn:E; cbn.
    + now rewrite Hid, Nat.eqb_refl.
    + now rewrite E, IH.
Qed.

(** The pre-save hook touches the password and its date only. *)
Lemma preSave_frame {PH : PasswordHasher} (now : Z) (d : UserModel.Doc) :
  _id (UserModel.preSave now d) = _id (UserModel.fields d)
  /\ name (UserModel.preSave now d) = name (UserModel.fields d)
  /\ email (UserModel.preSave now d) = email (UserModel.fields d)
  /\ role (UserModel.preSave now d) = role (UserModel.fields d)
  /\ active (UserModel.preSave now d) = active (UserModel.fields d).
Proof.
  unfold UserModel.preSave.
  destruct (UserModel.isModified d "password"); [|repeat split].
  destruct (UserModel.isNew d); repeat split.
Qed.

(** The loop of the self-update assigns [name], [email] and [password]
    only: the role and the active flag stay. *)
Lemma applyUpdates_self_frame (updates : list string) (o : Js.object)
      (d d' : UserModel.Doc) :
  Routes.isValidOperation ["name"; "email"; "password"] updates = true ->
  Routes.applyUpdates d updates o = inr d' ->
  role (UserModel.fields d') = role (UserModel.fields d)
  /\ active (UserModel.fields d') = active (UserModel.fields d).
Proof.
  unfold Routes.isValidOperation. revert d.
  induction updates as [|update rest IH]; intros d Hvalid; cbn.
  - intros [= <-]. auto.
  - cbn [forallb] in Hvalid. apply andb_prop in Hvalid as [Hk Hrest].
    destruct (Js.get o update) as [v|]; [|now apply IH].
    destruct (UserModel.assign d update v) as [e|d1] eqn:Ha; cbn;
      [discriminate|].
    intros Hrun. destruct (IH d1 Hrest Hrun) as [-> ->].
    apply includes_In in Hk.
    destruct Hk as [<-|[<-|[<-|[]]]]; cbn in Ha; injection Ha as <-;
      split; reflexivity.
Qed.

(** X10. A self-update, whatever its body, leaves the role, the active
    flag and the [_id] of the caller's record as they were, and leaves
    every other record of the collection untouched: nobody promotes or
    reactivates himself through [PATCH /me]. *)
Theorem patchMe_frame {PH : PasswordHasher} (st : Store) (now : Z)
        (req_user : User) (req : Request) :
  (forall id, id <> _id req_user ->
              findById id (snd (Routes.patchMe st now req_user req))
              = findById id st)
  /\ (forall v,
      findById (_id req_user) st = Some v ->
      exists v',
        findById (_id req_user) (snd (Routes.patchMe st now req_user req))
        = Some v'
        /\ _id v' = _id v /\ role v' = role v /\ active v' = active v).
Proof.
  unfold Routes.patchMe.
  destruct (Routes.isValidOperation _ _) eqn:Hvalid; cbn [negb];
    [|split; [reflexivity|intros v Hv; exists v; auto]].
  destruct (findById (_id req_user) st) as [found|] eqn:Hfound;
    [|split; [reflexivity|discriminate]].
  destruct (Routes.applyUpdates _ _ _) as [e|d] eqn:Hrun; cbn [bind];
    [split; [reflexivity|intros v Hv; exists v; cbn [snd]; rewrite Hfound; auto]|].
  destruct (UserModel.save now d st) as [e|st'] eqn:Hsave; cbn [bind];
    [split; [reflexivity|intros v Hv; exists v; cbn [snd]; rewrite Hfound; auto]|].
  cbn [snd].
  destruct (applyUpdates_bookkeeping _ _ _ _ Hrun) as [Hid _].
  destruct (applyUpdates_self_frame _ _ _ _ Hvalid Hrun) as [Hrole Hact].
  destruct (preSave_frame now d) as (Pid & _ & _ & Prole & Pact).
  cbn in Hid, Hrole, Hact.
  assert (Hfid : _id found = _id req_user).
  { apply findOne_some in Hfound as [_ H]. now apply Nat.eqb_eq in H. }
  unfold UserModel.save in Hsave.
  destruct (_ && negb _) in Hsave; [discriminate|]. cbv zeta in Hsave.
  destruct (_ && existsb _ st) in Hsave; [discriminate|].
  injection Hsave as <-.
  split.
  - intros id Hne. apply findById_write_other. congruence.
  - intros v [= <-]. exists (UserModel.preSave now d).
    split; [|repeat split; congruence].
    replace (_id req_user) with (_id (UserModel.preSave now d))
      by congruence.
    apply findById_write.
Qed.

(** X11. [PATCH /me] never answers 404: the record the handler looks up
    is the one the auth middleware has just found. *)
Theorem patch_me_never_404 {PH : PasswordHasher} (env : Env) (st : Store)
        (now : Z) (req : Request) :
  status (fst (Routes.patch_me env st now req)) <> 404.
Proof.
  unfold Routes.patch_me, Routes.behind_auth.
  destruct (Middleware.auth env st now req) as [user token|res] eqn:Hauth.
  - apply auth_next_inv in Hauth as (_ & p & _ & Hfind & _).
    apply findOne_some in Hfind as [Hin _].
    destruct (findOne_finds (fun v => Nat.eqb (_id v) (_id user)) st user
                Hin (Nat.eqb_refl _)) as [found Hfound].
    unfold Routes.patchMe.
    destruct (negb _); [cbn; discriminate|].
    unfold findById. rewrite Hfound.
    destruct (bind _ _) as [e|[d st']]; cbn; discriminate.
  - apply auth_reject_401 in Hauth. cbn. rewrite Hauth. discriminate.
Qed.

(** X12. A self-update with an empty body is accepted: the answer is
    200 with the projection of the record as it is, and the collection
    is as before. *)
Theorem patchMe_empty_body {PH : PasswordHasher} (st : Store) (now : Z)
        (req_user : User) (req : Request) (found : User) :
  body req = [] ->
  findById (_id req_user) st = Some found ->
  Routes.patchMe st now req_user req
  = (respond 200
       (JObj [("user", JObj [("id", JOid (_id found));
                             ("name", JStr (name found));
                             ("email", JStr (email found));
                             ("role", JStr (role found))])]),
     st).
Proof.
  intros Hbody Hfound. unfold Routes.patchMe. rewrite Hbody, Hfound.
  cbn.
  assert (Hid : _id found = _id req_user).
  { apply findOne_some in Hfound as [_ H]. now apply Nat.eqb_eq in H. }
  rewrite write_same; [reflexivity|]. now rewrite Hid.
Qed.

Lemma patchMe_empty_body_witness :
  @Routes.patchMe Sample.hasher Sample.store 400 Sample.alice Sample.request
  = (respond 200
       (JObj [("user", JObj [("id", JOid 2); ("name", JStr "Alice");
                             ("email", JStr "alice@x.com");
                             ("role", JStr "user")])]),
     Sample.store).
Proof.
  exact (@patchMe_empty_body Sample.hasher Sample.store 400 Sample.alice
           Sample.request Sample.alice eq_refl eq_refl).
Defined.

(** What the admin update does with the field [active] alone. *)
Lemma patchUser_active {PH : PasswordHasher} (st : Store) (now : Z)
      (req : Request) (found : User) (v : string) (b : bool) :
  body req = [("active", v)] -> UserModel.castBoolean v = Some b ->
  findById (params_userId req) st = Some found ->
  snd (Routes.patchUser st now req)
  = UserModel.write (set_active b found) st.
Proof.
  intros Hbody Hcast Hfound. unfold Routes.patchUser.
  rewrite Hbody, Hfound.
  cbn [Js.keys map fst Routes.isValidOperation forallb].
  change (Js.includes ["name"; "email"; "password"; "role"; "active"]
            "active") with true.
  cbn [andb negb Routes.applyUpdates Js.get].
  change ("active" =? "active") with true. cbv iota.
  unfold UserModel.assign.
  change ("active" =? "name") with false.
  change ("active" =? "email") with false.
  change ("active" =? "password") with false.
  change ("active" =? "role") with false.
  change ("active" =? "active") with true. cbv iota.
  rewrite Hcast. reflexivity.
Qed.

Lemma deleteUser_store {PH : PasswordHasher} (st : Store) (now : Z)
      (req : Request) (found : User) :
  findById (params_userId req) st = Some found ->
  snd (Routes.deleteUser st now req)
  = UserModel.write (set_active false found) st.
Proof. intros Hfound. unfold Routes.deleteUser. now rewrite Hfound. Qed.

(** X13. Deleting a user leaves the collection exactly as the admin
    update [{ active: 'false' }] of the same user does; and the admin
    update [{ active: 'true' }] of a deleted user who was active gives
    back the collection as it was before the deletion. *)
Theorem delete_is_deactivation {PH : PasswordHasher} (st : Store)
        (now now' : Z) (req off on : Request) (found : User) :
  findById (params_userId req) st = Some found ->
  params_userId off = params_userId req -> body off = [("active", "false")] ->
  params_userId on = params_userId req -> body on = [("active", "true")] ->
  snd (Routes.deleteUser st now req) = snd (Routes.patchUser st now' off)
  /\ (active found = true ->
      snd (Routes.patchUser (snd (Routes.deleteUser st now req)) now' on)
      = st).
Proof.
  intros Hfound Hoff Boff Hon Bon.
  assert (Hid : _id found = params_userId req).
  { apply findOne_some in Hfound as [_ H]. now apply Nat.eqb_eq in H. }
  rewrite (deleteUser_store st now req found Hfound).
  split.
  - rewrite (patchUser_active st now' off found "false" false Boff eq_refl);
      [reflexivity|now rewrite Hoff].
  - intros Hact.
    rewrite (patchUser_active _ now' on (set_active false found) "true" true
               Bon eq_refl).
    + rewrite write_write by reflexivity.
      replace (set_active true (set_active false found)) with found
        by (destruct found; cbn in *; now subst).
      apply write_same. now rewrite Hid.
    + rewrite Hon, <- Hid.
      apply (findById_write (set_active false found)).
Qed.

Lemma delete_is_deactivation_witness :
  let req := Sample.with_bearer (Sample.token 1 300 3600 "k") [] 2 in
  let on := Sample.with_bearer (Sample.token 1 300 3600 "k")
              [("active", "true")] 2 in
  findById 2 Sample.store = Some Sample.alice
  /\ snd (@Routes.patchUser Sample.hasher
            (snd (@Routes.deleteUser Sample.hasher Sample.store 400 req))
            500 on)
     = Sample.store.
Proof.
  cbv zeta. split; [reflexivity|].
  apply (proj2 (@delete_is_deactivation Sample.hasher Sample.store 400 500
                  (Sample.with_bearer (Sample.token 1 300 3600 "k") [] 2)
                  (Sample.with_bearer (Sample.token 1 300 3600 "k")
                     [("active", "false")] 2)
                  (Sample.with_bearer (Sample.token 1 300 3600 "k")
                     [("active", "true")] 2)
                  Sample.alice eq_refl eq_refl eq_refl eq_refl eq_refl)).
  reflexivity.
Defined.

(** ** The deletion handlers and the invariant, on the sample data
    (X14, X15, X16) *)

Lemma deleteUser_deactivates_witness :
  let req := Sample.with_bearer (Sample.token 1 300 3600 "k") [] 2 in
  findById (params_userId req) Sample.store = Some Sample.alice
  /\ findById 2 (snd (@Routes.deleteUser Sample.hasher Sample.store 400 req))
     = Some (set_active false Sample.alice).
Proof.
  cbv zeta. split; [reflexivity|].
  destruct (@deleteUser_deactivates Sample.hasher Sample.store 400
              (Sample.with_bearer (Sample.token 1 300 3600 "k") [] 2)
              Sample.alice eq_refl)
    as (st' & v & Hrun & Hfind & Hact & Hid & Hn & He & Hp & Hr & Hc & _).
  rewrite Hrun. cbn [snd].
  change (findById 2 st') with
    (findById
       (params_userId (Sample.with_bearer (Sample.token 1 300 3600 "k") [] 2))
       st').
  rewrite Hfind. f_equal.
  destruct v. cbn in Hact, Hid, Hn, He, Hp, Hr, Hc. now subst.
Defined.

Lemma old_deleteUser_removes_witness :
  let req := Sample.with_bearer (Sample.token 1 300 3600 "k") [] 2 in
  NoDup (map _id Sample.store)
  /\ findById 2 (snd (OldRoutes.deleteUser Sample.store req)) = None.
Proof.
  cbv zeta.
  assert (Hnd : NoDup (map _id Sample.store))
    by (cbn; repeat constructor; cbn; intuition discriminate).
  split; [exact Hnd|].
  destruct (old_deleteUser_removes Sample.store
              (Sample.with_bearer (Sample.token 1 300 3600 "k") [] 2)
              Sample.alice Hnd eq_refl) as (st' & Hrun & Hgone).
  rewrite Hrun. exact Hgone.
Defined.

Lemma handlers_keep_store_ok_witness :
  let req :=
    Sample.with_bearer (Sample.token 2 300 3600 (JWT_SECRET Sample.env))
      [("email", "alice@y.org")] 0 in
  store_ok Sample.store
  /\ store_ok (snd (@Routes.patch_me Sample.hasher Sample.env Sample.store
                      400 req)).
Proof.
  cbv zeta.
  assert (Hok : store_ok Sample.store) by closed_store_ok.
  split; [exact Hok|].
  exact (proj1 (proj2
           (@handlers_keep_store_ok Sample.hasher Sample.env Sample.store 400
              (Sample.with_bearer
                 (Sample.token 2 300 3600 (JWT_SECRET Sample.env))
                 [("email", "alice@y.org")] 0) Hok))).
Defined.

(** ** Deactivation takes effect at once *)

(** On a well-formed collection, an identity with [active = false] is
    refused by the login handler, by the auth middleware and by the
    refresh handler. *)
Lemma inactive_is_refused {PH : PasswordHasher} (env : Env) (st : Store)
      (now : Z) (req : Request) (u : User) :
  store_ok st -> In u st -> active u = false ->
  (Js.get (body req) "email" = Some (email u) ->
   status (Routes.login env st now req) <> 200)
  /\ (forall p key,
      header_Authorization req = Some (Bearer (Jwt.Jws p key)) ->
      Jwt.userId p = _id u ->
      exists res, Middleware.auth env st now req = Middleware.Reject res
                  /\ status res = 401)
  /\ (forall p key,
      cookies_refreshToken req = Some (Jwt.Jws p key) ->
      Jwt.userId p = _id u ->
      Routes.refreshToken env st now req
      = respond_error 401 "Invalid refresh token").
Proof.
  intros [Hids Hemails] Hin Hinactive. split; [|split].
  - intros He. unfold Routes.login. rewrite He.
    destruct (negb (Js.truthy (Some (email u))) || _); [cbn; discriminate|].
    cbn [Js.toString].
    destruct (findOne_finds (fun v => email v =? email u) st u Hin
                (String.eqb_refl _)) as [v Hv].
    rewrite Hv. apply findOne_some in Hv as [Hin' Hm].
    apply String.eqb_eq in Hm.
    assert (v = u) as -> by now apply (store_ok_email_key st).
    rewrite Hinactive. cbn. discriminate.
  - intros p key Hhdr Hsub.
    destruct (Middleware.auth env st now req) as [user token|res] eqn:Hauth.
    + exfalso.
      apply auth_next_inv in Hauth as (Hh & q & Hver & Hfind & _).
      rewrite Hhdr in Hh. injection Hh as <-.
      apply verify_inr_inv in Hver as (-> & _ & _).
      apply findOne_some in Hfind as [Hin' Hf].
      apply andb_prop in Hf as [Hid Hact]. apply Nat.eqb_eq in Hid.
      assert (user = u) as -> by (apply (store_ok_id_key st); congruence).
      congruence.
    + exists res. split; [reflexivity|]. now apply auth_reject_401 in Hauth.
  - intros p key Hc Hsub. rewrite (refreshToken_parsed _ _ _ _ _ Hc).
    cbn [Jwt.is_empty].
    destruct (Jwt.verify (Jwt.Jws p key) (JWT_REFRESH_SECRET env) now)
      as [e|q] eqn:Hver; cbn [bind]; [reflexivity|].
    apply verify_inr_inv in Hver as (-> & _ & _).
    rewrite Hsub, (findById_in st u Hids Hin), Hinactive. reflexivity.
Qed.

(** X17. Once [DELETE /users/:userId] has deactivated an identity of a
    well-formed collection, every later login with its email fails, the
    auth middleware rejects with 401 every bearer token that names it,
    however recently issued, and the refresh handler rejects every
    refresh token that names it. *)
Theorem delete_revokes_at_once {PH : PasswordHasher} (env : Env)
        (st : Store) (now now' : Z) (req req' : Request) (u : User) :
  store_ok st ->
  findById (params_userId req) st = Some u ->
  let st' := snd (Routes.deleteUser st now req) in
  (Js.get (body req') "email" = Some (email u) ->
   status (Routes.login env st' now' req') <> 200)
  /\ (forall p key,
      header_Authorization req' = Some (Bearer (Jwt.Jws p key)) ->
      Jwt.userId p = params_userId req ->
      exists res, Middleware.auth env st' now' req' = Middleware.Reject res
                  /\ status res = 401)
  /\ (forall p key,
      cookies_refreshToken req' = Some (Jwt.Jws p key) ->
      Jwt.userId p = params_userId req ->
      Routes.refreshToken env st' now' req'
      = respond_error 401 "Invalid refresh token").
Proof.
  intros Hok Hfound st'. subst st'.
  assert (Hid : _id u = params_userId req).
  { apply findOne_some in Hfound as [_ H]. now apply Nat.eqb_eq in H. }
  assert (Hin : In u st) by (now apply findOne_some in Hfound).
  rewrite (deleteUser_store st now req u Hfound).
  assert (Hok' : store_ok (UserModel.write (set_active false u) st)).
  { apply (write_existing_ok _ u); try assumption; [reflexivity|].
    intros v Hv Hne Heq. cbn in Hne, Heq.
    assert (v = u) by (apply (store_ok_email_key st); try assumption;
                       apply Hok).
    congruence. }
  assert (Hin' : In (set_active false u)
                   (UserModel.write (set_active false u) st)).
  { pose proof (findById_write (set_active false u) st) as H.
    now apply findOne_some in H. }
  destruct (inactive_is_refused env _ now' req' (set_active false u)
              Hok' Hin' eq_refl) as (Hlogin & Hauth & Hrefresh).
  split; [exact Hlogin|]. split.
  - intros p key Hhdr Hsub. apply (Hauth p key Hhdr). cbn. congruence.
  - intros p key Hc Hsub. apply (Hrefresh p key Hc). cbn. congruence.
Qed.

Lemma delete_revokes_at_once_witness :
  let req := Sample.with_bearer (Sample.token 1 300 3600 "k") [] 2 in
  let fresh := Sample.token 2 399 604800 (JWT_REFRESH_SECRET Sample.env) in
  store_ok Sample.store
  /\ Routes.refreshToken Sample.env
       (snd (@Routes.deleteUser Sample.hasher Sample.store 400 req)) 401
       (Sample.with_cookie fresh)
     = respond_error 401 "Invalid refresh token".
Proof.
  cbv zeta.
  assert (Hok : store_ok Sample.store) by closed_store_ok.
  split; [exact Hok|].
  exact (proj2 (proj2
           (@delete_revokes_at_once Sample.hasher Sample.env Sample.store
              400 401
              (Sample.with_bearer (Sample.token 1 300 3600 "k") [] 2)
              (Sample.with_cookie
                 (Sample.token 2 399 604800 (JWT_REFRESH_SECRET Sample.env)))
              Sample.alice Hok eq_refl))
           _ _ eq_refl eq_refl).
Defined.

(** ** When no admin is active *)

(** X18. When every identity with the role ['admin'] is deactivated and
    there is at least one, no request gets past the admin guard, so the
    three admin routes change nothing, and [POST /create-admin]
    answers 400 because an admin exists: the interface offers no way
    back to an active admin. *)
Theorem no_active_admin_no_way_back {PH : PasswordHasher} (env : Env)
        (st : Store) (now : Z) (req : Request) (a : User) :
  In a st -> role a = "admin" ->
  (forall u, In u st -> role u = "admin" -> active u = false) ->
  (status (fst (Routes.post_register env st now req)) = 401
   \/ status (fst (Routes.post_register env st now req)) = 403)
  /\ snd (Routes.post_register env st now req) = st
  /\ (status (fst (Routes.patch_user env st now req)) = 401
      \/ status (fst (Routes.patch_user env st now req)) = 403)
  /\ snd (Routes.patch_user env st now req) = st
  /\ (status (fst (Routes.delete_user env st now req)) = 401
      \/ status (fst (Routes.delete_user env st now req)) = 403)
  /\ snd (Routes.delete_user env st now req) = st
  /\ Routes.post_create_admin env st now req
     = (respond_error 400 "Admin user already exists", st).
Proof.
  intros Hin Hrole Hall.
  assert (Hguard : forall handler,
             let r := Routes.behind_auth env st now req (fun user =>
                        Routes.behind_role ["admin"] user st handler) in
             (status (fst r) = 401 \/ status (fst r) = 403) /\ snd r = st).
  { intros handler. cbv zeta. unfold Routes.behind_auth, Routes.behind_role.
    destruct (Middleware.auth env st now req) as [user token|res] eqn:Hauth.
    - apply auth_next_inv in Hauth as (_ & p & _ & Hfind & _).
      apply findOne_some in Hfind as [Hin' Hf].
      apply andb_prop in Hf as [_ Hact].
      unfold Middleware.checkRole.
      destruct (Js.includes ["admin"] (role user)) eqn:Hinc; cbn [negb].
      + exfalso. apply includes_In in Hinc. destruct Hinc as [E|[]].
        symmetry in E. rewrite (Hall user Hin' E) in Hact. discriminate.
      + split; [now right|reflexivity].
    - split; [left; now apply auth_reject_401 in Hauth|reflexivity]. }
  unfold Routes.post_register, Routes.patch_user, Routes.delete_user.
  destruct (Hguard (Routes.register st now req)) as [H1 H2].
  destruct (Hguard (Routes.patchUser st now req)) as [H3 H4].
  destruct (Hguard (Routes.deleteUser st now req)) as [H5 H6].
  repeat (split; [assumption|]).
  unfold Routes.post_create_admin, Routes.createAdmin.
  destruct (findOne_finds (fun u => role u =? "admin") st a Hin) as [v Hv].
  { rewrite Hrole. reflexivity. }
  now rewrite Hv.
Qed.

Lemma no_active_admin_no_way_back_witness :
  let st := [set_active false Sample.admin; Sample.alice] in
  let req :=
    Sample.with_bearer (Sample.token 1 300 3600 (JWT_SECRET Sample.env))
      [] 1 in
  @Routes.post_create_admin Sample.hasher Sample.env st 400 req
  = (respond_error 400 "Admin user already exists", st).
Proof.
  cbv zeta.
  apply (@no_active_admin_no_way_back Sample.hasher Sample.env
           [set_active false Sample.admin; Sample.alice] 400
           (Sample.with_bearer
              (Sample.token 1 300 3600 (JWT_SECRET Sample.env)) [] 1)
           (set_active false Sample.admin)).
  - cbn. auto.
  - reflexivity.
  - intros u [<-|[<-|[]]]; [reflexivity|discriminate].
Defined.

(** ** The server: its error handler and its start-up *)

(** X19. The global error handler puts the message and the stack of an
    error into the answer exactly when [NODE_ENV] is ['development'],
    which on this server is the case when the variable is unset, empty
    or so set; in every other mode the answer holds
    ['Internal server error'] and nothing of the error. The status is
    the [statusCode] of the error, or 500 when it has none or 0. *)
Theorem errorHandler_discloses_iff (raw : RawEnv) (err : ErrorHandler.Err) :
  (NODE_ENV (loadEnv raw) = "development"
   <-> raw_NODE_ENV raw = None \/ raw_NODE_ENV raw = Some ""
       \/ raw_NODE_ENV raw = Some "development")
  /\ (NODE_ENV (loadEnv raw) = "development" ->
      ErrorHandler.handle (loadEnv raw) err
      = respond (ErrorHandler.statusCode_or_500 err)
          (JObj [("status", JStr "error");
                 ("message", JStr (ErrorHandler.err_message err));
                 ("stack", JStr (ErrorHandler.err_stack err))]))
  /\ (NODE_ENV (loadEnv raw) <> "development" ->
      ErrorHandler.handle (loadEnv raw) err
      = respond (ErrorHandler.statusCode_or_500 err)
          (JObj [("status", JStr "error");
                 ("message", JStr "Internal server error")]))
  /\ ErrorHandler.statusCode_or_500 err <> 0.
Proof.
  split; [|split; [|split]].
  - unfold loadEnv, Js.or_else. cbn [NODE_ENV].
    destruct (raw_NODE_ENV raw) as [s|]; [|tauto].
    destruct (String.eqb_spec s "") as [->|Hne].
    + tauto.
    + split.
      * intros ->. auto.
      * intros [H|[H|H]]; congruence.
  - intros H. unfold ErrorHandler.handle. rewrite H. reflexivity.
  - intros H. unfold ErrorHandler.handle.
    apply String.eqb_neq in H. rewrite H. reflexivity.
  - unfold ErrorHandler.statusCode_or_500.
    destruct (ErrorHandler.statusCode err) as [[|n]|]; discriminate.
Qed.

(** A write puts the document into the collection. *)
Lemma write_in (u : User) (st : Store) : In u (UserModel.write u st).
Proof.
  pose proof (findById_write u st) as H. now apply findOne_some in H.
Qed.

(** X20. The start-up step is idempotent: once it has succeeded, with
    or without creating the default admin, running it again leaves the
    collection as it is, and [POST /create-admin] answers 400. *)
Theorem createDefaultAdmin_idempotent {PH : PasswordHasher} (env : Env)
        (st st' : Store) (now now' : Z) (req : Request) :
  Server.createDefaultAdmin st now = inr st' ->
  Server.createDefaultAdmin st' now' = inr st'
  /\ Routes.post_create_admin env st' now' req
     = (respond_error 400 "Admin user already exists", st').
Proof.
  intros Hrun.
  assert (Hadmin : exists a, findOne (fun u => role u =? "admin") st'
                             = Some a).
  { unfold Server.createDefaultAdmin in Hrun.
    destruct (findOne (fun u => role u =? "admin") st) as [a|] eqn:Hfind.
    - injection Hrun as <-. now exists a.
    - unfold UserModel.save in Hrun.
      destruct (_ && negb _) in Hrun; [discriminate|]. cbv zeta in Hrun.
      destruct (_ && existsb _ st) in Hrun; [discriminate|].
      injection Hrun as <-.
      apply (findOne_finds _ _ _ (write_in _ st)).
      destruct (preSave_frame now
                  (UserModel.newUser st "Admin User" "admin@test.ac.in"
                     "admin123" "admin")) as (_ & _ & _ & -> & _).
      reflexivity. }
  destruct Hadmin as [a Ha].
  unfold Server.createDefaultAdmin, Routes.post_create_admin,
    Routes.createAdmin.
  rewrite Ha. split; reflexivity.
Qed.

Lemma createDefaultAdmin_idempotent_witness :
  let st := [Sample.alice; Sample.bob] in
  exists st',
    @Server.createDefaultAdmin Sample.hasher st 0 = inr st'
    /\ List.length st' = 3
    /\ @Server.createDefaultAdmin Sample.hasher st' 10 = inr st'.
Proof.
  cbv zeta. eexists. split; [reflexivity|]. split; [reflexivity|].
  exact (proj1 (@createDefaultAdmin_idempotent Sample.hasher Sample.env
                  [Sample.alice; Sample.bob] _ 0 10 Sample.request eq_refl)).
Defined.

(** ** The tasks router: who may change the status of a task *)

Lemma task_findById_id (id : ObjectId) (ts : TaskModel.TaskStore)
      (t : TaskModel.Task) :
  TaskModel.findById id ts = Some t -> TaskModel._id t = id.
Proof.
  unfold TaskModel.findById.
  destruct (find _ ts) as [t0|] eqn:H; [|discriminate].
  intros [= <-]. apply find_some in H as [_ H]. apply Nat.eqb_eq in H.
  unfold TaskModel.applyDefaults. now destruct (TaskModel.status t0).
Qed.

(** The defaults leave a document with a status as it is. *)
Lemma applyDefaults_status (t : TaskModel.Task) (s : string) :
  TaskModel.status t = Some s -> TaskModel.applyDefaults t = t.
Proof. intros H. unfold TaskModel.applyDefaults. now rewrite H. Qed.

Lemma task_findById_write (t : TaskModel.Task) (ts : TaskModel.TaskStore) :
  TaskModel.findById (TaskModel._id t) (TaskModel.write t ts)
  = Some (TaskModel.applyDefaults t).
Proof.
  unfold TaskModel.findById.
  induction ts as [|t' ts IH]; cbn [TaskModel.write find].
  - now rewrite Nat.eqb_refl.
  - destruct (Nat.eqb (TaskModel._id t') (TaskModel._id t)) eqn:E;
      cbn [find].
    + now rewrite Nat.eqb_refl.
    + now rewrite E.
Qed.

Lemma task_findById_write_other (t : TaskModel.Task)
      (ts : TaskModel.TaskStore) (id : ObjectId) :
  id <> TaskModel._id t ->
  TaskModel.findById id (TaskModel.write t ts) = TaskModel.findById id ts.
Proof.
  intros Hid. unfold TaskModel.findById.
  induction ts as [|t' ts IH]; cbn [TaskModel.write find].
  - destruct (Nat.eqb_spec (TaskModel._id t) id); [congruence|reflexivity].
  - destruct (Nat.eqb_spec (TaskModel._id t') (TaskModel._id t)) as [E|E];
      cbn [find].
    + destruct (Nat.eqb_spec (TaskModel._id t) id); [congruence|].
      destruct (Nat.eqb_spec (TaskModel._id t') id); [congruence|reflexivity].
    + destruct (Nat.eqb (TaskModel._id t') id); [reflexivity|exact IH].
Qed.

(** X21. A user who is neither the assignee of a task nor an admin is
    answered 403 by [PATCH /:taskId/status]; a user who is not the
    assignee, an admin included, is answered 403 by
    [POST /:taskId/accept]; a request the auth middleware rejects gets
    its 401. In all these cases the tasks are as before. Conversely the
    tasks change only for the assignee, or for an admin of the status
    route. *)
Theorem task_status_authorization (env : Env) (users : Store)
        (ts : TaskModel.TaskStore) (now : Z) (taskId : ObjectId)
        (req : Request) :
  (forall req_user found,
      TaskModel.findById taskId ts = Some found ->
      TaskModel.assignedTo found <> _id req_user ->
      (role req_user <> "admin" ->
       TaskRoutes.updateStatus users ts now req_user taskId req
       = (TaskRoutes.answer_error 403 "Not authorized to update this task",
          ts))
      /\ TaskRoutes.accept users ts req_user taskId
         = (TaskRoutes.answer_error 403 "Not authorized to accept this task",
            ts))
  /\ (forall res,
      Middleware.auth env users now req = Middleware.Reject res ->
      TaskRoutes.code (fst (TaskRoutes.patch_status env users ts now taskId req))
      = 401
      /\ snd (TaskRoutes.patch_status env users ts now taskId req) = ts
      /\ TaskRoutes.code (fst (TaskRoutes.post_accept env users ts now taskId req))
         = 401
      /\ snd (TaskRoutes.post_accept env users ts now taskId req) = ts)
  /\ (forall req_user,
      snd (TaskRoutes.updateStatus users ts now req_user taskId req) <> ts ->
      exists found,
        TaskModel.findById taskId ts = Some found
        /\ (TaskModel.assignedTo found = _id req_user
            \/ role req_user = "admin"))
  /\ (forall req_user,
      snd (TaskRoutes.accept users ts req_user taskId) <> ts ->
      exists found,
        TaskModel.findById taskId ts = Some found
        /\ TaskModel.assignedTo found = _id req_user).
Proof.
  split; [|split; [|split]].
  - intros req_user found Hfound Hne.
    apply Nat.eqb_neq in Hne. split.
    + intros Hrole. apply String.eqb_neq in Hrole.
      unfold TaskRoutes.updateStatus. now rewrite Hfound, Hne, Hrole.
    + unfold TaskRoutes.accept. now rewrite Hfound, Hne.
  - intros res Hrej.
    unfold TaskRoutes.patch_status, TaskRoutes.post_accept.
    rewrite Hrej. cbn. apply auth_reject_401 in Hrej. auto.
  - intros req_user. unfold TaskRoutes.updateStatus.
    destruct (TaskModel.findById taskId ts) as [found|];
      [|intros H; now contradiction H].
    destruct (Nat.eqb_spec (TaskModel.assignedTo found) (_id req_user))
      as [E|E]; cbn [negb andb].
    + intros _. exists found. auto.
    + destruct (String.eqb_spec (role req_user) "admin") as [R|R];
        cbn [negb].
      * intros _. exists found. auto.
      * intros H. now contradiction H.
  - intros req_user. unfold TaskRoutes.accept.
    destruct (TaskModel.findById taskId ts) as [found|];
      [|intros H; now contradiction H].
    destruct (Nat.eqb_spec (TaskModel.assignedTo found) (_id req_user))
      as [E|E]; cbn [negb].
    + intros _. exists found. auto.
    + intros H. now contradiction H.
Qed.

(** X22. When the assignee accepts a task (its title and description
    being in order), the answer is 200 and the task is stored with the
    status ['in_progress'] whatever its status was, a completed task
    included; its other fields, [completedAt] among them, stay, and so
    do the other tasks. *)
Theorem accept_sets_in_progress (users : Store) (ts : TaskModel.TaskStore)
        (req_user : User) (taskId : ObjectId) (found : TaskModel.Task) :
  TaskModel.findById taskId ts = Some found ->
  TaskModel.assignedTo found = _id req_user ->
  TaskModel.title found <> "" -> TaskModel.description found <> "" ->
  let accepted := TaskModel.set_status (Some "in_progress") found in
  let ts' := snd (TaskRoutes.accept users ts req_user taskId) in
  TaskRoutes.code (fst (TaskRoutes.accept users ts req_user taskId)) = 200
  /\ TaskModel.findById taskId ts' = Some accepted
  /\ TaskModel.completedAt accepted = TaskModel.completedAt found
  /\ (forall id, id <> taskId ->
                 TaskModel.findById id ts' = TaskModel.findById id ts).
Proof.
  intros Hfound Hassignee Ht Hd accepted ts'. subst accepted ts'.
  pose proof (task_findById_id _ _ _ Hfound) as Hid.
  unfold TaskRoutes.accept. rewrite Hfound, Hassignee, Nat.eqb_refl.
  cbn [negb]. unfold TaskModel.save, TaskModel.valid.
  cbn [TaskModel.title TaskModel.description TaskModel.status
       TaskModel.set_status].
  apply String.eqb_neq in Ht, Hd. rewrite Ht, Hd.
  change (Js.includes TaskModel.statuses "in_progress") with true.
  cbn [negb andb fst snd TaskRoutes.code].
  split; [reflexivity|]. split; [|split; [reflexivity|]].
  - rewrite <- Hid.
    apply (task_findById_write (TaskModel.set_status (Some "in_progress")
                                  found)).
  - intros id Hne. apply task_findById_write_other. cbn. congruence.
Qed.

Lemma accept_sets_in_progress_witness :
  TaskModel.status SampleTasks.report = Some "completed"
  /\ TaskModel.findById 10
       (snd (TaskRoutes.accept Sample.store SampleTasks.store Sample.alice 10))
     = Some (TaskModel.set_status (Some "in_progress") SampleTasks.report).
Proof.
  split; [reflexivity|].
  apply (accept_sets_in_progress Sample.store SampleTasks.store Sample.alice
           10 SampleTasks.report eq_refl eq_refl);
    discriminate.
Defined.

(** X23. When the assignee of a task, or an admin, sets its status (the
    title and description of the task being in order): a status outside
    the enumeration is answered 400 and the tasks are as before; a
    status of the enumeration is answered 200 and stored. [completedAt]
    becomes the current time when the status is ['completed'] and
    otherwise stays as it was, so that a task moved back from
    ['completed'] keeps its completion date. The notes are replaced, by
    the trimmed text, only when the body has non-empty ones. No other
    field and no other task changes. *)
Theorem updateStatus_effect (users : Store) (ts : TaskModel.TaskStore)
        (now : Z) (req_user : User) (taskId : ObjectId) (req : Request)
        (found : TaskModel.Task) (s : string) :
  TaskModel.findById taskId ts = Some found ->
  TaskModel.assignedTo found = _id req_user \/ role req_user = "admin" ->
  TaskModel.title found <> "" -> TaskModel.description found <> "" ->
  Js.get (body req) "status" = Some s ->
  let r := TaskRoutes.updateStatus users ts now req_user taskId req in
  (Js.includes TaskModel.statuses s = false ->
   TaskRoutes.code (fst r) = 400 /\ snd r = ts)
  /\ (Js.includes TaskModel.statuses s = true ->
      TaskRoutes.code (fst r) = 200
      /\ (forall id, id <> taskId ->
                     TaskModel.findById id (snd r) = TaskModel.findById id ts)
      /\ exists t,
          TaskModel.findById taskId (snd r) = Some t
          /\ TaskModel.status t = Some s
          /\ TaskModel.completedAt t
             = (if s =? "completed" then Some now
                else TaskModel.completedAt found)
          /\ TaskModel.completionNotes t
             = (if Js.truthy (Js.get (body req) "completionNotes")
                then Some (JsString.trim
                             (Js.toString
                                (Js.get (body req) "completionNotes")))
                else TaskModel.completionNotes found)
          /\ TaskModel._id t = TaskModel._id found
          /\ TaskModel.title t = TaskModel.title found
          /\ TaskModel.description t = TaskModel.description found
          /\ TaskModel.assignedTo t = TaskModel.assignedTo found
          /\ TaskModel.assignedBy t = TaskModel.assignedBy found
          /\ TaskModel.createdAt t = TaskModel.createdAt found).
Proof.
  intros Hfound Hauth Ht Hd Hs r. subst r.
  pose proof (task_findById_id _ _ _ Hfound) as Hid.
  assert (Hgate : negb (Nat.eqb (TaskModel.assignedTo found) (_id req_user))
                  && negb (role req_user =? "admin") = false).
  { destruct Hauth as [->| ->].
    - now rewrite Nat.eqb_refl.
    - change ("admin" =? "admin") with true. apply andb_false_r. }
  apply String.eqb_neq in Ht, Hd.
  unfold TaskRoutes.updateStatus. rewrite Hfound, Hgate, Hs.
  set (task2 := if Js.truthy (Js.get (body req) "completionNotes")
                then TaskModel.set_completionNotes
                       (Js.toString (Js.get (body req) "completionNotes"))
                       (TaskModel.set_status (Some s) found)
                else TaskModel.set_status (Some s) found).
  set (task3 := if s =? "completed"
                then TaskModel.set_completedAt now task2 else task2).
  assert (H3 : TaskModel._id task3 = TaskModel._id found
               /\ TaskModel.title task3 = TaskModel.title found
               /\ TaskModel.description task3 = TaskModel.description found
               /\ TaskModel.assignedTo task3 = TaskModel.assignedTo found
               /\ TaskModel.assignedBy task3 = TaskModel.assignedBy found
               /\ TaskModel.createdAt task3 = TaskModel.createdAt found
               /\ TaskModel.status task3 = Some s
               /\ TaskModel.completedAt task3
                  = (if s =? "completed" then Some now
                     else TaskModel.completedAt found)
               /\ TaskModel.completionNotes task3
                  = (if Js.truthy (Js.get (body req) "completionNotes")
                     then Some (JsString.trim
                                  (Js.toString
                                     (Js.get (body req) "completionNotes")))
                     else TaskModel.completionNotes found)).
  { subst task3 task2.
    destruct (s =? "completed");
      destruct (Js.truthy (Js.get (body req) "completionNotes"));
      repeat split. }
  destruct H3 as (I1 & I2 & I3 & I4 & I5 & I6 & I7 & I8 & I9).
  unfold TaskModel.save, TaskModel.valid. rewrite I2, I3, I7, Ht, Hd.
  cbn [negb andb].
  split.
  - intros ->. split; reflexivity.
  - intros ->. cbn [fst snd TaskRoutes.code].
    split; [reflexivity|]. split.
    + intros id Hne. apply task_findById_write_other. congruence.
    + exists task3. split; [|auto 10].
      rewrite <- Hid, <- I1, task_findById_write.
      now rewrite (applyDefaults_status task3 s I7).
Qed.

Lemma updateStatus_effect_witness :
  let req := Sample.with_body [("status", "pending")] in
  TaskModel.completedAt SampleTasks.report = Some 90%Z
  /\ exists t,
      TaskModel.findById 10
        (snd (TaskRoutes.updateStatus Sample.store SampleTasks.store 500
                Sample.alice 10 req)) = Some t
      /\ TaskModel.status t = Some "pending"
      /\ TaskModel.completedAt t = Some 90%Z.
Proof.
  cbv zeta. split; [reflexivity|].
  destruct (proj2 (updateStatus_effect Sample.store SampleTasks.store 500
                     Sample.alice 10
                     (Sample.with_body [("status", "pending")])
                     SampleTasks.report "pending"
                     eq_refl (or_introl eq_refl)
                     ltac:(discriminate) ltac:(discriminate) eq_refl)
              eq_refl) as (_ & _ & t & Hfind & Hstatus & Hdone & _).
  exists t. auto.
Defined.

(** ** A change of password *)

(** What the self-update does with the field [password] alone. *)
Lemma patchMe_password {PH : PasswordHasher} (st : Store) (now : Z)
      (req_user : User) (req : Request) (found : User) (p : string) :
  body req = [("password", p)] ->
  findById (_id req_user) st = Some found ->
  Routes.patchMe st now req_user req
  = (respond 200 (JObj [("user", JObj (Routes.publicUser found))]),
     UserModel.write
       (set_passwordChangedAt (Some now) (set_password (hash p) found)) st).
Proof.
  intros Hbody Hfound. unfold Routes.patchMe. rewrite Hbody, Hfound.
  cbn [Js.keys map fst Routes.isValidOperation forallb].
  change (Js.includes ["name"; "email"; "password"] "password") with true.
  cbn [andb negb Routes.applyUpdates Js.get].
  change ("password" =? "password") with true. cbv iota.
  unfold UserModel.assign.
  change ("password" =? "name") with false.
  change ("password" =? "email") with false.
  change ("password" =? "password") with true. cbv iota.
  reflexivity.
Qed.

(** X24. After a self-update that changes the password alone, at time
    [now], of an active identity in a well-formed collection: a login
    with the new password succeeds (when the hasher verifies a password
    against its own digest), and the auth middleware rejects with 401
    every bearer token for the identity that was issued before [now]. *)
Theorem password_change_takes_effect {PH : PasswordHasher} (raw : RawEnv)
        (st : Store) (now now' : Z) (req_user : User) (req req' : Request)
        (found : User) (p : string) :
  store_ok st ->
  findById (_id req_user) st = Some found -> active found = true ->
  body req = [("password", p)] -> p <> "" ->
  let st' := snd (Routes.patchMe st now req_user req) in
  (verify p (hash p) = true ->
   Js.get (body req') "email" = Some (email found) -> email found <> "" ->
   Js.get (body req') "password" = Some p ->
   status (Routes.login (loadEnv raw) st' now' req') = 200)
  /\ (forall q key,
      header_Authorization req' = Some (Bearer (Jwt.Jws q key)) ->
      Jwt.userId q = _id found -> (Jwt.iat q < now)%Z ->
      exists res,
        Middleware.auth (loadEnv raw) st' now' req' = Middleware.Reject res
        /\ status res = 401).
Proof.
  intros Hok Hfound Hact Hbody Hnp st'. subst st'.
  rewrite (patchMe_password st now req_user req found p Hbody Hfound).
  cbn [snd].
  set (u' := set_passwordChangedAt (Some now) (set_password (hash p) found)).
  assert (Hin : In found st) by (now apply findOne_some in Hfound).
  assert (Hok' : store_ok (UserModel.write u' st)).
  { apply (write_existing_ok _ found); try assumption; [reflexivity|].
    intros v Hv Hne Heq. cbn in Hne, Heq.
    assert (v = found) by (apply (store_ok_email_key st); try assumption;
                           apply Hok).
    congruence. }
  pose proof (write_in u' st) as Hin'.
  split.
  - intros Hverify He Hne Hp.
    rewrite (login_ok raw _ now' req' (email found) p u' He Hne Hp Hnp);
      [reflexivity| |exact Hact|exact Hverify].
    destruct (findOne_finds (fun v => email v =? email found) _ u' Hin'
                (String.eqb_refl _)) as [v Hv].
    rewrite Hv. f_equal.
    apply findOne_some in Hv as [Hvin Hm]. apply String.eqb_eq in Hm.
    apply (store_ok_email_key (UserModel.write u' st)); try assumption.
    apply Hok'.
  - intros q key Hhdr Hsub Hold.
    now apply (auth_rejects_token_older_than_password (loadEnv raw) _ now'
                 req' u' q key now).
Qed.

Lemma password_change_takes_effect_witness :
  let req := Sample.with_body [("password", "N3w-secret")] in
  let old := Sample.token 2 300 3600 (JWT_SECRET Sample.env) in
  store_ok Sample.store
  /\ exists res,
      Middleware.auth Sample.env
        (snd (@Routes.patchMe Sample.hasher Sample.store 400 Sample.alice req))
        401 (Sample.with_bearer old [] 0)
      = Middleware.Reject res
      /\ status res = 401.
Proof.
  cbv zeta.
  assert (Hok : store_ok Sample.store) by closed_store_ok.
  split; [exact Hok|].
  apply (proj2 (@password_change_takes_effect Sample.hasher
                  {| raw_JWT_SECRET := None; raw_JWT_REFRESH_SECRET := None;
                     raw_NODE_ENV := None |}
                  Sample.store 400 401 Sample.alice
                  (Sample.with_body [("password", "N3w-secret")])
                  (Sample.with_bearer
                     (Sample.token 2 300 3600 (JWT_SECRET Sample.env)) [] 0)
                  Sample.alice "N3w-secret" Hok eq_refl eq_refl eq_refl
                  ltac:(discriminate))
           {| Jwt.userId := 2; Jwt.iat := 300; Jwt.exp := 300 + 3600 |}
           (JWT_SECRET Sample.env));
    reflexivity.
Defined.

(** X25. An admin update, whatever its body, touches no record but the
    one its [userId] names, and leaves the [_id] of that one as it
    was. *)
Theorem patchUser_frame {PH : PasswordHasher} (st : Store) (now : Z)
        (req : Request) :
  (forall id, id <> params_userId req ->
              findById id (snd (Routes.patchUser st now req))
              = findById id st)
  /\ (forall v,
      findById (params_userId req) st = Some v ->
      exists v',
        findById (params_userId req) (snd (Routes.patchUser st now req))
        = Some v'
        /\ _id v' = _id v).
Proof.
  unfold Routes.patchUser.
  destruct (Routes.isValidOperation _ _); cbn [negb];
    [|split; [reflexivity|intros v Hv; exists v; auto]].
  destruct (findById (params_userId req) st) as [found|] eqn:Hfound;
    [|split; [reflexivity|discriminate]].
  destruct (Routes.applyUpdates _ _ _) as [e|d] eqn:Hrun; cbn [bind];
    [split; [reflexivity
            |intros v Hv; exists v; cbn [snd]; rewrite Hfound; auto]|].
  destruct (UserModel.save now d st) as [e|st'] eqn:Hsave; cbn [bind];
    [split; [reflexivity
            |intros v Hv; exists v; cbn [snd]; rewrite Hfound; auto]|].
  cbn [snd].
  destruct (applyUpdates_bookkeeping _ _ _ _ Hrun) as [Hid _].
  destruct (preSave_frame now d) as (Pid & _).
  cbn in Hid.
  assert (Hfid : _id found = params_userId req).
  { apply findOne_some in Hfound as [_ H]. now apply Nat.eqb_eq in H. }
  unfold UserModel.save in Hsave.
  destruct (_ && negb _) in Hsave; [discriminate|]. cbv zeta in Hsave.
  destruct (_ && existsb _ st) in Hsave; [discriminate|].
  injection Hsave as <-.
  split.
  - intros id Hne. apply findById_write_other. congruence.
  - intros v [= <-]. exists (UserModel.preSave now d).
    split; [|congruence].
    replace (params_userId req) with (_id (UserModel.preSave now d))
      by congruence.
    apply findById_write.
Qed.
